(** * emoji-vacuum: the emote database layer

    A shallow embedding of the [Database] cog of the bot, in its two
    versions found in the repository:

    - [EmoteCollector]: [src/emote_collector/extensions/db.py], the current
      package;
    - [Cogs]: [src/cogs/db.py], its predecessor.

    The PostgreSQL tables are lists of rows (the [emotes] table and the
    append-only [emote_usage_history]) and finite maps keyed by the primary
    key (the [user_opt] and [guild_opt] tables).  The Discord HTTP service,
    the client cache, the clock, the configuration and the random source are
    oracles of an environment record.  Coroutines are computations of a
    state-and-exception monad over the database; every call to a
    collaborator is recorded in a trace. *)

From Stdlib Require Import ZArith NArith String Ascii List Bool Lia.
From stdpp Require Import base option list gmap strings.
Import ListNotations.

Local Open Scope string_scope.
Local Open Scope list_scope.
Local Open Scope Z_scope.

(** ** Strings *)

Module Str.

(** [str.lower()] and SQL [LOWER()].  Emote names are made of ASCII letters,
    digits and underscores, where both agree with the ASCII case mapping;
    other bytes are left as they are. *)
Definition lower_ascii (c : ascii) : ascii :=
  let n := N_of_ascii c in
  if ((65 <=? n) && (n <=? 90))%N then ascii_of_N (n + 32) else c.

Fixpoint lower (s : string) : string :=
  match s with
  | EmptyString => EmptyString
  | String c s' => String (lower_ascii c) (lower s')
  end.

(** [s.endswith(suffix)] *)
Definition endswith (s suffix : string) : bool :=
  let n := String.length s in
  let m := String.length suffix in
  if (m <=? n)%nat then String.eqb (substring (n - m) m s) suffix else false.

(** Case-insensitive equality: [LOWER(a) = LOWER(b)]. *)
Definition ieq (a b : string) : bool := String.eqb (lower a) (lower b).

End Str.

(** ** Coroutines as a state-and-exception monad

    A computation runs on a store [S] and either returns a value or raises an
    exception of type [E]; the store it leaves behind is kept in both cases
    (nothing is rolled back when a Python exception propagates). *)

Section Monad.
Context {S E : Type}.

Inductive result (A : Type) : Type :=
| Ok (a : A)
| Raise (e : E).
#[global] Arguments Ok {A} a.
#[global] Arguments Raise {A} e.

Definition M (A : Type) : Type := S -> result A * S.

Definition ret {A} (a : A) : M A := fun s => (Ok a, s).

Definition bind {A B} (c : M A) (k : A -> M B) : M B :=
  fun s =>
    match c s with
    | (Ok a, s') => k a s'
    | (Raise e, s') => (Raise e, s')
    end.

Definition raise {A} (e : E) : M A := fun s => (Raise e, s).

Definition get : M S := fun s => (Ok s, s).

Definition modify (f : S -> S) : M unit := fun s => (Ok tt, f s).

(** [try: c  except <classes accepted by catches> as ex: handler ex] *)
Definition try_except {A} (c : M A) (catches : E -> bool) (handler : E -> M A) : M A :=
  fun s =>
    match c s with
    | (Ok a, s') => (Ok a, s')
    | (Raise e, s') => if catches e then handler e s' else (Raise e, s')
    end.

(** [for x in xs: body x] *)
Fixpoint for_each {A} (xs : list A) (body : A -> M unit) : M unit :=
  match xs with
  | [] => ret tt
  | x :: xs' => bind (body x) (fun _ => for_each xs' body)
  end.
End Monad.

Declare Scope coro_scope.
Delimit Scope coro_scope with coro.
Notation "x <- c ;; k" := (bind c (fun x => k))
  (at level 100, c at next level, right associativity) : coro_scope.
Notation "c ;;; k" := (bind c (fun _ => k))
  (at level 100, right associativity) : coro_scope.

(** ** [src/emote_collector/extensions/db.py] *)

Module EmoteCollector.

(** *** Data *)

(** A row of the [emotes] table wrapped by [DatabaseEmote.__init__]: one
    field per column of [__slots__]; [usage] is only set by the queries that
    select it. *)
Record DatabaseEmote : Type := mkDatabaseEmote {
  name : string;
  id : Z;
  author : Z;
  animated : bool;
  description : option string;
  created : Z;
  modified : option Z;
  preserve : bool;
  guild : option Z;
  nsfw : string;
  usage : option Z
}.

(** [DatabaseEmote.is_nsfw] *)
Definition is_nsfw (emote : DatabaseEmote) : bool := Str.endswith (nsfw emote) "NSFW".

(** The exceptions that cross the functions below.  [NotFound] and
    [HTTPException] are discord.py's, [BadArgument] is discord.ext.commands',
    [UniqueViolationError] and [NotNullViolationError] are asyncpg's,
    [TypeError] is Python's; the others are the bot's own [utils.errors]. *)
Inductive exn : Type :=
| EmoteNotFoundError (n : string)
| EmoteExistsError (emote : DatabaseEmote)
| PermissionDeniedError (n : string)
| NoMoreSlotsError
| DiscordError
| BadArgument (message : string)
| NotFound
| HTTPException (status : Z)
| UniqueViolationError
| NotNullViolationError
| TypeError.

Definition is_EmoteNotFoundError (e : exn) : bool :=
  match e with EmoteNotFoundError _ => true | _ => false end.

Definition is_NotFound (e : exn) : bool :=
  match e with NotFound => true | _ => false end.

(** Modelled from the spec: [utils/errors.py] is not under src/.  The error
    taxonomy of the specification makes the lookup miss, the name conflict,
    the permission failure and the capacity exhaustion the bot's recoverable
    domain errors: these are the subclasses of [errors.ConnoisseurError]. *)
Definition is_ConnoisseurError (e : exn) : bool :=
  match e with
  | EmoteNotFoundError _ | EmoteExistsError _ | PermissionDeniedError _ | NoMoreSlotsError => true
  | _ => false
  end.

Definition is_DiscordError (e : exn) : bool :=
  match e with DiscordError => true | _ => false end.

(** A row of [user_opt]; a row of [guild_opt] is its nullable [state]. *)
Record user_opt_row : Type := mkUserOpt {
  state : option bool;
  blacklist_reason : option string
}.

(** Calls to collaborators, in the order they were made. *)
Inductive event : Type :=
| Call_free_guild (is_animated : bool)
| Http_create_custom_emoji (guild_id : Z) (n : string)
| Http_delete_custom_emoji (guild_id : option Z) (emote_id : Z)
| Http_edit_custom_emoji (guild_id : option Z) (emote_id : Z) (n : string)
| Log_debug_decaying (n : string)
| Log_warn_not_in_backend (n : string)
| Log_error_decaying_failed (n : string) (ex : exn)
| Logger_on_emote_decay (emote_id : Z)
| Message_delete (message : Z).

(** The database and the trace. *)
Record world : Type := mkWorld {
  emotes : list DatabaseEmote;
  emote_usage_history : list (Z * Z);       (* (id, time) *)
  user_opt : gmap Z user_opt_row;
  guild_opt : gmap Z (option bool);
  backend_guilds : list Z;                  (* table _guilds *)
  trace : list event
}.

Definition set_emotes (f : list DatabaseEmote -> list DatabaseEmote) (w : world) : world :=
  mkWorld (f (emotes w)) (emote_usage_history w) (user_opt w) (guild_opt w)
          (backend_guilds w) (trace w).

Definition set_emote_usage_history (f : list (Z * Z) -> list (Z * Z)) (w : world) : world :=
  mkWorld (emotes w) (f (emote_usage_history w)) (user_opt w) (guild_opt w)
          (backend_guilds w) (trace w).

Definition set_user_opt (f : gmap Z user_opt_row -> gmap Z user_opt_row) (w : world) : world :=
  mkWorld (emotes w) (emote_usage_history w) (f (user_opt w)) (guild_opt w)
          (backend_guilds w) (trace w).

Definition add_event (ev : event) (w : world) : world :=
  mkWorld (emotes w) (emote_usage_history w) (user_opt w) (guild_opt w)
          (backend_guilds w) (trace w ++ [ev]).

(** What the database layer does not decide: the clock, the [decay] section
    of the configuration, the random source, the bot owner, the image
    encoder and the Discord HTTP service (an answer is a value or nothing, or
    the exception the call raises), the [Logger] cog (its calls return), and
    the foreign key of the schema file, which is not under src/. *)
Record env : Type := mkEnv {
  utcnow : Z;
  decay_cutoff_time : Z;                      (* config['decay']['cutoff']['time'] *)
  decay_cutoff_usage : Z;                     (* config['decay']['cutoff']['usage'] *)
  random : nat -> N;                          (* random() for the k-th row of a query *)
  bot_is_owner : Z -> bool;
  bytes_to_base64_data : list Byte.byte -> exn + string;  (* discord.utils *)
  create_custom_emoji : Z -> string -> string -> exn + Z;
  delete_custom_emoji : option Z -> Z -> option exn;
  edit_custom_emoji : option Z -> Z -> string -> option exn;
  on_emote_decay : DatabaseEmote -> option Z; (* the message sent, if any *)
  usage_history_cascades : bool               (* emote_usage_history.id REFERENCES emotes ON DELETE CASCADE *)
}.

(** The same environment with another random source. *)
Definition set_random (rnd : nat -> N) (cfg : env) : env :=
  mkEnv (utcnow cfg) (decay_cutoff_time cfg) (decay_cutoff_usage cfg) rnd (bot_is_owner cfg)
        (bytes_to_base64_data cfg) (create_custom_emoji cfg) (delete_custom_emoji cfg)
        (edit_custom_emoji cfg) (on_emote_decay cfg) (usage_history_cascades cfg).

Abbreviation coro := (@M world exn).

Local Open Scope coro_scope.

(** *** SQL helpers *)

(** The count of the usage events of [emote_id] with [time > cutoff_time]. *)
Definition usage_since (history : list (Z * Z)) (emote_id cutoff_time : Z) : Z :=
  Z.of_nat (length (List.filter (fun ev => (fst ev =? emote_id) && (cutoff_time <? snd ev)) history)).

(** [ORDER BY random() LIMIT 1]: every row draws a key, the row with the
    least key comes first (the earlier row on a tie). *)
Fixpoint least_key {A} (rows : list (N * A)) : option (N * A) :=
  match rows with
  | [] => None
  | (k, a) :: rest =>
      match least_key rest with
      | None => Some (k, a)
      | Some (k', a') => if (k <=? k')%N then Some (k, a) else Some (k', a')
      end
  end.

Definition order_by_random_limit_1 {A} (rnd : nat -> N) (rows : list A) : option A :=
  snd <$> least_key (combine (List.map rnd (seq 0 (length rows))) rows).

(** [COALESCE(a, b, c, d)] with a last argument that is not null. *)
Definition coalesce {A} (a b c : option A) (d : A) : A :=
  match a, b, c with
  | Some x, _, _ => x
  | None, Some x, _ => x
  | None, None, Some x => x
  | None, None, None => d
  end.

(** Modelled from the spec: the view [guilds] belongs to the schema file,
    which is not under src/.  The occupancy of a slot for a kind is the count
    of live resources of that kind in that slot, computed from the resource
    rows grouped by slot and kind. *)
Record guilds_row : Type := mkGuildsRow {
  guilds_id : Z;
  static_usage : Z;
  animated_usage : Z
}.

Definition occupancy (rows : list DatabaseEmote) (guild_id : Z) (is_animated : bool) : Z :=
  Z.of_nat (length (List.filter
    (fun e => bool_decide (guild e = Some guild_id) && Bool.eqb (animated e) is_animated) rows)).

Definition guilds (w : world) : list guilds_row :=
  List.map (fun g => mkGuildsRow g (occupancy (emotes w) g false) (occupancy (emotes w) g true))
           (backend_guilds w).

(** Modelled from the spec: the unique index of the schema file, which is not
    under src/.  A name is unique under case-insensitive comparison across all
    live resources; [self] is the row being updated, if any. *)
Definition name_taken (rows : list DatabaseEmote) (self : option Z) (n : string) : bool :=
  existsb (fun e => negb (bool_decide (Some (id e) = self)) && Str.ieq (name e) n) rows.

Definition rename_row (emote_id : Z) (n : string) (e : DatabaseEmote) : DatabaseEmote :=
  if id e =? emote_id
  then mkDatabaseEmote n (id e) (author e) (animated e) (description e) (created e)
                       (modified e) (preserve e) (guild e) (nsfw e) (usage e)
  else e.

Definition set_nsfw_row (emote_id : Z) (status : string) (e : DatabaseEmote) : DatabaseEmote :=
  if id e =? emote_id
  then mkDatabaseEmote (name e) (id e) (author e) (animated e) (description e) (created e)
                       (modified e) (preserve e) (guild e) status (usage e)
  else e.

(** [DELETE FROM emotes WHERE id = $1], with the referential action of the
    usage history. *)
Definition delete_emote_rows (cascades : bool) (emote_id : Z) (w : world) : world :=
  let w' := set_emotes (List.filter (fun e => negb (id e =? emote_id))) w in
  if cascades
  then set_emote_usage_history (List.filter (fun ev => negb (fst ev =? emote_id))) w'
  else w'.

Definition emit (ev : event) : coro unit := modify (add_event ev).

(** *** The [Database] cog *)

Section Database.
Variable cfg : env.

(** The rows of the query of [Database.free_guild] before they are
    ordered: the ids of the guilds with room for the kind. *)
Definition free_guilds (w : world) (is_animated : bool) : list Z :=
  List.map guilds_id
    (List.filter
       (fun g => (if is_animated then animated_usage g else static_usage g) <? 50)
       (guilds w)).

(** [Database.free_guild] *)
Definition free_guild (is_animated : bool) : coro Z :=
  emit (Call_free_guild is_animated) ;;;
  w <- get ;;
  match order_by_random_limit_1 (random cfg) (free_guilds w is_animated) with
  | None => raise NoMoreSlotsError
  | Some guild_id => ret guild_id
  end.

(** [Database.get_emote] *)
Definition get_emote (n : string) : coro DatabaseEmote :=
  w <- get ;;
  match List.find (fun e => Str.ieq (name e) n) (emotes w) with
  | Some e => ret e
  | None => raise (EmoteNotFoundError n)
  end.

(** [Database.get_emote_usage] *)
Definition get_emote_usage (emote : DatabaseEmote) : coro Z :=
  let cutoff_time := utcnow cfg - decay_cutoff_time cfg in
  w <- get ;;
  ret (usage_since (emote_usage_history w) (id emote) cutoff_time).

(** The [WHERE] and [HAVING] clauses of the query of
    [Database.decayable_emotes], on one row of [emotes]. *)
Definition decayable (w : world) (cutoff_time usage_threshold : Z) (e : DatabaseEmote) : bool :=
  (created e <? cutoff_time)
  && negb (preserve e)
  && (usage_since (emote_usage_history w) (id e) cutoff_time <? usage_threshold).

Definition with_usage (w : world) (cutoff_time : Z) (e : DatabaseEmote) : DatabaseEmote :=
  mkDatabaseEmote (name e) (id e) (author e) (animated e) (description e) (created e)
                  (modified e) (preserve e) (guild e) (nsfw e)
                  (Some (usage_since (emote_usage_history w) (id e) cutoff_time)).

(** [Database.decayable_emotes]: the rows the cursor yields. *)
Definition decayable_emotes : coro (list DatabaseEmote) :=
  let cutoff_time := utcnow cfg - decay_cutoff_time cfg in
  let usage_threshold := decay_cutoff_usage cfg in
  w <- get ;;
  ret (List.map (with_usage w cutoff_time)
                (List.filter (decayable w cutoff_time usage_threshold) (emotes w))).

(** [Database.ensure_emote_does_not_exist] *)
Definition ensure_emote_does_not_exist (n : string) : coro unit :=
  found <- try_except (emote <- get_emote n ;; ret (Some emote))
                      is_EmoteNotFoundError (fun _ => ret None) ;;
  match found with
  | Some emote => raise (EmoteExistsError emote)
  | None => ret tt
  end.

(** [Database.is_owner]; a [DatabaseEmote] object is always truthy. *)
Definition is_owner (emote : DatabaseEmote) (user_id : option Z) : coro bool :=
  match user_id with
  | None => ret true
  | Some user => ret (bot_is_owner cfg user || (author emote =? user))
  end.

(** [Database.owner_check] *)
Definition owner_check (emote : DatabaseEmote) (user_id : option Z) : coro unit :=
  ok <- is_owner emote user_id ;;
  if ok then ret tt else raise (PermissionDeniedError (name emote)).

(** [INSERT INTO emotes (name, id, author, animated, guild) ... RETURNING *];
    the other columns take the defaults of the table. *)
Definition insert_emote (n : string) (emote_id author_id : Z) (is_animated : bool)
    (guild_id : Z) : coro DatabaseEmote :=
  w <- get ;;
  if name_taken (emotes w) None n || existsb (fun e => id e =? emote_id) (emotes w)
  then raise UniqueViolationError
  else
    let row := mkDatabaseEmote n emote_id author_id is_animated None (utcnow cfg) None
                               false (Some guild_id) "SFW" None in
    modify (set_emotes (fun rows => rows ++ [row])) ;;;
    ret row.

(** [Database.create_emote] *)
Definition create_emote (n : string) (author_id : Z) (is_animated : bool)
    (image_data : list Byte.byte) : coro DatabaseEmote :=
  ensure_emote_does_not_exist n ;;;
  guild_id <- free_guild is_animated ;;
  match bytes_to_base64_data cfg image_data with
  | inl ex => raise ex
  | inr image =>
      emit (Http_create_custom_emoji guild_id n) ;;;
      match create_custom_emoji cfg guild_id n image with
      | inl ex => raise ex
      | inr emote_id => insert_emote n emote_id author_id is_animated guild_id
      end
  end.

(** [Database.remove_emote]; the emote is given by name or as an object. *)
Definition remove_emote (emote : string + DatabaseEmote) (user_id : option Z)
    : coro DatabaseEmote :=
  emote <- match emote with
           | inl n => get_emote n
           | inr e => ret e
           end ;;
  owner_check emote user_id ;;;
  try_except
    (emit (Http_delete_custom_emoji (guild emote) (id emote)) ;;;
     match delete_custom_emoji cfg (guild emote) (id emote) with
     | Some ex => raise ex
     | None => ret tt
     end)
    is_NotFound
    (fun _ => emit (Log_warn_not_in_backend (name emote))) ;;;
  modify (delete_emote_rows (usage_history_cascades cfg) (id emote)) ;;;
  ret emote.

(** [UPDATE emotes SET name = $2 WHERE id = $1 RETURNING *], wrapped by
    [DatabaseEmote]. *)
Definition update_name (emote_id : Z) (n : string) : coro DatabaseEmote :=
  w <- get ;;
  if existsb (fun e => id e =? emote_id) (emotes w) && name_taken (emotes w) (Some emote_id) n
  then raise UniqueViolationError
  else
    modify (set_emotes (List.map (rename_row emote_id n))) ;;;
    w' <- get ;;
    match List.find (fun e => id e =? emote_id) (emotes w') with
    | Some row => ret row
    | None => raise TypeError
    end.

(** [Database.rename_emote] *)
Definition rename_emote (old_name new_name : string) (user_id : option Z)
    : coro DatabaseEmote :=
  (if negb (String.eqb (Str.lower old_name) (Str.lower new_name))
   then ensure_emote_does_not_exist new_name
   else ret tt) ;;;
  emote <- get_emote old_name ;;
  owner_check emote user_id ;;;
  emit (Http_edit_custom_emoji (guild emote) (id emote) new_name) ;;;
  match edit_custom_emoji cfg (guild emote) (id emote) new_name with
  | Some ex => raise ex
  | None => update_name (id emote) new_name
  end.

(** [Database.new_nsfw_status]; falling off the end returns [None]. *)
Definition new_nsfw_status (emote : DatabaseEmote) (by_mod : bool)
    : @result exn (option string) :=
  let desired_status := negb (is_nsfw emote) in
  if by_mod then
    Ok (Some (if desired_status then "MOD_NSFW" else "SFW"))
  else if desired_status then
    Ok (Some "SELF_NSFW")
  else if String.eqb (nsfw emote) "MOD_NSFW" then
    Raise (BadArgument
      "You may not set this emote as SFW because it was set NSFW by an emote moderator.")
  else if String.eqb (nsfw emote) "SELF_NSFW" then
    Ok (Some "SFW")
  else
    Ok None.

(** [Database.toggle_emote_nsfw] *)
Definition toggle_emote_nsfw (emote : DatabaseEmote) (by_mod : bool) : coro DatabaseEmote :=
  match new_nsfw_status emote by_mod with
  | Raise ex => raise ex
  | Ok None =>
      w <- get ;;
      if existsb (fun e => id e =? id emote) (emotes w)
      then raise NotNullViolationError
      else raise TypeError
  | Ok (Some new_status) =>
      modify (set_emotes (List.map (set_nsfw_row (id emote) new_status))) ;;;
      w <- get ;;
      match List.find (fun e => id e =? id emote) (emotes w) with
      | Some row => ret row
      | None => raise TypeError
      end
  end.

(** [Database.log_emote_use] *)
Definition log_emote_use (emote_id user_id : Z) : coro unit :=
  w <- get ;;
  if existsb (fun e => (id e =? emote_id) && (author e =? user_id)) (emotes w)
  then ret tt
  else modify (set_emote_usage_history (fun rows => rows ++ [(emote_id, utcnow cfg)])).

Definition decay_catches (ex : exn) : bool := is_ConnoisseurError ex || is_DiscordError ex.

(** One turn of the loop of [Database.decay]. *)
Definition decay_one (emote : DatabaseEmote) : coro unit :=
  emit (Log_debug_decaying (name emote)) ;;;
  emit (Logger_on_emote_decay (id emote)) ;;;
  let removal_message := on_emote_decay cfg emote in
  try_except
    (remove_emote (inr emote) None ;;; ret tt)
    decay_catches
    (fun ex =>
       emit (Log_error_decaying_failed (name emote) ex) ;;;
       match removal_message with
       | Some message => emit (Message_delete message)
       | None => ret tt            (* AttributeError, suppressed *)
       end).

(** [Database.decay] *)
Definition decay : coro unit :=
  candidates <- decayable_emotes ;;
  for_each candidates decay_one.

(** [Database.get_user_blacklist] *)
Definition get_user_blacklist (user_id : Z) : coro (option string) :=
  w <- get ;;
  ret (user_opt w !! user_id ≫= blacklist_reason).

(** [Database.set_user_blacklist] *)
Definition set_user_blacklist (user_id : Z) (reason : option string) : coro unit :=
  modify (set_user_opt (fun t =>
    match t !! user_id with
    | Some row => <[user_id := mkUserOpt (state row) reason]> t
    | None => <[user_id := mkUserOpt None reason]> t
    end)).

(** [Database.get_user_state] and [Database.get_guild_state] *)
Definition get_user_state (user_id : Z) : coro (option bool) :=
  w <- get ;;
  ret (user_opt w !! user_id ≫= state).

Definition get_guild_state (guild_id : Z) : coro (option bool) :=
  w <- get ;;
  ret (guild_opt w !! guild_id ≫= (fun st => st)).

(** [Database.get_state] *)
Definition get_state (guild_id user_id : Z) : coro bool :=
  w <- get ;;
  ret (coalesce
         (match user_opt w !! user_id ≫= blacklist_reason with
          | None => None
          | Some _ => Some false
          end)
         (user_opt w !! user_id ≫= state)
         (guild_opt w !! guild_id ≫= (fun st => st))
         true).
End Database.

(** *** Conditions on the database and on a request *)

(** The unique index on the lowered name holds of the rows. *)
Definition unique_names (rows : list DatabaseEmote) : Prop :=
  forall e1 e2, In e1 rows -> In e2 rows ->
    Str.lower (name e1) = Str.lower (name e2) -> e1 = e2.

(** [id] is the primary key of the rows. *)
Definition unique_ids (rows : list DatabaseEmote) : Prop :=
  List.NoDup (List.map id rows).

(** The user may modify the emote: no user at all (a system action), the
    owner of the bot, or the author of the emote. *)
Definition authorized (cfg : env) (emote : DatabaseEmote) (user_id : option Z) : bool :=
  match user_id with
  | None => true
  | Some user => bot_is_owner cfg user || (author emote =? user)
  end.

(** The run of [remove_emote] once the emote is known and the user may
    remove it, written out. *)
Definition removal (cfg : env) (emote : DatabaseEmote) (w : world)
    : @result exn DatabaseEmote * world :=
  let w1 := add_event (Http_delete_custom_emoji (guild emote) (id emote)) w in
  match delete_custom_emoji cfg (guild emote) (id emote) with
  | None => (Ok emote, delete_emote_rows (usage_history_cascades cfg) (id emote) w1)
  | Some ex =>
      if is_NotFound ex
      then (Ok emote, delete_emote_rows (usage_history_cascades cfg) (id emote)
                        (add_event (Log_warn_not_in_backend (name emote)) w1))
      else (Raise ex, w1)
  end.

(** The emote a request designates, by name or as an object. *)
Definition designates (w : world) (target : string + DatabaseEmote) (emote : DatabaseEmote) : Prop :=
  match target with
  | inl n => List.find (fun e => Str.ieq (name e) n) (emotes w) = Some emote
  | inr e => e = emote
  end.

End EmoteCollector.

(** ** [src/cogs/db.py] *)

Module Cogs.

(** *** Data *)

(** A row of the [emojis] table.  [DatabaseEmote] is a [dict] of the row, and
    [DatabaseEmote(None)], the empty dict, stands for a row that was not
    found: it is [None] below, and falsy as in the source. *)
Record DatabaseEmote : Type := mkDatabaseEmote {
  name : string;
  id : Z;
  author : Z;
  animated : bool;
  description : option string;
  created : Z;
  preserve : bool
}.

(** A [discord.Emoji] of the client cache. *)
Record Emoji : Type := mkEmoji {
  emoji_id : Z;
  emoji_animated : bool
}.

(** A [discord.Guild] of the client cache. *)
Record Guild : Type := mkGuild {
  guild_id : Z;
  emojis : list Emoji
}.

(** [EmoteNotFoundError] is raised with the name, or bare in [remove_emote].
    [HTTPException] is discord.py's, [UniqueViolationError] is asyncpg's;
    [AttributeError], [KeyError], [IndexError] and [TypeError] are Python's. *)
Inductive exn : Type :=
| EmoteNotFoundError (n : option string)
| EmoteExistsError (n : string)
| PermissionDeniedError (n : string)
| NoMoreSlotsError
| UserBlacklisted (reason : string)
| DiscordError
| HTTPException (status : Z)
| UniqueViolationError
| AttributeError
| KeyError
| IndexError
| TypeError.

Record user_opt_row : Type := mkUserOpt {
  state : option bool;
  blacklist_reason : option string
}.

Inductive event : Type :=
| Call_free_guild (is_animated : bool)
| Guild_create_custom_emoji (in_guild : Z) (n : string)
| Emoji_delete (emote_id : Z)
| Emoji_edit (emote_id : Z) (n : string).

Record world : Type := mkWorld {
  emojis_table : list DatabaseEmote;        (* table emojis *)
  emote_usage_history : list (Z * Z);       (* (id, time) *)
  user_opt : gmap Z user_opt_row;
  guild_opt : gmap Z (option bool);
  trace : list event
}.

Definition set_emojis_table (f : list DatabaseEmote -> list DatabaseEmote) (w : world) : world :=
  mkWorld (f (emojis_table w)) (emote_usage_history w) (user_opt w) (guild_opt w) (trace w).

Definition set_emote_usage_history (f : list (Z * Z) -> list (Z * Z)) (w : world) : world :=
  mkWorld (emojis_table w) (f (emote_usage_history w)) (user_opt w) (guild_opt w) (trace w).

Definition add_event (ev : event) (w : world) : world :=
  mkWorld (emojis_table w) (emote_usage_history w) (user_opt w) (guild_opt w) (trace w ++ [ev]).

(** The clock, the random source ([random.choice] draws an index below the
    length of its argument: the draw is reduced modulo the length), the bot
    owner, the backend guilds found by [find_backend_guilds], the client
    cache and the Discord calls made through it. *)
Record env : Type := mkEnv {
  utcnow : Z;
  random_draw : nat;
  bot_is_owner : Z -> bool;
  backend_guilds : list Guild;               (* self.guilds *)
  get_emoji : Z -> option Emoji;             (* bot.get_emoji *)
  create_custom_emoji : Z -> string -> list Byte.byte -> exn + Z;
  emoji_delete : Z -> option exn;
  emoji_edit : Z -> string -> option exn
}.

(** The same environment with another random draw. *)
Definition set_random_draw (draw : nat) (cfg : env) : env :=
  mkEnv (utcnow cfg) draw (bot_is_owner cfg) (backend_guilds cfg) (get_emoji cfg)
        (create_custom_emoji cfg) (emoji_delete cfg) (emoji_edit cfg).

Abbreviation coro := (@M world exn).

Local Open Scope coro_scope.

Definition emit (ev : event) : coro unit := modify (add_event ev).

(** Python truthiness of an optional string: [None] and [''] are falsy. *)
Definition truthy (s : option string) : bool :=
  match s with
  | None => false
  | Some s' => negb (String.eqb s' "")
  end.

(** [random.choice] *)
Definition random_choice {A} (draw : nat) (xs : list A) : option A :=
  nth_error xs (draw mod length xs)%nat.

Definition usage_since (history : list (Z * Z)) (emote_id cutoff : Z) : Z :=
  Z.of_nat (length (List.filter (fun ev => (fst ev =? emote_id) && (cutoff <? snd ev)) history)).

Definition rename_row (emote_id : Z) (n : string) (e : DatabaseEmote) : DatabaseEmote :=
  if id e =? emote_id
  then mkDatabaseEmote n (id e) (author e) (animated e) (description e) (created e) (preserve e)
  else e.

(** Modelled from the spec: the unique index of the schema file, which is not
    under src/.  A name is unique under case-insensitive comparison across all
    live resources; [self] is the row being updated, if any. *)
Definition name_taken (rows : list DatabaseEmote) (self : option Z) (n : string) : bool :=
  existsb (fun e => negb (bool_decide (Some (id e) = self)) && Str.ieq (name e) n) rows.

(** *** The [Database] cog *)

Section Database.
Variable cfg : env.

(** The count of [sum(animated == emote.animated for emote in guild.emojis)]. *)
Definition kind_count (is_animated : bool) (g : Guild) : Z :=
  Z.of_nat (length (List.filter (fun emote => Bool.eqb is_animated (emoji_animated emote)) (emojis g))).

(** The list [free_guilds] built by the loop of [Database.free_guild]. *)
Definition free_guilds (is_animated : bool) : list Guild :=
  List.filter (fun g => kind_count is_animated g <? 50) (backend_guilds cfg).

(** [Database.free_guild] *)
Definition free_guild (is_animated : bool) : coro Guild :=
  emit (Call_free_guild is_animated) ;;;
  match free_guilds is_animated with
  | [] => raise NoMoreSlotsError
  | _ :: _ =>
      match random_choice (random_draw cfg) (free_guilds is_animated) with
      | Some g => ret g
      | None => raise IndexError
      end
  end.

(** [Database.get_emote] *)
Definition get_emote (n : string) : coro (option DatabaseEmote) :=
  w <- get ;;
  ret (List.find (fun e => Str.ieq (name e) n) (emojis_table w)).

(** [Database.get_user_blacklist] *)
Definition get_user_blacklist (user_id : Z) : coro (option string) :=
  w <- get ;;
  ret (user_opt w !! user_id ≫= blacklist_reason).

(** The rows selected by the query of [Database.decayable_emotes]. *)
Definition decayable (w : world) (cutoff usage_threshold : Z) (e : DatabaseEmote) : bool :=
  (usage_since (emote_usage_history w) (id e) cutoff <? usage_threshold)
  && negb (preserve e)
  && (created e <? cutoff).

Definition decayable_emotes (cutoff usage_threshold : Z) : coro (list DatabaseEmote) :=
  w <- get ;;
  ret (List.filter (decayable w cutoff usage_threshold) (emojis_table w)).

(** [Database.ensure_emote_does_not_exist] *)
Definition ensure_emote_does_not_exist (n : string) : coro unit :=
  emote <- get_emote n ;;
  match emote with
  | Some e => raise (EmoteExistsError (name e))
  | None => ret tt
  end.

(** [Database.create_emote] *)
Definition create_emote (n : string) (author_id : Z) (is_animated : bool)
    (image_data : list Byte.byte) : coro (option DatabaseEmote) :=
  reason <- get_user_blacklist author_id ;;
  (if truthy reason
   then raise (UserBlacklisted (default "" reason))
   else ret tt) ;;;
  ensure_emote_does_not_exist n ;;;
  g <- free_guild is_animated ;;
  emit (Guild_create_custom_emoji (guild_id g) n) ;;;
  match create_custom_emoji cfg (guild_id g) n image_data with
  | inl ex => raise ex
  | inr emote_id =>
      w <- get ;;
      (if name_taken (emojis_table w) None n || existsb (fun e => id e =? emote_id) (emojis_table w)
       then raise UniqueViolationError
       else modify (set_emojis_table (fun rows =>
              rows ++ [mkDatabaseEmote n emote_id author_id is_animated None (utcnow cfg) false]))) ;;;
      get_emote n
  end.

(** [Database.is_owner] *)
Definition is_owner (n : string) (user_id : Z) : coro bool :=
  emote <- get_emote n ;;
  match emote with
  | None => raise (EmoteNotFoundError (Some n))
  | Some e => ret (bot_is_owner cfg user_id || (author e =? user_id))
  end.

(** [Database.owner_check] *)
Definition owner_check (n : string) (user_id : Z) : coro unit :=
  ok <- is_owner n user_id ;;
  if ok then ret tt else raise (PermissionDeniedError n).

(** [Database.remove_emote] *)
Definition remove_emote (n : string) (user_id : option Z) : coro unit :=
  match user_id with
  | Some user => owner_check n user
  | None => ret tt
  end ;;;
  db_emote <- get_emote n ;;
  match db_emote with
  | None => raise (EmoteNotFoundError None)
  | Some db_emote =>
      match get_emoji cfg (id db_emote) with
      | None => raise DiscordError
      | Some emote =>
          emit (Emoji_delete (emoji_id emote)) ;;;
          match emoji_delete cfg (emoji_id emote) with
          | Some ex => raise ex
          | None =>
              modify (set_emote_usage_history
                        (List.filter (fun ev => negb (fst ev =? id db_emote)))) ;;;
              modify (set_emojis_table (List.filter (fun e => negb (id e =? id db_emote))))
          end
      end
  end.

(** [Database.rename_emote] *)
Definition rename_emote (old_name new_name : string) (user_id : Z) : coro unit :=
  owner_check old_name user_id ;;;
  taken <- (if negb (String.eqb (Str.lower old_name) (Str.lower new_name))
            then (emote <- get_emote new_name ;; ret (bool_decide (is_Some emote)))
            else ret false) ;;
  if taken then raise (EmoteExistsError new_name)
  else
    db_emote <- get_emote old_name ;;
    match db_emote with
    | None => raise KeyError
    | Some db_emote =>
        match get_emoji cfg (id db_emote) with
        | None => raise AttributeError
        | Some emote =>
            emit (Emoji_edit (emoji_id emote) new_name) ;;;
            match emoji_edit cfg (emoji_id emote) new_name with
            | Some ex => raise ex
            | None =>
                w <- get ;;
                if existsb (fun e => id e =? emoji_id emote) (emojis_table w)
                   && name_taken (emojis_table w) (Some (emoji_id emote)) new_name
                then raise UniqueViolationError
                else modify (set_emojis_table (List.map (rename_row (emoji_id emote) new_name)))
            end
        end
    end.

(** [Database.decay]: [decayable_emotes] is called without its two
    arguments, so the call raises [TypeError] before any row is looked at;
    the loop has no handler. *)
Definition decay : coro unit := raise TypeError.

(** [Database.log_emote_use] *)
Definition log_emote_use (emote_id : Z) : coro unit :=
  modify (set_emote_usage_history (fun rows => rows ++ [(emote_id, utcnow cfg)])).

(** [Database.get_emote_usage]: the events of the emote, of any time. *)
Definition get_emote_usage (emote : DatabaseEmote) : coro Z :=
  w <- get ;;
  ret (Z.of_nat (length (List.filter (fun ev => fst ev =? id emote) (emote_usage_history w)))).

(** [Database.get_user_state] and [Database.get_guild_state] *)
Definition get_user_state (user_id : Z) : coro (option bool) :=
  w <- get ;;
  ret (user_opt w !! user_id ≫= state).

Definition get_guild_state (guild : Z) : coro (option bool) :=
  w <- get ;;
  ret (guild_opt w !! guild ≫= (fun st => st)).

(** [Database.get_state] *)
Definition get_state (guild user_id : Z) : coro bool :=
  let state0 := true in
  guild_state <- get_guild_state guild ;;
  let state1 := match guild_state with Some st => st | None => state0 end in
  user_state <- get_user_state user_id ;;
  let state2 := match user_state with Some st => st | None => state1 end in
  ret state2.
End Database.

(** *** Conditions on the database and on a request *)

Definition unique_names (rows : list DatabaseEmote) : Prop :=
  forall e1 e2, In e1 rows -> In e2 rows ->
    Str.lower (name e1) = Str.lower (name e2) -> e1 = e2.

Definition authorized (cfg : env) (emote : DatabaseEmote) (user_id : Z) : bool :=
  bot_is_owner cfg user_id || (author emote =? user_id).

End Cogs.

(** ** The rest of [src/emote_collector/extensions/db.py] *)

Module EmoteCollectorRest.
Import EmoteCollector.

Local Open Scope coro_scope.

(** *** Data *)

(** A [discord.Guild] the bot is in: what [find_backend_guilds] reads. *)
Record BotGuild : Type := mkBotGuild {
  bot_guild_id : Z;
  bot_guild_name : string;
  bot_guild_owner : Z
}.

(** The tables the toggles work on: the [table_name] of [_toggle_state]. *)
Inductive table_name : Type :=
| user_opt_table
| guild_opt_table.

(** The ['decay'] entry of the configuration: absent, the old schema (a
    bool), or a dict whose keys may be absent. *)
Record cutoff_settings : Type := mkCutoff {
  cutoff_time : option Z;
  cutoff_usage : option Z
}.

Record decay_settings : Type := mkDecay {
  decay_enabled : option bool;
  decay_cutoff : option cutoff_settings
}.

Inductive decay_entry : Type :=
| DecayAbsent
| DecayBool (enabled : bool)
| DecayDict (settings : decay_settings).

(** [datetime.timedelta(weeks=4)], in seconds. *)
Definition four_weeks : Z := 4 * 7 * 24 * 60 * 60.

(** A [discord.abc.Messageable]; [channel_nsfw] is its [nsfw] attribute,
    which some kinds of channel do not have. *)
Record Messageable : Type := mkMessageable {
  channel_id : Z;
  channel_nsfw : option bool
}.

(** The positional arguments that reach [_database_emote_cursor]. *)
Inductive value : Type :=
| PyNone
| PyInt (z : Z)
| PyStr (s : string)
| PyDatetime (t : Z)
| PyMessageable (channel : Messageable).

(** What an iterator can raise: [IndexError] on [args[-1]], or whatever the
    cursor raises. *)
Inductive iter_error (E : Type) : Type :=
| IndexError
| CursorError (e : E).
Arguments IndexError {E}.
Arguments CursorError {E} e.

(** The tables of two databases are the same; the traces may differ. *)
Definition same_tables (w w' : world) : Prop :=
  emotes w' = emotes w
  /\ emote_usage_history w' = emote_usage_history w
  /\ user_opt w' = user_opt w
  /\ guild_opt w' = guild_opt w
  /\ backend_guilds w' = backend_guilds w.

Definition set_guild_opt (f : gmap Z (option bool) -> gmap Z (option bool)) (w : world) : world :=
  mkWorld (emotes w) (emote_usage_history w) (user_opt w) (f (guild_opt w))
          (backend_guilds w) (trace w).

Definition set_backend_guilds (f : list Z -> list Z) (w : world) : world :=
  mkWorld (emotes w) (emote_usage_history w) (user_opt w) (guild_opt w)
          (f (backend_guilds w)) (trace w).

Definition set_created (time : Z) (e : DatabaseEmote) : DatabaseEmote :=
  mkDatabaseEmote (name e) (id e) (author e) (animated e) (description e) time
                  (modified e) (preserve e) (guild e) (nsfw e) (usage e).

Definition set_preserve (should_preserve : bool) (e : DatabaseEmote) : DatabaseEmote :=
  mkDatabaseEmote (name e) (id e) (author e) (animated e) (description e) (created e)
                  (modified e) should_preserve (guild e) (nsfw e) (usage e).

(** [INSERT INTO _guilds VALUES ($1) ON CONFLICT (id) DO NOTHING] *)
Definition insert_guild (guild_id : Z) (rows : list Z) : list Z :=
  if existsb (Z.eqb guild_id) rows then rows else rows ++ [guild_id].

(** *** The [Database] cog *)

(** [Database._process_decay_config]: the ['decay'] entry it leaves in the
    configuration. *)
Definition _process_decay_config (entry : decay_entry) : decay_settings :=
  let decay_settings0 :=
    match entry with
    | DecayAbsent => mkDecay (Some false) None        (* config.get('decay', False) *)
    | DecayBool enabled => mkDecay (Some enabled) None
    | DecayDict settings => settings
    end in
  let enabled := match decay_enabled decay_settings0 with Some b => b | None => false end in
  let cutoff0 := match decay_cutoff decay_settings0 with Some c => c | None => mkCutoff None None end in
  let time := match cutoff_time cutoff0 with Some t => t | None => four_weeks end in
  let usage := match cutoff_usage cutoff0 with Some u => u | None => 2 end in
  mkDecay (Some enabled) (Some (mkCutoff (Some time) (Some usage))).

Section Database.
Variable cfg : env.

(** The test of the comprehension of [Database.find_backend_guilds]. *)
Definition is_backend_guild (g : BotGuild) : bool :=
  (String.prefix "EmojiBackend" (bot_guild_name g) || String.prefix "EmoteBackend" (bot_guild_name g))
  && bot_is_owner cfg (bot_guild_owner g).

(** [Database.find_backend_guilds]: [self_guilds] is the attribute [guilds]
    of the cog, if it is set, and [bot_guilds] is [bot.guilds].  The result is
    the attribute afterwards, and the set that was dispatched, if any. *)
Definition find_backend_guilds (self_guilds : option (gset Z)) (bot_guilds : list BotGuild)
    : coro (option (gset Z) * option (gset Z)) :=
  if match self_guilds with Some gs => negb (bool_decide (gs = ∅)) | None => false end
  then ret (self_guilds, None)
  else
    let guilds : gset Z :=
      list_to_set (List.map bot_guild_id (List.filter is_backend_guild bot_guilds)) in
    modify (set_backend_guilds (fun rows => fold_left (fun t g => insert_guild g t) (elements guilds) rows)) ;;;
    ret (Some guilds, Some guilds).

(** [Database.count]: static, animated, total. *)
Definition count : coro (Z * Z * Z) :=
  w <- get ;;
  ret (Z.of_nat (length (List.filter (fun e => negb (animated e)) (emotes w))),
       Z.of_nat (length (List.filter (fun e => animated e) (emotes w))),
       Z.of_nat (length (emotes w))).

(** [Database.capacity]: static, animated, total. *)
Definition capacity (self_guilds : gset Z) : Z * Z * Z :=
  (Z.of_nat (size self_guilds) * 50,
   Z.of_nat (size self_guilds) * 50,
   Z.of_nat (size self_guilds) * 50 * 2).

(** [Database.set_emote_creation] *)
Definition set_emote_creation (n : string) (time : Z) : coro unit :=
  modify (set_emotes (List.map (fun e => if Str.ieq (name e) n then set_created time e else e))).

(** [Database.set_emote_preservation] *)
Definition set_emote_preservation (n : string) (should_preserve : bool) : coro DatabaseEmote :=
  modify (set_emotes
            (List.map (fun e => if Str.ieq (name e) n then set_preserve should_preserve e else e))) ;;;
  w <- get ;;
  match List.find (fun e => Str.ieq (name e) n) (emotes w) with
  | None => raise (EmoteNotFoundError n)
  | Some emote => ret emote
  end.

(** [Database.delete_all_user_state] *)
Definition delete_all_user_state (user_id : Z) : coro unit :=
  modify (set_user_opt (delete user_id)).

(** [Database._toggle_state]; [NOT NULL] is [NULL]. *)
Definition _toggle_state (table : table_name) (row_id : Z) (default : bool) : coro (option bool) :=
  w <- get ;;
  match table with
  | user_opt_table =>
      match user_opt w !! row_id with
      | None =>
          modify (set_user_opt (insert row_id (mkUserOpt (Some default) None))) ;;;
          ret (Some default)
      | Some row =>
          modify (set_user_opt (insert row_id (mkUserOpt (negb <$> state row) (blacklist_reason row)))) ;;;
          ret (negb <$> state row)
      end
  | guild_opt_table =>
      match guild_opt w !! row_id with
      | None =>
          modify (set_guild_opt (insert row_id (Some default))) ;;;
          ret (Some default)
      | Some st =>
          modify (set_guild_opt (insert row_id (negb <$> st))) ;;;
          ret (negb <$> st)
      end
  end.

(** [Database.toggle_user_state]; without a guild the lookup finds no row. *)
Definition toggle_user_state (user_id : Z) (guild_id : option Z) : coro (option bool) :=
  let default0 := false in
  guild_state <- match guild_id with
                 | Some g => get_guild_state g
                 | None => ret None
                 end ;;
  let default1 := match guild_state with
                  | Some st => negb st
                  | None => default0
                  end in
  _toggle_state user_opt_table user_id default1.

(** [Database.toggle_guild_state] *)
Definition toggle_guild_state (guild_id : Z) : coro (option bool) :=
  _toggle_state guild_opt_table guild_id false.
End Database.

(** *** Iterators

    [_cursor] hands the query and its arguments to the database; here it is
    the function [cursor], which answers with the rows or with the exception
    it raises. *)

Section Iterators.
Context {E : Type}.
Variable cursor : string -> list value -> E + list DatabaseEmote.

(** [getattr(channel, 'nsfw', True)] *)
Definition getattr_nsfw (channel : Messageable) : bool :=
  match channel_nsfw channel with
  | Some b => b
  | None => true
  end.

(** [Database._database_emote_cursor]: the emotes it yields. *)
Definition _database_emote_cursor (query : string) (args : list value)
    : iter_error E + list DatabaseEmote :=
  match List.last (List.map Some args) None with
  | None => inl IndexError
  | Some last_arg =>
      let '(channel, args') :=
        match last_arg with
        | PyMessageable channel => (Some channel, removelast args)
        | _ => (None, args)
        end in
      match cursor query args' with
      | inl e => inl (CursorError e)
      | inr rows =>
          inr (List.filter
                 (fun emote =>
                    match channel with
                    | None => true
                    | Some ch => negb (is_nsfw emote) || getattr_nsfw ch
                    end)
                 rows)
      end
  end.

(** The keyword argument [filter_nsfw_for], as it is passed on. *)
Definition filter_arg (filter_nsfw_for : option Messageable) : value :=
  match filter_nsfw_for with
  | Some channel => PyMessageable channel
  | None => PyNone
  end.

(** [Database.all_emotes] *)
Definition all_emotes (author_id : option Z) (filter_nsfw_for : option Messageable)
    : iter_error E + list DatabaseEmote :=
  let query0 := "SELECT * FROM emotes " in
  let '(query1, args) :=
    match author_id with
    | Some a => (String.append query0 "WHERE author = $1 ", [PyInt a])
    | None => (query0, [])
    end in
  let query2 := String.append query1 "ORDER BY LOWER(name)" in
  _database_emote_cursor query2 (args ++ [filter_arg filter_nsfw_for]).

(** [Database.popular_emotes]; the text of the query is [popular_query]. *)
Definition popular_emotes (cfg : env) (popular_query : string) (limit : Z)
    (filter_nsfw_for : option Messageable) : iter_error E + list DatabaseEmote :=
  let cutoff_time := utcnow cfg - decay_cutoff_time cfg in
  _database_emote_cursor popular_query
    [PyDatetime cutoff_time; PyInt limit; filter_arg filter_nsfw_for].

(** [Database.search]; the text of the query is [search_query]. *)
Definition search (search_query : string) (query : string)
    (filter_nsfw_for : option Messageable) : iter_error E + list DatabaseEmote :=
  _database_emote_cursor search_query [PyStr query; filter_arg filter_nsfw_for].
End Iterators.

End EmoteCollectorRest.

(** ** Sample databases

    Times are in days.  The clock reads 100 and the decay window is 28 days
    with a threshold of 2 uses, so the cutoff is day 72. *)

Module Sample.

Module New.
Import EmoteCollector.

Definition wave : DatabaseEmote :=
  mkDatabaseEmote "wave" 100 42 false None 90 None false (Some 10) "SFW" None.
Definition Blob : DatabaseEmote :=
  mkDatabaseEmote "Blob" 101 43 true None 90 None false (Some 10) "MOD_NSFW" None.
Definition stale : DatabaseEmote :=
  mkDatabaseEmote "stale" 102 42 false None 65 None false (Some 11) "SFW" None.
Definition gone : DatabaseEmote :=
  mkDatabaseEmote "gone" 103 42 false None 60 None false (Some 11) "SFW" None.
Definition kept : DatabaseEmote :=
  mkDatabaseEmote "kept" 104 42 false None 60 None true (Some 11) "SFW" None.
Definition busy : DatabaseEmote :=
  mkDatabaseEmote "busy" 105 44 false None 60 None false (Some 11) "SFW" None.

(** Discord refuses to delete [stale], has lost [gone], and obeys otherwise. *)
Definition cfg : env :=
  mkEnv 100 28 2 (fun _ => 0%N) (fun user => user =? 1)
        (fun _ => inr "iVBORw0KGgo=") (fun _ _ _ => inr 777)
        (fun _ emote_id =>
           if emote_id =? 102 then Some DiscordError
           else if emote_id =? 103 then Some NotFound
           else None)
        (fun _ _ _ => None)
        (fun emote => Some (9000 + id emote))
        true.

(** Discord forbids the bot to delete [stale]: the delete call raises
    [discord.Forbidden], an [HTTPException] of status 403. *)
Definition forbidding : env :=
  mkEnv 100 28 2 (fun _ => 0%N) (fun user => user =? 1)
        (fun _ => inr "iVBORw0KGgo=") (fun _ _ _ => inr 777)
        (fun _ emote_id => if emote_id =? 102 then Some (HTTPException 403) else None)
        (fun _ _ _ => None)
        (fun emote => Some (9000 + id emote))
        true.

(** User 42 is blacklisted; user 7 opted in; guild 5 opted out. *)
Definition db : world :=
  mkWorld [wave; Blob; stale; gone; kept; busy]
          [(100, 50); (102, 80); (105, 80); (105, 90); (102, 70)]
          (<[42 := mkUserOpt None (Some "spam")]> (<[7 := mkUserOpt (Some true) None]> ∅))
          (<[5 := Some false]> ∅)
          [10; 11]
          [].

(** One backend guild, holding 50 static emotes. *)
Definition full : world :=
  mkWorld (repeat wave 50) [] ∅ ∅ [10] [].

End New.

Module Old.
Import Cogs.

Definition wave : DatabaseEmote := mkDatabaseEmote "wave" 100 42 false None 90 false.
Definition Blob : DatabaseEmote := mkDatabaseEmote "Blob" 101 43 true None 90 false.
Definition stale : DatabaseEmote := mkDatabaseEmote "stale" 102 42 false None 65 false.
Definition kept : DatabaseEmote := mkDatabaseEmote "kept" 104 42 false None 60 true.

(** Guild 10 holds 50 static emojis, guild 11 and guild 12 are empty; the
    client cache knows the emojis 100 and 101. *)
Definition cfg : env :=
  mkEnv 100 0 (fun user => user =? 1)
        [mkGuild 10 (repeat (mkEmoji 100 false) 50); mkGuild 11 []; mkGuild 12 []]
        (fun emote_id =>
           if emote_id =? 100 then Some (mkEmoji 100 false)
           else if emote_id =? 101 then Some (mkEmoji 101 true)
           else None)
        (fun _ _ _ => inr 777)
        (fun _ => None)
        (fun _ _ => None).

Definition full_cfg : env :=
  mkEnv 100 0 (fun user => user =? 1)
        [mkGuild 10 (repeat (mkEmoji 100 false) 50)]
        (fun _ => None) (fun _ _ _ => inr 777) (fun _ => None) (fun _ _ => None).

Definition db : world :=
  mkWorld [wave; Blob; stale; kept]
          [(100, 50); (102, 80); (102, 70)]
          (<[42 := mkUserOpt None (Some "spam")]> ∅)
          ∅
          [].

End Old.

End Sample.

(** * Properties *)

Ltac run_coro :=
  unfold bind, ret, raise, get, modify, try_except; cbn.

Lemma ieq_lower a b : Str.ieq a b = true <-> Str.lower a = Str.lower b.
Proof. unfold Str.ieq. apply String.eqb_eq. Qed.

Module EmoteCollectorFacts.
Import EmoteCollector.

#[local] Arguments order_by_random_limit_1 : simpl never.
#[local] Arguments guilds : simpl never.
#[local] Arguments free_guilds : simpl never.
#[local] Arguments occupancy : simpl never.
#[local] Arguments name_taken : simpl never.
#[local] Arguments usage_since : simpl never.

(** ** NSFW status *)

Lemma id_set_nsfw_row emote_id status e : id (set_nsfw_row emote_id status e) = id e.
Proof. unfold set_nsfw_row. destruct (id e =? emote_id); reflexivity. Qed.

Lemma find_set_nsfw_row rows emote_id status :
  existsb (fun e => id e =? emote_id) rows = true ->
  exists row,
    List.find (fun e => id e =? emote_id) (List.map (set_nsfw_row emote_id status) rows) = Some row
    /\ nsfw row = status /\ id row = emote_id.
Proof.
  induction rows as [|e rows IH]; cbn; [discriminate|].
  rewrite id_set_nsfw_row.
  destruct (id e =? emote_id) eqn:He; cbn.
  - intros _. eexists; split; [reflexivity|].
    unfold set_nsfw_row. rewrite He. cbn. split; [reflexivity|lia].
  - exact IH.
Qed.

Lemma existsb_id_In rows (emote : DatabaseEmote) :
  In emote rows -> existsb (fun e => id e =? id emote) rows = true.
Proof.
  intros Hin. apply existsb_exists. exists emote. split; [exact Hin|lia].
Qed.


(** ** Preference resolution *)

(** In this version [get_state] answers [False] for a blacklisted user
    whatever the states stored for the user and the guild; otherwise the state
    of the user when it is set, else the state of the guild when it is set,
    else [True].  It only reads the database. *)
Lemma get_state_precedence guild_id user_id w :
  get_state guild_id user_id w =
    (Ok match fst (get_user_blacklist user_id w) with
        | Ok (Some _) => false
        | _ =>
            match fst (get_user_state user_id w) with
            | Ok (Some user_state) => user_state
            | _ =>
                match fst (get_guild_state guild_id w) with
                | Ok (Some guild_state) => guild_state
                | _ => true
                end
            end
        end, w).
Proof.
  unfold get_state, get_user_blacklist, get_user_state, get_guild_state. run_coro.
  destruct (user_opt w !! user_id) as [[st reason]|]; cbn;
    [destruct reason; cbn; [reflexivity|]; destruct st; cbn; [reflexivity|] |];
    destruct (guild_opt w !! guild_id) as [[gst|]|]; reflexivity.
Qed.

(** ** Usage ledger *)

Lemma unique_ids_eq rows (e1 e2 : DatabaseEmote) :
  unique_ids rows -> In e1 rows -> In e2 rows -> id e1 = id e2 -> e1 = e2.
Proof.
  unfold unique_ids. induction rows as [|e rows IH]; cbn; [contradiction|].
  intros Hnd H1 H2 Hid. apply List.NoDup_cons_iff in Hnd as [Hfresh Hnd].
  destruct H1 as [<-|H1], H2 as [<-|H2]; auto.
  - exfalso. apply Hfresh. rewrite Hid. apply in_map, H2.
  - exfalso. apply Hfresh. rewrite <- Hid. apply in_map, H1.
Qed.

Lemma existsb_author rows (emote : DatabaseEmote) user_id :
  unique_ids rows ->
  In emote rows ->
  existsb (fun e => (id e =? id emote) && (author e =? user_id)) rows
  = (author emote =? user_id).
Proof.
  intros Hkey Hin. apply eq_true_iff_eq. rewrite existsb_exists. split.
  - intros (e & He & Hb). apply andb_prop in Hb as [Hi Ha].
    rewrite <- (unique_ids_eq rows e emote Hkey He Hin) by lia. exact Ha.
  - intros Ha. exists emote. split; [exact Hin|]. rewrite Z.eqb_refl. exact Ha.
Qed.

(** In this version, for an emote of the table ([id] being its key),
    [log_emote_use] changes nothing when the acting user is the author of the
    emote, and the usage count of the emote stays as it was; for any other
    user it appends one event for the emote with the current time. *)
Lemma log_emote_use_skips_author cfg w emote user_id :
  unique_ids (emotes w) ->
  In emote (emotes w) ->
  exists w',
    log_emote_use cfg (id emote) user_id w = (Ok tt, w')
    /\ (user_id = author emote ->
        w' = w /\ fst (get_emote_usage cfg emote w') = fst (get_emote_usage cfg emote w))
    /\ (user_id <> author emote ->
        emote_usage_history w' = emote_usage_history w ++ [(id emote, utcnow cfg)]
        /\ emotes w' = emotes w)
    /\ (emote_usage_history w' <> emote_usage_history w -> user_id <> author emote).
Proof.
  intros Hkey Hin. unfold log_emote_use. run_coro.
  rewrite (existsb_author _ _ user_id Hkey Hin).
  destruct (Z.eqb_spec (author emote) user_id) as [Heq|Hne]; cbn.
  - exists w. repeat split; congruence.
  - eexists. split; [reflexivity|]. cbn. repeat split; congruence.
Qed.

(** ** Decay selection *)

Lemma decayable_with_usage w cutoff_time usage_threshold w0 c0 e :
  decayable w cutoff_time usage_threshold (with_usage w0 c0 e)
  = decayable w cutoff_time usage_threshold e.
Proof. reflexivity. Qed.

(** The cursor of [decayable_emotes] yields a row of [emotes] (with its usage
    count attached) exactly when the row passes the three tests of the query;
    nothing else is yielded and the database is only read. *)
Lemma decayable_emotes_selects cfg w :
  let cutoff := utcnow cfg - decay_cutoff_time cfg in
  exists rows,
    decayable_emotes cfg w = (Ok rows, w)
    /\ (forall e, In e (emotes w) ->
          (In (with_usage w cutoff e) rows <->
             created e < cutoff
             /\ preserve e = false
             /\ usage_since (emote_usage_history w) (id e) cutoff < decay_cutoff_usage cfg))
    /\ (forall e, In e (emotes w) -> preserve e = true -> ~ In (with_usage w cutoff e) rows)
    /\ (forall row, In row rows -> exists e, In e (emotes w) /\ row = with_usage w cutoff e).
Proof.
  intros cutoff. eexists. split; [reflexivity|].
  assert (Hsel : forall e, In e (emotes w) ->
            (In (with_usage w cutoff e)
                (List.map (with_usage w cutoff)
                   (List.filter (decayable w cutoff (decay_cutoff_usage cfg)) (emotes w))) <->
             decayable w cutoff (decay_cutoff_usage cfg) e = true)).
  { intros e He. rewrite in_map_iff. split.
    - intros (e' & Heq & Hin). apply filter_In in Hin as [_ Hd].
      rewrite <- (decayable_with_usage w _ _ w cutoff e), <- Heq, decayable_with_usage.
      exact Hd.
    - intros Hd. exists e. split; [reflexivity|]. apply filter_In. auto. }
  repeat split.
  - apply Hsel in H0; [|exact H]. unfold decayable in H0.
    apply andb_prop in H0 as [H0 _]. apply andb_prop in H0 as [H0 _]. lia.
  - apply Hsel in H0; [|exact H]. unfold decayable in H0.
    apply andb_prop in H0 as [H0 _]. apply andb_prop in H0 as [_ H0].
    destruct (preserve e); [discriminate|reflexivity].
  - apply Hsel in H0; [|exact H]. unfold decayable in H0.
    apply andb_prop in H0 as [_ H0]. lia.
  - intros (Hc & Hp & Hu). apply Hsel; [exact H|]. unfold decayable.
    rewrite Hp. cbn. rewrite andb_true_r. apply andb_true_intro. split; lia.
  - intros e He Hp Hin. apply Hsel in Hin; [|exact He]. unfold decayable in Hin.
    rewrite Hp in Hin. cbn in Hin. rewrite andb_false_r in Hin. discriminate.
  - intros row Hin. apply in_map_iff in Hin as (e & Heq & Hin).
    apply filter_In in Hin as [Hin _]. eauto.
Qed.

(** ** Allocation *)

Lemma least_key_In {A} (rows : list (N * A)) r : least_key rows = Some r -> In r rows.
Proof.
  revert r. induction rows as [|[k a] rows IH]; cbn; [discriminate|].
  intros r. destruct (least_key rows) as [[k' a']|].
  - destruct (k <=? k')%N; intros [= <-]; auto.
  - intros [= <-]. auto.
Qed.

Lemma least_key_None {A} (rows : list (N * A)) : least_key rows = None -> rows = [].
Proof.
  destruct rows as [|[k a] rows]; cbn; [reflexivity|].
  destruct (least_key rows) as [[k' a']|]; [destruct (k <=? k')%N|]; discriminate.
Qed.

(** The row whose key is 0 while all the others draw 1 comes first. *)
Lemma least_key_pick {A} (rows : list A) : forall start i a,
  nth_error rows i = Some a ->
  least_key (combine (List.map (fun j => if (j =? start + i)%nat then 0%N else 1%N)
                               (seq start (length rows))) rows)
  = Some (0%N, a).
Proof.
  induction rows as [|b rows IH]; intros start i a Hnth.
  - destruct i; discriminate.
  - destruct i as [|i]; cbn in Hnth |- *.
    + injection Hnth as ->. rewrite Nat.add_0_r, Nat.eqb_refl.
      destruct (least_key _) as [[[|k'] a']|]; reflexivity.
    + destruct (Nat.eqb_spec start (start + S i)); [lia|].
      specialize (IH (S start) i a Hnth).
      replace (S start + i)%nat with (start + S i)%nat in IH by lia.
      rewrite IH. reflexivity.
Qed.

Lemma order_by_random_limit_1_In {A} rnd (rows : list A) a :
  order_by_random_limit_1 rnd rows = Some a -> In a rows.
Proof.
  unfold order_by_random_limit_1. intros H.
  destruct (least_key _) as [[k a']|] eqn:Hk; [|discriminate].
  injection H as <-. apply least_key_In in Hk. exact (in_combine_r _ _ _ _ Hk).
Qed.

Lemma order_by_random_limit_1_nil {A} rnd (rows : list A) :
  order_by_random_limit_1 rnd rows = None -> rows = [].
Proof.
  unfold order_by_random_limit_1. intros H.
  destruct (least_key _) as [[k a']|] eqn:Hk; [discriminate|].
  apply least_key_None in Hk. destruct rows; [reflexivity|discriminate].
Qed.

Lemma order_by_random_limit_1_any {A} (rows : list A) i a :
  nth_error rows i = Some a ->
  order_by_random_limit_1 (fun j => if (j =? i)%nat then 0%N else 1%N) rows = Some a.
Proof.
  intros H. unfold order_by_random_limit_1.
  pose proof (least_key_pick rows 0 i a H) as Hpick. cbn in Hpick.
  rewrite Hpick. reflexivity.
Qed.

Lemma In_free_guilds w is_animated g :
  In g (free_guilds w is_animated)
  <-> In g (backend_guilds w) /\ occupancy (emotes w) g is_animated < 50.
Proof.
  unfold free_guilds, guilds. rewrite in_map_iff. split.
  - intros (row & <- & Hin). apply filter_In in Hin as [Hin Hlt].
    apply in_map_iff in Hin as (g' & <- & Hin). cbn in *.
    split; [exact Hin|]. destruct is_animated; lia.
  - intros [Hin Hlt]. eexists. split; [|apply filter_In; split; [apply in_map, Hin|]].
    + reflexivity.
    + cbn. destruct is_animated; lia.
Qed.

Lemma free_guild_run cfg is_animated w :
  free_guild cfg is_animated w
  = (match order_by_random_limit_1 (random cfg) (free_guilds w is_animated) with
     | Some g => Ok g
     | None => Raise NoMoreSlotsError
     end, add_event (Call_free_guild is_animated) w).
Proof.
  unfold free_guild, emit. run_coro.
  change (free_guilds (add_event (Call_free_guild is_animated) w) is_animated)
    with (free_guilds w is_animated).
  destruct (order_by_random_limit_1 _ _); reflexivity.
Qed.

(** ** Creation *)

(** [create_emote] never reads [user_opt]: whatever is stored there, it
    behaves the same. *)
Lemma create_emote_ignores_user_opt cfg n author_id is_animated image_data f w :
  create_emote cfg n author_id is_animated image_data (set_user_opt f w)
  = (fst (create_emote cfg n author_id is_animated image_data w),
     set_user_opt f (snd (create_emote cfg n author_id is_animated image_data w))).
Proof.
  unfold create_emote, ensure_emote_does_not_exist, get_emote, free_guild, insert_emote, emit.
  run_coro.
  destruct (List.find _ (emotes w)); cbn; [reflexivity|].
  change (free_guilds (add_event (Call_free_guild is_animated) (set_user_opt f w)) is_animated)
    with (free_guilds (add_event (Call_free_guild is_animated) w) is_animated).
  destruct (order_by_random_limit_1 _ _); cbn; [|reflexivity].
  destruct (bytes_to_base64_data cfg image_data); cbn; [reflexivity|].
  destruct (create_custom_emoji cfg _ _ _); cbn; [reflexivity|].
  destruct (name_taken _ _ _ || existsb _ _); reflexivity.
Qed.

(** When the name is free, [create_emote] calls the allocator. *)
Lemma create_emote_allocates cfg n author_id is_animated image_data w :
  List.find (fun e => Str.ieq (name e) n) (emotes w) = None ->
  exists evs,
    trace (snd (create_emote cfg n author_id is_animated image_data w))
    = trace w ++ Call_free_guild is_animated :: evs.
Proof.
  intros Hfree.
  unfold create_emote, ensure_emote_does_not_exist, get_emote, free_guild, insert_emote, emit.
  run_coro. rewrite Hfree. cbn.
  destruct (order_by_random_limit_1 _ _); cbn; [|eexists; reflexivity].
  destruct (bytes_to_base64_data cfg image_data); cbn; [eexists; reflexivity|].
  destruct (create_custom_emoji cfg _ _ _); cbn.
  - rewrite <- app_assoc. eexists; reflexivity.
  - destruct (name_taken _ _ _ || existsb _ _); cbn;
      rewrite <- app_assoc; eexists; reflexivity.
Qed.

(** ** Removal *)

Lemma is_owner_run cfg emote user_id w :
  is_owner cfg emote user_id w = (Ok (authorized cfg emote user_id), w).
Proof. destruct user_id; reflexivity. Qed.

Lemma owner_check_run cfg emote user_id w :
  owner_check cfg emote user_id w
  = (if authorized cfg emote user_id then Ok tt else Raise (PermissionDeniedError (name emote)), w).
Proof.
  unfold owner_check, bind. rewrite is_owner_run.
  destruct (authorized cfg emote user_id); reflexivity.
Qed.

Lemma remove_emote_run cfg target user_id emote w :
  designates w target emote ->
  remove_emote cfg target user_id w
  = if authorized cfg emote user_id
    then removal cfg emote w
    else (Raise (PermissionDeniedError (name emote)), w).
Proof.
  intros Hd. unfold remove_emote, removal.
  assert (Hres : (match target with inl n => get_emote n | inr e => ret e end) w = (Ok emote, w)).
  { destruct target as [n|e]; cbn in Hd.
    - unfold get_emote. run_coro. rewrite Hd. reflexivity.
    - subst. reflexivity. }
  unfold bind at 1. rewrite Hres.
  unfold bind at 1. rewrite owner_check_run.
  destruct (authorized cfg emote user_id); [|reflexivity].
  unfold emit. run_coro.
  destruct (delete_custom_emoji cfg (guild emote) (id emote)) as [ex|]; cbn; [|reflexivity].
  destruct (is_NotFound ex); reflexivity.
Qed.

Lemma remove_emote_missing cfg n user_id w :
  List.find (fun e => Str.ieq (name e) n) (emotes w) = None ->
  remove_emote cfg (inl n) user_id w = (Raise (EmoteNotFoundError n), w).
Proof.
  intros Hf. unfold remove_emote, get_emote. run_coro. rewrite Hf. reflexivity.
Qed.

Lemma delete_emote_rows_emotes cascades emote_id w e :
  In e (emotes (delete_emote_rows cascades emote_id w))
  <-> In e (emotes w) /\ id e <> emote_id.
Proof.
  unfold delete_emote_rows. destruct cascades; cbn; rewrite filter_In;
    destruct (Z.eqb_spec (id e) emote_id); cbn; intuition congruence.
Qed.

Lemma delete_emote_rows_history emote_id w ev :
  In ev (emote_usage_history (delete_emote_rows true emote_id w))
  <-> In ev (emote_usage_history w) /\ fst ev <> emote_id.
Proof.
  unfold delete_emote_rows. cbn. rewrite filter_In.
  destruct (Z.eqb_spec (fst ev) emote_id); cbn; intuition congruence.
Qed.

Lemma delete_emote_rows_trace cascades emote_id w :
  trace (delete_emote_rows cascades emote_id w) = trace w.
Proof. unfold delete_emote_rows. destruct cascades; reflexivity. Qed.

Lemma remove_emote_Ok_inv cfg target user_id emote w w' :
  remove_emote cfg target user_id w = (Ok emote, w') ->
  designates w target emote
  /\ authorized cfg emote user_id = true
  /\ removal cfg emote w = (Ok emote, w').
Proof.
  intros Hrun.
  assert (Hd : exists e0, designates w target e0).
  { destruct target as [n|e]; cbn; [|eauto].
    destruct (List.find (fun e => Str.ieq (name e) n) (emotes w)) eqn:Hf; [eauto|].
    rewrite (remove_emote_missing _ _ _ _ Hf) in Hrun. discriminate. }
  destruct Hd as [e0 Hd]. rewrite (remove_emote_run _ _ _ _ _ Hd) in Hrun.
  destruct (authorized cfg e0 user_id) eqn:Ha; [|discriminate].
  assert (e0 = emote) as ->.
  { unfold removal in Hrun.
    destruct (delete_custom_emoji cfg (guild e0) (id e0)) as [ex|];
      [destruct (is_NotFound ex)|]; congruence. }
  auto.
Qed.

(** After a removal that returned, neither a row nor (with the cascading
    foreign key) a usage event of the emote is left; the other rows and events
    are kept. *)
Lemma remove_emote_purges cfg target user_id emote w w' :
  usage_history_cascades cfg = true ->
  remove_emote cfg target user_id w = (Ok emote, w') ->
  (forall e, In e (emotes w') <-> In e (emotes w) /\ id e <> id emote)
  /\ (forall ev, In ev (emote_usage_history w')
                 <-> In ev (emote_usage_history w) /\ fst ev <> id emote).
Proof.
  intros Hc Hrun. apply remove_emote_Ok_inv in Hrun as (_ & _ & Hrun).
  unfold removal in Hrun. rewrite Hc in Hrun.
  destruct (delete_custom_emoji cfg (guild emote) (id emote)) as [ex|];
    [destruct (is_NotFound ex); [|discriminate]|];
    apply (f_equal snd) in Hrun; cbn [snd] in Hrun; subst w'; split; intros x;
    rewrite ?delete_emote_rows_emotes, ?delete_emote_rows_history; reflexivity.
Qed.

(** Without the cascading foreign key the usage events stay. *)
Lemma remove_emote_keeps_history_without_cascade cfg target user_id emote w w' :
  usage_history_cascades cfg = false ->
  remove_emote cfg target user_id w = (Ok emote, w') ->
  emote_usage_history w' = emote_usage_history w.
Proof.
  intros Hc Hrun. apply remove_emote_Ok_inv in Hrun as (_ & _ & Hrun).
  unfold removal in Hrun. rewrite Hc in Hrun.
  destruct (delete_custom_emoji cfg (guild emote) (id emote)) as [ex|];
    [destruct (is_NotFound ex); [|discriminate]|];
    apply (f_equal snd) in Hrun; cbn [snd] in Hrun; subst w'; reflexivity.
Qed.

(** In this version, when the user may remove the emote and Discord answers
    the delete call with [NotFound] (the emote is in the database but not in
    the backend), [remove_emote] logs the warning, deletes the rows of the
    emote from [emotes] and returns the emote: nothing is raised. *)
Lemma remove_emote_tolerates_missing_backend cfg w target user_id emote :
  designates w target emote ->
  authorized cfg emote user_id = true ->
  delete_custom_emoji cfg (guild emote) (id emote) = Some NotFound ->
  exists w',
    remove_emote cfg target user_id w = (Ok emote, w')
    /\ trace w' = trace w ++ [Http_delete_custom_emoji (guild emote) (id emote);
                              Log_warn_not_in_backend (name emote)]
    /\ (forall e, In e (emotes w') <-> In e (emotes w) /\ id e <> id emote).
Proof.
  intros Hd Ha Hnf. rewrite (remove_emote_run _ _ _ _ _ Hd), Ha.
  unfold removal. rewrite Hnf. cbn. eexists. split; [reflexivity|]. split.
  - rewrite delete_emote_rows_trace. cbn. rewrite <- app_assoc. reflexivity.
  - intros e. rewrite delete_emote_rows_emotes. reflexivity.
Qed.

(** ** Decay *)

Lemma for_each_app {S E A} (xs ys : list A) (body : A -> @M S E unit) s :
  for_each (xs ++ ys) body s
  = match for_each xs body s with
    | (Ok _, s') => for_each ys body s'
    | (Raise e, s') => (Raise e, s')
    end.
Proof.
  revert s. induction xs as [|x xs IH]; intros s; cbn; [reflexivity|].
  unfold bind. destruct (body x s) as [[[]|e] s']; [apply IH|reflexivity].
Qed.

Lemma decay_catches_not_NotFound ex : decay_catches ex = true -> is_NotFound ex = false.
Proof. destruct ex; cbn; congruence. Qed.

(** One turn of the loop, written out. *)
Lemma decay_one_run cfg c w :
  decay_one cfg c w
  = let w1 := add_event (Logger_on_emote_decay (id c)) (add_event (Log_debug_decaying (name c)) w) in
    match removal cfg c w1 with
    | (Ok _, w2) => (Ok tt, w2)
    | (Raise ex, w2) =>
        if decay_catches ex
        then (Ok tt,
              match on_emote_decay cfg c with
              | Some message => add_event (Message_delete message)
              | None => fun w3 => w3
              end (add_event (Log_error_decaying_failed (name c) ex) w2))
        else (Raise ex, w2)
    end.
Proof.
  unfold decay_one, emit.
  unfold bind at 1. unfold modify at 1.
  unfold bind at 1. unfold modify at 1.
  unfold try_except, bind at 1.
  rewrite (remove_emote_run cfg (inr c) None c) by reflexivity. cbn [authorized].
  cbv zeta.
  destruct (removal cfg c _) as [[e|ex] w2]; [reflexivity|].
  destruct (decay_catches ex); [|reflexivity].
  destruct (on_emote_decay cfg c); reflexivity.
Qed.

(** An exception of another class leaves the loop. *)
Lemma decay_one_propagates cfg c ex w :
  delete_custom_emoji cfg (guild c) (id c) = Some ex ->
  is_NotFound ex = false ->
  decay_catches ex = false ->
  fst (decay_one cfg c w) = Raise ex.
Proof.
  intros Hdel Hnf Hcatch. rewrite decay_one_run. cbv zeta. unfold removal.
  rewrite Hdel, Hnf, Hcatch. reflexivity.
Qed.

Lemma removal_trace cfg c w :
  exists evs, trace (snd (removal cfg c w))
              = trace w ++ Http_delete_custom_emoji (guild c) (id c) :: evs.
Proof.
  unfold removal.
  destruct (delete_custom_emoji cfg (guild c) (id c)) as [ex|];
    [destruct (is_NotFound ex)|]; cbn [snd];
    rewrite ?delete_emote_rows_trace; cbn; rewrite <- ?app_assoc; eexists; reflexivity.
Qed.

Lemma removal_keeps_others cfg c w e :
  In e (emotes w) -> id e <> id c -> In e (emotes (snd (removal cfg c w))).
Proof.
  intros Hin Hne. unfold removal.
  destruct (delete_custom_emoji cfg (guild c) (id c)) as [ex|];
    [destruct (is_NotFound ex)|]; cbn [snd];
    rewrite ?delete_emote_rows_emotes; auto.
Qed.

Lemma decay_one_trace cfg c w :
  exists evs, trace (snd (decay_one cfg c w)) = trace w ++ Log_debug_decaying (name c) :: evs.
Proof.
  rewrite decay_one_run. cbv zeta.
  destruct (removal_trace cfg c
              (add_event (Logger_on_emote_decay (id c)) (add_event (Log_debug_decaying (name c)) w)))
    as [evs Hevs].
  destruct (removal cfg c _) as [[e|ex] w2]; cbn [snd] in *.
  - rewrite Hevs. cbn. rewrite <- !app_assoc. eexists; reflexivity.
  - destruct (decay_catches ex); cbn [snd].
    + destruct (on_emote_decay cfg c); cbn; rewrite Hevs; cbn;
        rewrite <- !app_assoc; eexists; reflexivity.
    + rewrite Hevs. cbn. rewrite <- !app_assoc. eexists; reflexivity.
Qed.

Lemma decay_one_keeps_others cfg c w e :
  In e (emotes w) -> id e <> id c -> In e (emotes (snd (decay_one cfg c w))).
Proof.
  intros Hin Hne. rewrite decay_one_run. cbv zeta.
  pose proof (removal_keeps_others cfg c
                (add_event (Logger_on_emote_decay (id c)) (add_event (Log_debug_decaying (name c)) w))
                e Hin Hne) as Hk.
  destruct (removal cfg c _) as [[e'|ex] w2]; cbn [snd] in *; [exact Hk|].
  destruct (decay_catches ex); cbn [snd]; [|exact Hk].
  destruct (on_emote_decay cfg c); exact Hk.
Qed.

Lemma for_each_decay_keeps_others cfg cs : forall w e,
  In e (emotes w) -> (forall c, In c cs -> id e <> id c) ->
  In e (emotes (snd (for_each cs (decay_one cfg) w))).
Proof.
  induction cs as [|c cs IH]; intros w e Hin Hne; cbn; [exact Hin|].
  unfold bind.
  pose proof (decay_one_keeps_others cfg c w e Hin (Hne c (or_introl eq_refl))) as Hk.
  destruct (decay_one cfg c w) as [[[]|ex] w1]; cbn [snd] in *; [|exact Hk].
  apply IH; [exact Hk|]. intros c' Hc'. apply Hne. right. exact Hc'.
Qed.

Lemma NoDup_map_filter {A B} (f : A -> B) (p : A -> bool) (l : list A) :
  List.NoDup (List.map f l) -> List.NoDup (List.map f (List.filter p l)).
Proof.
  induction l as [|x l IH]; cbn; [auto|].
  intros Hnd. apply List.NoDup_cons_iff in Hnd as [Hx Hnd].
  destruct (p x); cbn; [|auto]. apply List.NoDup_cons_iff. split; [|auto].
  intros Hin. apply Hx. apply in_map_iff in Hin as (y & Hy & Hin).
  apply filter_In in Hin as [Hin _]. apply in_map_iff. eauto.
Qed.

Lemma decayable_emotes_run cfg w :
  decayable_emotes cfg w
  = (Ok (List.map (with_usage w (utcnow cfg - decay_cutoff_time cfg))
           (List.filter (decayable w (utcnow cfg - decay_cutoff_time cfg) (decay_cutoff_usage cfg))
                        (emotes w))), w).
Proof. reflexivity. Qed.

Lemma decayable_emotes_ids cfg w :
  unique_ids (emotes w) ->
  forall cs, fst (decayable_emotes cfg w) = Ok cs -> List.NoDup (List.map id cs).
Proof.
  intros Hnd cs. rewrite decayable_emotes_run. cbn [fst]. intros [= <-].
  rewrite List.map_map. cbn. apply NoDup_map_filter. exact Hnd.
Qed.

Lemma for_each_decay_trace cfg cs : forall w,
  exists evs, trace (snd (for_each cs (decay_one cfg) w)) = trace w ++ evs.
Proof.
  induction cs as [|c cs IH]; intros w; cbn.
  - exists []. rewrite app_nil_r. reflexivity.
  - unfold bind. destruct (decay_one_trace cfg c w) as [evs1 H1].
    destruct (decay_one cfg c w) as [[[]|ex] w1]; cbn [snd] in *.
    + destruct (IH w1) as [evs2 H2]. rewrite H2, H1, <- app_assoc. eexists; reflexivity.
    + rewrite H1. eexists; reflexivity.
Qed.

Lemma for_each_decay_first cfg c cs w :
  exists evs,
    trace (snd (for_each (c :: cs) (decay_one cfg) w))
    = trace w ++ Log_debug_decaying (name c) :: evs.
Proof.
  cbn. unfold bind. destruct (decay_one_trace cfg c w) as [evs1 H1].
  destruct (decay_one cfg c w) as [[[]|ex] w1]; cbn [snd] in *.
  - destruct (for_each_decay_trace cfg cs w1) as [evs2 H2].
    rewrite H2, H1, <- app_assoc. cbn. eexists; reflexivity.
  - rewrite H1. eexists; reflexivity.
Qed.

(** The handler of the loop.  In a pass of [decay] over the candidates
    [before ++ c :: after] that has reached [c], when the removal of [c] fails
    with an exception of the classes the handler names
    ([errors.ConnoisseurError] and [errors.DiscordError]): the failure is
    logged, the notification sent for [c] is deleted when there is one, no row
    and no usage event is deleted (the rows of [c] are still in [emotes]), and
    the pass goes on with the candidates after [c], the next one being taken
    up. *)
Lemma decay_contains_failure cfg w before c after ex w1 :
  unique_ids (emotes w) ->
  fst (decayable_emotes cfg w) = Ok (before ++ c :: after) ->
  for_each before (decay_one cfg) w = (Ok tt, w1) ->
  delete_custom_emoji cfg (guild c) (id c) = Some ex ->
  decay_catches ex = true ->
  exists w2,
    decay_one cfg c w1 = (Ok tt, w2)
    /\ trace w2 = trace w1
                  ++ [Log_debug_decaying (name c);
                      Logger_on_emote_decay (id c);
                      Http_delete_custom_emoji (guild c) (id c);
                      Log_error_decaying_failed (name c) ex]
                  ++ match on_emote_decay cfg c with
                     | Some message => [Message_delete message]
                     | None => []
                     end
    /\ emotes w2 = emotes w1
    /\ emote_usage_history w2 = emote_usage_history w1
    /\ (forall e, In e (emotes w) -> id e = id c -> In e (emotes w2))
    /\ decay cfg w = for_each after (decay_one cfg) w2
    /\ (forall c' after', after = c' :: after' ->
          exists evs, trace (snd (decay cfg w)) = trace w2 ++ Log_debug_decaying (name c') :: evs).
Proof.
  intros Hkey Hcs Hbefore Hdel Hcatch.
  pose proof (decay_one_run cfg c w1) as Hrun. cbv zeta in Hrun.
  unfold removal in Hrun. rewrite Hdel, (decay_catches_not_NotFound _ Hcatch), Hcatch in Hrun.
  assert (Hdecay : decay cfg w
                   = for_each after (decay_one cfg) (snd (decay_one cfg c w1))).
  { unfold decay. unfold bind at 1. rewrite decayable_emotes_run in Hcs |- *.
    cbn [fst] in Hcs. injection Hcs as ->.
    rewrite for_each_app, Hbefore. cbn [for_each]. unfold bind at 1.
    rewrite Hrun. reflexivity. }
  eexists. split; [exact Hrun|]. rewrite Hrun in Hdecay. cbn [snd] in Hdecay.
  assert (Hrows : forall w3,
            emotes (match on_emote_decay cfg c with
                    | Some message => add_event (Message_delete message)
                    | None => fun w4 => w4
                    end w3) = emotes w3
            /\ emote_usage_history (match on_emote_decay cfg c with
                    | Some message => add_event (Message_delete message)
                    | None => fun w4 => w4
                    end w3) = emote_usage_history w3).
  { intros w3. destruct (on_emote_decay cfg c); split; reflexivity. }
  split; [|split; [|split; [|split; [|split]]]].
  - destruct (on_emote_decay cfg c); cbn; rewrite <- !app_assoc; reflexivity.
  - rewrite (proj1 (Hrows _)). reflexivity.
  - rewrite (proj2 (Hrows _)). reflexivity.
  - intros e Hin Hid. rewrite (proj1 (Hrows _)). cbn [emotes add_event].
    pose proof (decayable_emotes_ids cfg w Hkey _ Hcs) as Hnd.
    rewrite List.map_app in Hnd. cbn [List.map] in Hnd.
    apply List.NoDup_remove_2 in Hnd.
    replace (emotes w1) with (emotes (snd (for_each before (decay_one cfg) w)))
      by (rewrite Hbefore; reflexivity).
    apply for_each_decay_keeps_others; [exact Hin|].
    intros b Hb Heq. apply Hnd. apply in_or_app. left.
    apply in_map_iff. exists b. split; [congruence|exact Hb].
  - exact Hdecay.
  - intros c' after' ->. rewrite Hdecay. apply for_each_decay_first.
Qed.

(** A turn of the loop whose delete call is obeyed, or answered with
    [NotFound], leaves no row and (with the cascading foreign key) no usage
    event of the candidate. *)
Lemma decay_one_purges cfg c w :
  usage_history_cascades cfg = true ->
  delete_custom_emoji cfg (guild c) (id c) = None
  \/ delete_custom_emoji cfg (guild c) (id c) = Some NotFound ->
  fst (decay_one cfg c w) = Ok tt
  /\ (forall e, In e (emotes (snd (decay_one cfg c w))) <-> In e (emotes w) /\ id e <> id c)
  /\ (forall ev, In ev (emote_usage_history (snd (decay_one cfg c w)))
                 <-> In ev (emote_usage_history w) /\ fst ev <> id c).
Proof.
  intros Hc Hdel. rewrite decay_one_run. cbv zeta. unfold removal. rewrite Hc.
  destruct Hdel as [-> | ->]; cbn [is_NotFound fst snd];
    (split; [reflexivity|]); split; intros x;
    rewrite ?delete_emote_rows_emotes, ?delete_emote_rows_history; reflexivity.
Qed.

(** ** Renaming *)

Lemma get_emote_run n w :
  get_emote n w
  = (match List.find (fun e => Str.ieq (name e) n) (emotes w) with
     | Some e => Ok e
     | None => Raise (EmoteNotFoundError n)
     end, w).
Proof.
  unfold get_emote. run_coro.
  destruct (List.find _ (emotes w)); reflexivity.
Qed.

Lemma id_rename_row emote_id n e : id (rename_row emote_id n e) = id e.
Proof. unfold rename_row. destruct (id e =? emote_id); reflexivity. Qed.

Lemma find_rename_row rows emote_id n :
  existsb (fun e => id e =? emote_id) rows = true ->
  exists row,
    List.find (fun e => id e =? emote_id) (List.map (rename_row emote_id n) rows) = Some row
    /\ name row = n /\ id row = emote_id.
Proof.
  induction rows as [|e rows IH]; cbn; [discriminate|].
  rewrite id_rename_row.
  destruct (id e =? emote_id) eqn:He; cbn.
  - intros _. eexists; split; [reflexivity|].
    unfold rename_row. rewrite He. cbn. split; [reflexivity|lia].
  - exact IH.
Qed.

(** No other row bears a name that differs from the name of [emote] by case
    only. *)
Lemma name_free_for_case_variant rows emote old_name new_name :
  unique_names rows ->
  List.find (fun e => Str.ieq (name e) old_name) rows = Some emote ->
  Str.lower old_name = Str.lower new_name ->
  name_taken rows (Some (id emote)) new_name = false.
Proof.
  intros Hu Hf Hcase. apply find_some in Hf as [Hin Hold]. apply ieq_lower in Hold.
  unfold name_taken. apply not_true_is_false. intros Ht.
  apply existsb_exists in Ht as (e & He & Hb). apply andb_prop in Hb as [Hid Hn].
  apply ieq_lower in Hn.
  assert (e = emote) as -> by (apply Hu; [exact He|exact Hin|congruence]).
  rewrite bool_decide_eq_true_2 in Hid by reflexivity. discriminate.
Qed.

(** A name borne by another row is not a case variant of the old name, and
    looking it up finds that row. *)
Lemma name_of_other_row rows emote other old_name new_name :
  unique_names rows ->
  List.find (fun e => Str.ieq (name e) old_name) rows = Some emote ->
  In other rows -> other <> emote ->
  Str.ieq (name other) new_name = true ->
  Str.lower old_name <> Str.lower new_name
  /\ List.find (fun e => Str.ieq (name e) new_name) rows = Some other.
Proof.
  intros Hu Hf Hin Hne Hn. apply ieq_lower in Hn.
  apply find_some in Hf as [Hine Hold]. apply ieq_lower in Hold. split.
  - intros Hcase. apply Hne. apply Hu; [exact Hin|exact Hine|congruence].
  - destruct (List.find (fun e => Str.ieq (name e) new_name) rows) as [e|] eqn:Hfind.
    + apply find_some in Hfind as [He Hen]. apply ieq_lower in Hen.
      f_equal. apply Hu; [exact He|exact Hin|congruence].
    + exfalso. apply (find_none _ _ Hfind) in Hin.
      apply ieq_lower in Hn. congruence.
Qed.

Lemma rename_emote_case_variant cfg w emote old_name new_name user_id :
  unique_names (emotes w) ->
  List.find (fun e => Str.ieq (name e) old_name) (emotes w) = Some emote ->
  authorized cfg emote user_id = true ->
  Str.lower old_name = Str.lower new_name ->
  edit_custom_emoji cfg (guild emote) (id emote) new_name = None ->
  exists row,
    rename_emote cfg old_name new_name user_id w
    = (Ok row,
       set_emotes (List.map (rename_row (id emote) new_name))
         (add_event (Http_edit_custom_emoji (guild emote) (id emote) new_name) w))
    /\ name row = new_name /\ id row = id emote.
Proof.
  intros Hu Hf Ha Hcase Hedit.
  pose proof (name_free_for_case_variant _ _ _ _ Hu Hf Hcase) as Hfree.
  pose proof (find_some _ _ Hf) as [Hin _].
  destruct (find_rename_row (emotes w) (id emote) new_name (existsb_id_In _ _ Hin))
    as (row & Hrow & Hname & Hid).
  exists row. split; [|auto].
  unfold rename_emote. rewrite Hcase, String.eqb_refl. cbn [negb].
  unfold bind at 1. cbn [ret].
  unfold bind at 1. rewrite get_emote_run, Hf.
  unfold bind at 1. rewrite owner_check_run, Ha.
  unfold emit. run_coro. rewrite Hedit.
  unfold update_name. run_coro. rewrite Hfree, andb_false_r. cbn.
  rewrite Hrow. reflexivity.
Qed.

Lemma rename_emote_name_in_use cfg w emote other old_name new_name user_id :
  unique_names (emotes w) ->
  List.find (fun e => Str.ieq (name e) old_name) (emotes w) = Some emote ->
  In other (emotes w) -> other <> emote ->
  Str.ieq (name other) new_name = true ->
  rename_emote cfg old_name new_name user_id w = (Raise (EmoteExistsError other), w).
Proof.
  intros Hu Hf Hin Hne Hn.
  destruct (name_of_other_row _ _ _ _ _ Hu Hf Hin Hne Hn) as [Hcase Hfind].
  unfold rename_emote.
  destruct (String.eqb_spec (Str.lower old_name) (Str.lower new_name)); [contradiction|].
  cbn [negb]. unfold ensure_emote_does_not_exist, get_emote. run_coro.
  rewrite Hfind. reflexivity.
Qed.

End EmoteCollectorFacts.

Module CogsFacts.
Import Cogs.

#[local] Arguments random_choice : simpl never.
#[local] Arguments free_guilds : simpl never.
#[local] Arguments kind_count : simpl never.
#[local] Arguments name_taken : simpl never.
#[local] Arguments usage_since : simpl never.

(** ** Allocation *)

Lemma old_In_free_guilds cfg is_animated g :
  In g (free_guilds cfg is_animated)
  <-> In g (backend_guilds cfg) /\ kind_count is_animated g < 50.
Proof. unfold free_guilds. rewrite filter_In. intuition lia. Qed.

Lemma old_free_guild_run cfg is_animated w :
  free_guild cfg is_animated w
  = (match free_guilds cfg is_animated with
     | [] => Raise NoMoreSlotsError
     | g0 :: gs =>
         match random_choice (random_draw cfg) (g0 :: gs) with
         | Some g => Ok g
         | None => Raise IndexError
         end
     end, add_event (Call_free_guild is_animated) w).
Proof.
  unfold free_guild, emit. run_coro.
  destruct (free_guilds cfg is_animated) as [|g0 gs]; [reflexivity|].
  destruct (random_choice _ _); reflexivity.
Qed.

Lemma random_choice_In {A} draw (xs : list A) a : random_choice draw xs = Some a -> In a xs.
Proof. unfold random_choice. apply nth_error_In. Qed.

Lemma random_choice_nonempty {A} draw (xs : list A) :
  xs <> [] -> exists a, random_choice draw xs = Some a.
Proof.
  intros Hne. unfold random_choice.
  destruct (nth_error xs (draw mod length xs)) eqn:Hn; [eauto|].
  apply nth_error_None in Hn.
  assert (length xs <> 0)%nat by (destruct xs; [congruence|cbn; lia]).
  pose proof (Nat.mod_upper_bound draw (length xs)). lia.
Qed.

Lemma random_choice_any {A} (xs : list A) a :
  In a xs -> exists draw, random_choice draw xs = Some a.
Proof.
  intros Hin. apply In_nth_error in Hin as [i Hi]. exists i.
  unfold random_choice. rewrite Nat.mod_small; [exact Hi|].
  apply nth_error_Some. congruence.
Qed.

(** ** Creation *)

(** A user with a non-empty blacklist reason is turned away before the name
    is looked up and before [free_guild] is called; nothing is changed. *)
Lemma create_emote_blacklisted cfg n author_id is_animated image_data w reason :
  fst (get_user_blacklist author_id w) = Ok (Some reason) ->
  reason <> "" ->
  create_emote cfg n author_id is_animated image_data w = (Raise (UserBlacklisted reason), w).
Proof.
  unfold create_emote, get_user_blacklist. run_coro.
  intros [= ->] Hne. cbn.
  destruct (String.eqb_spec reason ""); [contradiction|]. reflexivity.
Qed.

(** ** Removal *)

Lemma old_get_emote_run n w :
  get_emote n w = (Ok (List.find (fun e => Str.ieq (name e) n) (emojis_table w)), w).
Proof. reflexivity. Qed.

Lemma old_owner_check_run cfg n user_id w :
  owner_check cfg n user_id w
  = (match List.find (fun e => Str.ieq (name e) n) (emojis_table w) with
     | None => Raise (EmoteNotFoundError (Some n))
     | Some e => if authorized cfg e user_id then Ok tt else Raise (PermissionDeniedError n)
     end, w).
Proof.
  unfold owner_check, is_owner, get_emote, authorized. run_coro.
  destruct (List.find _ (emojis_table w)) as [e|]; cbn; [|reflexivity].
  destruct (bot_is_owner cfg user_id || (author e =? user_id)); reflexivity.
Qed.

Lemma old_remove_emote_run cfg n user_id w :
  remove_emote cfg n user_id w
  = match List.find (fun e => Str.ieq (name e) n) (emojis_table w) with
    | None => (Raise (EmoteNotFoundError (match user_id with Some _ => Some n | None => None end)), w)
    | Some db_emote =>
        if match user_id with Some user => authorized cfg db_emote user | None => true end
        then
          match get_emoji cfg (id db_emote) with
          | None => (Raise DiscordError, w)
          | Some emote =>
              match emoji_delete cfg (emoji_id emote) with
              | Some ex => (Raise ex, add_event (Emoji_delete (emoji_id emote)) w)
              | None =>
                  (Ok tt,
                   set_emojis_table (List.filter (fun e => negb (id e =? id db_emote)))
                     (set_emote_usage_history (List.filter (fun ev => negb (fst ev =? id db_emote)))
                        (add_event (Emoji_delete (emoji_id emote)) w)))
              end
          end
        else (Raise (PermissionDeniedError n), w)
    end.
Proof.
  unfold remove_emote. unfold bind at 1.
  destruct user_id as [user|].
  - rewrite old_owner_check_run.
    destruct (List.find _ (emojis_table w)) as [db_emote|] eqn:Hf; [|reflexivity].
    destruct (authorized cfg db_emote user); [|reflexivity].
    unfold bind at 1. rewrite old_get_emote_run, Hf.
    destruct (get_emoji cfg (id db_emote)) as [emote|]; [|reflexivity].
    unfold emit. run_coro. destruct (emoji_delete cfg (emoji_id emote)); reflexivity.
  - cbn [ret]. unfold bind at 1. rewrite old_get_emote_run.
    destruct (List.find _ (emojis_table w)) as [db_emote|] eqn:Hf; [|reflexivity].
    destruct (get_emoji cfg (id db_emote)) as [emote|]; [|reflexivity].
    unfold emit. run_coro. destruct (emoji_delete cfg (emoji_id emote)); reflexivity.
Qed.

(** After a removal that returned, neither a row nor a usage event of the
    emote is left; the other rows and events are kept. *)
Lemma old_remove_emote_purges cfg n user_id db_emote w w' :
  List.find (fun e => Str.ieq (name e) n) (emojis_table w) = Some db_emote ->
  remove_emote cfg n user_id w = (Ok tt, w') ->
  (forall e, In e (emojis_table w') <-> In e (emojis_table w) /\ id e <> id db_emote)
  /\ (forall ev, In ev (emote_usage_history w')
                 <-> In ev (emote_usage_history w) /\ fst ev <> id db_emote).
Proof.
  intros Hf. rewrite old_remove_emote_run, Hf.
  destruct (match user_id with Some user => authorized cfg db_emote user | None => true end);
    [|discriminate].
  destruct (get_emoji cfg (id db_emote)) as [emote|]; [|discriminate].
  destruct (emoji_delete cfg (emoji_id emote)); [discriminate|].
  intros Hrun. apply (f_equal snd) in Hrun. cbn [snd] in Hrun. subst w'.
  split; intros x; cbn; rewrite filter_In.
  - destruct (Z.eqb_spec (id x) (id db_emote)); cbn; intuition congruence.
  - destruct (Z.eqb_spec (fst x) (id db_emote)); cbn; intuition congruence.
Qed.

(** Unlike its successor, this version gives up when the client cache has
    no emoji for the row: [DiscordError] is raised and the row stays. *)
Lemma remove_emote_missing_backend_raises cfg n db_emote w :
  List.find (fun e => Str.ieq (name e) n) (emojis_table w) = Some db_emote ->
  get_emoji cfg (id db_emote) = None ->
  remove_emote cfg n None w = (Raise DiscordError, w).
Proof. intros Hf Hg. rewrite old_remove_emote_run, Hf, Hg. reflexivity. Qed.

(** ** Decay *)

(** This version of the pass never gets to a candidate. *)
Lemma decay_raises w : decay w = (Raise TypeError, w).
Proof. reflexivity. Qed.

(** ** Usage ledger *)

(** This version records every use: it is not told who the user is. *)
Lemma log_emote_use_always_appends cfg emote_id w :
  log_emote_use cfg emote_id w
  = (Ok tt, set_emote_usage_history (fun rows => rows ++ [(emote_id, utcnow cfg)]) w).
Proof. reflexivity. Qed.

(** ** Preference resolution *)

(** This version does not look at the blacklist. *)
Lemma get_state_run guild user_id w :
  get_state guild user_id w
  = (Ok match user_opt w !! user_id ≫= state with
        | Some user_state => user_state
        | None =>
            match guild_opt w !! guild ≫= (fun st => st) with
            | Some guild_state => guild_state
            | None => true
            end
        end, w).
Proof.
  unfold get_state, get_guild_state, get_user_state. run_coro.
  destruct (user_opt w !! user_id ≫= state); reflexivity.
Qed.

(** ** Decay selection *)

Lemma old_decayable_emotes_selects cutoff usage_threshold w :
  exists rows,
    decayable_emotes cutoff usage_threshold w = (Ok rows, w)
    /\ forall e,
         In e rows <->
         In e (emojis_table w)
         /\ created e < cutoff
         /\ preserve e = false
         /\ usage_since (emote_usage_history w) (id e) cutoff < usage_threshold.
Proof.
  eexists. split; [reflexivity|]. intros e. rewrite filter_In. unfold decayable.
  rewrite !andb_true_iff, negb_true_iff. intuition lia.
Qed.

(** ** Renaming *)

Lemma old_name_free_for_case_variant rows emote old_name new_name :
  unique_names rows ->
  List.find (fun e => Str.ieq (name e) old_name) rows = Some emote ->
  Str.lower old_name = Str.lower new_name ->
  name_taken rows (Some (id emote)) new_name = false.
Proof.
  intros Hu Hf Hcase. apply find_some in Hf as [Hin Hold]. apply ieq_lower in Hold.
  unfold name_taken. apply not_true_is_false. intros Ht.
  apply existsb_exists in Ht as (e & He & Hb). apply andb_prop in Hb as [Hid Hn].
  apply ieq_lower in Hn.
  assert (e = emote) as -> by (apply Hu; [exact He|exact Hin|congruence]).
  rewrite bool_decide_eq_true_2 in Hid by reflexivity. discriminate.
Qed.

Lemma old_name_of_other_row rows emote other old_name new_name :
  unique_names rows ->
  List.find (fun e => Str.ieq (name e) old_name) rows = Some emote ->
  In other rows -> other <> emote ->
  Str.ieq (name other) new_name = true ->
  Str.lower old_name <> Str.lower new_name
  /\ is_Some (List.find (fun e => Str.ieq (name e) new_name) rows).
Proof.
  intros Hu Hf Hin Hne Hn.
  apply find_some in Hf as [Hine Hold]. apply ieq_lower in Hold. split.
  - intros Hcase. apply ieq_lower in Hn. apply Hne. apply Hu; [exact Hin|exact Hine|congruence].
  - destruct (List.find (fun e => Str.ieq (name e) new_name) rows) as [e|] eqn:Hfind; [eauto|].
    apply (find_none _ _ Hfind) in Hin. congruence.
Qed.

Lemma old_rename_emote_case_variant cfg w db_emote emote old_name new_name user_id :
  unique_names (emojis_table w) ->
  List.find (fun e => Str.ieq (name e) old_name) (emojis_table w) = Some db_emote ->
  authorized cfg db_emote user_id = true ->
  Str.lower old_name = Str.lower new_name ->
  get_emoji cfg (id db_emote) = Some emote ->
  emoji_id emote = id db_emote ->
  emoji_edit cfg (emoji_id emote) new_name = None ->
  rename_emote cfg old_name new_name user_id w
  = (Ok tt,
     set_emojis_table (List.map (rename_row (id db_emote) new_name))
       (add_event (Emoji_edit (id db_emote) new_name) w)).
Proof.
  intros Hu Hf Ha Hcase Hg Hid Hedit.
  pose proof (old_name_free_for_case_variant _ _ _ _ Hu Hf Hcase) as Hfree.
  unfold rename_emote. unfold bind at 1. rewrite old_owner_check_run, Hf, Ha.
  rewrite Hcase, String.eqb_refl. cbn [negb].
  unfold bind at 1. cbn [ret].
  unfold bind at 1. rewrite old_get_emote_run, Hf, Hg.
  rewrite Hedit, Hid. unfold emit. run_coro. rewrite Hfree, andb_false_r. reflexivity.
Qed.

Lemma old_rename_emote_name_in_use cfg w db_emote other old_name new_name user_id :
  unique_names (emojis_table w) ->
  List.find (fun e => Str.ieq (name e) old_name) (emojis_table w) = Some db_emote ->
  authorized cfg db_emote user_id = true ->
  In other (emojis_table w) -> other <> db_emote ->
  Str.ieq (name other) new_name = true ->
  rename_emote cfg old_name new_name user_id w = (Raise (EmoteExistsError new_name), w).
Proof.
  intros Hu Hf Ha Hin Hne Hn.
  destruct (old_name_of_other_row _ _ _ _ _ Hu Hf Hin Hne Hn) as [Hcase [e Hfind]].
  unfold rename_emote. unfold bind at 1. rewrite old_owner_check_run, Hf, Ha.
  destruct (String.eqb_spec (Str.lower old_name) (Str.lower new_name)); [contradiction|].
  cbn [negb]. unfold bind at 1. unfold bind at 1. rewrite old_get_emote_run, Hfind.
  cbn [ret]. rewrite bool_decide_eq_true_2 by eauto. reflexivity.
Qed.

End CogsFacts.

(** * Properties of both versions *)

Section BothVersions.
Local Open Scope coro_scope.

(** ** Creation and the blacklist *)

(** C1, amended.  In [cogs/db.py], [create_emote] consults the blacklist
    first: for a user with a non-empty blacklist reason it raises
    [UserBlacklisted] with that reason and changes nothing, so the trace has
    no call of [free_guild].  In [emote_collector/extensions/db.py],
    [create_emote] does not consult the blacklist: it behaves the same
    whatever [user_opt] holds, and it calls [free_guild] whenever the name is
    free. *)
Theorem create_emote_blacklist_guard :
  (forall cfg n author_id is_animated image_data w reason,
      fst (Cogs.get_user_blacklist author_id w) = Ok (Some reason) ->
      reason <> "" ->
      Cogs.create_emote cfg n author_id is_animated image_data w
      = (Raise (Cogs.UserBlacklisted reason), w))
  /\ (forall cfg n author_id is_animated image_data f w,
        EmoteCollector.create_emote cfg n author_id is_animated image_data
          (EmoteCollector.set_user_opt f w)
        = (fst (EmoteCollector.create_emote cfg n author_id is_animated image_data w),
           EmoteCollector.set_user_opt f
             (snd (EmoteCollector.create_emote cfg n author_id is_animated image_data w))))
  /\ (forall cfg n author_id is_animated image_data w,
        List.find (fun e => Str.ieq (EmoteCollector.name e) n) (EmoteCollector.emotes w) = None ->
        exists evs,
          EmoteCollector.trace
            (snd (EmoteCollector.create_emote cfg n author_id is_animated image_data w))
          = EmoteCollector.trace w ++ EmoteCollector.Call_free_guild is_animated :: evs).
Proof.
  split; [|split].
  - exact CogsFacts.create_emote_blacklisted.
  - exact EmoteCollectorFacts.create_emote_ignores_user_opt.
  - exact EmoteCollectorFacts.create_emote_allocates.
Qed.

Lemma create_emote_blacklist_guard_witness :
  Cogs.create_emote Sample.Old.cfg "party" 42 false [] Sample.Old.db
  = (Raise (Cogs.UserBlacklisted "spam"), Sample.Old.db)
  /\ exists evs,
       EmoteCollector.trace
         (snd (EmoteCollector.create_emote Sample.New.cfg "party" 42 false [] Sample.New.db))
       = EmoteCollector.trace Sample.New.db ++ EmoteCollector.Call_free_guild false :: evs.
Proof.
  destruct create_emote_blacklist_guard as (Hold & _ & Hnew). split.
  - apply Hold; [reflexivity|discriminate].
  - apply Hnew. reflexivity.
Defined.

(** In [emote_collector/extensions/db.py] a blacklisted user who asks for a
    new emote is given a guild: user 42 is blacklisted for "spam", the call
    returns the new row, stored in guild 10, and the allocator was called. *)
Lemma create_emote_serves_blacklisted_user :
  fst (EmoteCollector.get_user_blacklist 42 Sample.New.db) = Ok (Some "spam")
  /\ fst (EmoteCollector.create_emote Sample.New.cfg "party" 42 false [] Sample.New.db)
     = Ok (EmoteCollector.mkDatabaseEmote "party" 777 42 false None 100 None false (Some 10)
             "SFW" None)
  /\ EmoteCollector.trace
       (snd (EmoteCollector.create_emote Sample.New.cfg "party" 42 false [] Sample.New.db))
     = [EmoteCollector.Call_free_guild false;
        EmoteCollector.Http_create_custom_emoji 10 "party"].
Proof.
  split; [|split]; vm_compute; reflexivity.
Qed.

(** ** Allocation *)

(** C2.  For either kind, [free_guild] only returns a backend guild whose
    occupancy for the kind is below 50; when every backend guild has 50 or
    more emotes of the kind it raises [NoMoreSlotsError]; and every guild with
    room is returned for some outcome of the random source, so the choice is
    not bound to the first candidate.  In [emote_collector/extensions/db.py]
    the occupancy is counted on the rows of [emotes] and the random source
    orders the candidates; in [cogs/db.py] it is counted on the emojis of the
    guild in the client cache and [random.choice] picks the candidate. *)
Theorem free_guild_capacity :
  (forall cfg w is_animated,
      (forall g w',
          EmoteCollector.free_guild cfg is_animated w = (Ok g, w') ->
          In g (EmoteCollector.backend_guilds w)
          /\ EmoteCollector.occupancy (EmoteCollector.emotes w) g is_animated < 50)
      /\ ((forall g, In g (EmoteCollector.backend_guilds w) ->
                     50 <= EmoteCollector.occupancy (EmoteCollector.emotes w) g is_animated) ->
          EmoteCollector.free_guild cfg is_animated w
          = (Raise EmoteCollector.NoMoreSlotsError,
             EmoteCollector.add_event (EmoteCollector.Call_free_guild is_animated) w))
      /\ (forall g,
            In g (EmoteCollector.backend_guilds w) ->
            EmoteCollector.occupancy (EmoteCollector.emotes w) g is_animated < 50 ->
            exists rnd,
              EmoteCollector.free_guild (EmoteCollector.set_random rnd cfg) is_animated w
              = (Ok g, EmoteCollector.add_event (EmoteCollector.Call_free_guild is_animated) w)))
  /\ (forall cfg w is_animated,
        (forall g w',
            Cogs.free_guild cfg is_animated w = (Ok g, w') ->
            In g (Cogs.backend_guilds cfg) /\ Cogs.kind_count is_animated g < 50)
        /\ ((forall g, In g (Cogs.backend_guilds cfg) -> 50 <= Cogs.kind_count is_animated g) ->
            Cogs.free_guild cfg is_animated w
            = (Raise Cogs.NoMoreSlotsError, Cogs.add_event (Cogs.Call_free_guild is_animated) w))
        /\ (forall g,
              In g (Cogs.backend_guilds cfg) ->
              Cogs.kind_count is_animated g < 50 ->
              exists draw,
                Cogs.free_guild (Cogs.set_random_draw draw cfg) is_animated w
                = (Ok g, Cogs.add_event (Cogs.Call_free_guild is_animated) w))).
Proof.
  split; intros cfg w is_animated; split; [|split| |split].
  - intros g w'. rewrite EmoteCollectorFacts.free_guild_run.
    destruct (EmoteCollector.order_by_random_limit_1 _ _) as [g'|] eqn:Hpick; [|discriminate].
    intros [= -> _]. apply EmoteCollectorFacts.order_by_random_limit_1_In in Hpick.
    apply EmoteCollectorFacts.In_free_guilds. exact Hpick.
  - intros Hfull. rewrite EmoteCollectorFacts.free_guild_run.
    destruct (EmoteCollector.order_by_random_limit_1 _ _) as [g'|] eqn:Hpick; [|reflexivity].
    apply EmoteCollectorFacts.order_by_random_limit_1_In in Hpick.
    apply EmoteCollectorFacts.In_free_guilds in Hpick as [Hin Hlt].
    specialize (Hfull g' Hin). lia.
  - intros g Hin Hlt.
    assert (Hfree : In g (EmoteCollector.free_guilds w is_animated))
      by (apply EmoteCollectorFacts.In_free_guilds; auto).
    apply In_nth_error in Hfree as [i Hi].
    exists (fun j => if (j =? i)%nat then 0%N else 1%N).
    rewrite EmoteCollectorFacts.free_guild_run. cbn [EmoteCollector.random EmoteCollector.set_random].
    rewrite (EmoteCollectorFacts.order_by_random_limit_1_any _ _ _ Hi). reflexivity.
  - intros g w'. rewrite CogsFacts.old_free_guild_run.
    destruct (Cogs.free_guilds cfg is_animated) as [|g0 gs] eqn:Hfree; [discriminate|].
    destruct (Cogs.random_choice _ _) as [g'|] eqn:Hpick; [|discriminate].
    intros [= -> _]. apply CogsFacts.random_choice_In in Hpick. rewrite <- Hfree in Hpick.
    apply CogsFacts.old_In_free_guilds. exact Hpick.
  - intros Hfull. rewrite CogsFacts.old_free_guild_run.
    destruct (Cogs.free_guilds cfg is_animated) as [|g0 gs] eqn:Hfree; [reflexivity|].
    assert (Hin : In g0 (Cogs.free_guilds cfg is_animated)) by (rewrite Hfree; left; reflexivity).
    apply CogsFacts.old_In_free_guilds in Hin as [Hin Hlt]. specialize (Hfull g0 Hin). lia.
  - intros g Hin Hlt.
    assert (Hfree : In g (Cogs.free_guilds cfg is_animated))
      by (apply CogsFacts.old_In_free_guilds; auto).
    destruct (CogsFacts.random_choice_any _ _ Hfree) as [draw Hdraw]. exists draw.
    rewrite CogsFacts.old_free_guild_run.
    change (Cogs.free_guilds (Cogs.set_random_draw draw cfg) is_animated)
      with (Cogs.free_guilds cfg is_animated).
    cbn [Cogs.random_draw Cogs.set_random_draw].
    destruct (Cogs.free_guilds cfg is_animated) as [|g0 gs]; [destruct Hfree|].
    rewrite Hdraw. reflexivity.
Qed.

Lemma free_guild_capacity_witness :
  EmoteCollector.free_guild Sample.New.cfg false Sample.New.full
  = (Raise EmoteCollector.NoMoreSlotsError,
     EmoteCollector.add_event (EmoteCollector.Call_free_guild false) Sample.New.full)
  /\ (exists rnd,
        EmoteCollector.free_guild (EmoteCollector.set_random rnd Sample.New.cfg) false Sample.New.db
        = (Ok 11, EmoteCollector.add_event (EmoteCollector.Call_free_guild false) Sample.New.db))
  /\ Cogs.free_guild Sample.Old.full_cfg false Sample.Old.db
     = (Raise Cogs.NoMoreSlotsError, Cogs.add_event (Cogs.Call_free_guild false) Sample.Old.db)
  /\ (exists draw,
        Cogs.free_guild (Cogs.set_random_draw draw Sample.Old.cfg) false Sample.Old.db
        = (Ok (Cogs.mkGuild 12 []), Cogs.add_event (Cogs.Call_free_guild false) Sample.Old.db)).
Proof.
  destruct free_guild_capacity as [Hnew Hold].
  split; [|split; [|split]].
  - apply (Hnew Sample.New.cfg Sample.New.full false).
    intros g [<-|[]]. vm_compute. discriminate.
  - apply (Hnew Sample.New.cfg Sample.New.db false).
    + right. left. reflexivity.
    + vm_compute. reflexivity.
  - apply (Hold Sample.Old.full_cfg Sample.Old.db false).
    intros g [<-|[]]. vm_compute. discriminate.
  - apply (Hold Sample.Old.cfg Sample.Old.db false).
    + right. right. left. reflexivity.
    + vm_compute. reflexivity.
Defined.

(** ** Renaming *)

(** C3.  Let the name index be unique, [old_name] designate an emote and the
    user be allowed to modify it.  Renaming to a name that differs from
    [old_name] by case only returns (the Discord call being obeyed) with the
    row renamed, and no conflict is reported; renaming to a name borne, up to
    case, by another row raises [EmoteExistsError] and changes nothing.  In
    [cogs/db.py] the emoji must also be in the client cache. *)
Theorem rename_emote_case_and_conflict :
  (forall cfg w emote old_name new_name user_id,
      EmoteCollector.unique_names (EmoteCollector.emotes w) ->
      List.find (fun e => Str.ieq (EmoteCollector.name e) old_name) (EmoteCollector.emotes w)
      = Some emote ->
      EmoteCollector.authorized cfg emote user_id = true ->
      (Str.lower old_name = Str.lower new_name ->
       EmoteCollector.edit_custom_emoji cfg (EmoteCollector.guild emote) (EmoteCollector.id emote)
         new_name = None ->
       exists row,
         EmoteCollector.rename_emote cfg old_name new_name user_id w
         = (Ok row,
            EmoteCollector.set_emotes
              (List.map (EmoteCollector.rename_row (EmoteCollector.id emote) new_name))
              (EmoteCollector.add_event
                 (EmoteCollector.Http_edit_custom_emoji (EmoteCollector.guild emote)
                    (EmoteCollector.id emote) new_name) w))
         /\ EmoteCollector.name row = new_name
         /\ EmoteCollector.id row = EmoteCollector.id emote)
      /\ (forall other,
            In other (EmoteCollector.emotes w) -> other <> emote ->
            Str.ieq (EmoteCollector.name other) new_name = true ->
            EmoteCollector.rename_emote cfg old_name new_name user_id w
            = (Raise (EmoteCollector.EmoteExistsError other), w)))
  /\ (forall cfg w db_emote old_name new_name user_id,
        Cogs.unique_names (Cogs.emojis_table w) ->
        List.find (fun e => Str.ieq (Cogs.name e) old_name) (Cogs.emojis_table w)
        = Some db_emote ->
        Cogs.authorized cfg db_emote user_id = true ->
        (Str.lower old_name = Str.lower new_name ->
         forall emote,
           Cogs.get_emoji cfg (Cogs.id db_emote) = Some emote ->
           Cogs.emoji_id emote = Cogs.id db_emote ->
           Cogs.emoji_edit cfg (Cogs.emoji_id emote) new_name = None ->
           Cogs.rename_emote cfg old_name new_name user_id w
           = (Ok tt,
              Cogs.set_emojis_table (List.map (Cogs.rename_row (Cogs.id db_emote) new_name))
                (Cogs.add_event (Cogs.Emoji_edit (Cogs.id db_emote) new_name) w)))
        /\ (forall other,
              In other (Cogs.emojis_table w) -> other <> db_emote ->
              Str.ieq (Cogs.name other) new_name = true ->
              Cogs.rename_emote cfg old_name new_name user_id w
              = (Raise (Cogs.EmoteExistsError new_name), w))).
Proof.
  split.
  - intros cfg w emote old_name new_name user_id Hu Hf Ha. split.
    + intros Hcase Hedit.
      exact (EmoteCollectorFacts.rename_emote_case_variant cfg w emote old_name new_name
               user_id Hu Hf Ha Hcase Hedit).
    + intros other Hin Hne Hn.
      exact (EmoteCollectorFacts.rename_emote_name_in_use cfg w emote other old_name new_name
               user_id Hu Hf Hin Hne Hn).
  - intros cfg w db_emote old_name new_name user_id Hu Hf Ha. split.
    + intros Hcase emote Hg Hid Hedit.
      exact (CogsFacts.old_rename_emote_case_variant cfg w db_emote emote old_name new_name
               user_id Hu Hf Ha Hcase Hg Hid Hedit).
    + intros other Hin Hne Hn.
      exact (CogsFacts.old_rename_emote_name_in_use cfg w db_emote other old_name new_name
               user_id Hu Hf Ha Hin Hne Hn).
Qed.

(** ** Decay selection *)

(** C4.  A row is a candidate of the decay exactly when it was created
    strictly before the cutoff, is not preserved, and has strictly fewer usage
    events after the cutoff than the threshold; a preserved row is never a
    candidate.  In [emote_collector/extensions/db.py] the cutoff is the
    current time minus the configured window and the threshold is the
    configured one; in [cogs/db.py] both are the arguments of
    [decayable_emotes]. *)
Theorem decay_selection :
  (forall cfg w,
      let cutoff := EmoteCollector.utcnow cfg - EmoteCollector.decay_cutoff_time cfg in
      exists rows,
        EmoteCollector.decayable_emotes cfg w = (Ok rows, w)
        /\ (forall e, In e (EmoteCollector.emotes w) ->
              (In (EmoteCollector.with_usage w cutoff e) rows <->
                 EmoteCollector.created e < cutoff
                 /\ EmoteCollector.preserve e = false
                 /\ EmoteCollector.usage_since (EmoteCollector.emote_usage_history w)
                      (EmoteCollector.id e) cutoff
                    < EmoteCollector.decay_cutoff_usage cfg))
        /\ (forall e, In e (EmoteCollector.emotes w) -> EmoteCollector.preserve e = true ->
              ~ In (EmoteCollector.with_usage w cutoff e) rows)
        /\ (forall row, In row rows ->
              exists e, In e (EmoteCollector.emotes w)
                        /\ row = EmoteCollector.with_usage w cutoff e))
  /\ (forall cutoff usage_threshold w,
        exists rows,
          Cogs.decayable_emotes cutoff usage_threshold w = (Ok rows, w)
          /\ forall e,
               In e rows <->
               In e (Cogs.emojis_table w)
               /\ Cogs.created e < cutoff
               /\ Cogs.preserve e = false
               /\ Cogs.usage_since (Cogs.emote_usage_history w) (Cogs.id e) cutoff
                  < usage_threshold).
Proof.
  split.
  - exact EmoteCollectorFacts.decayable_emotes_selects.
  - exact CogsFacts.old_decayable_emotes_selects.
Qed.

(** ** Destruction *)

(** C6.  After [remove_emote] has returned, no row of the emote is left in
    the table of emotes and no usage event of the emote is left in the usage
    history, while the rows and events of the other emotes are kept; the same
    holds after a turn of the decay loop whose removal went through.
    [cogs/db.py] deletes from both tables; in
    [emote_collector/extensions/db.py] the statement deletes from [emotes] and
    the usage history follows through its foreign key, which is a parameter
    of the model. *)
Theorem remove_emote_purges_usage :
  (forall cfg target user_id emote w w',
      EmoteCollector.usage_history_cascades cfg = true ->
      EmoteCollector.remove_emote cfg target user_id w = (Ok emote, w') ->
      (forall e, In e (EmoteCollector.emotes w')
                 <-> In e (EmoteCollector.emotes w)
                     /\ EmoteCollector.id e <> EmoteCollector.id emote)
      /\ (forall ev, In ev (EmoteCollector.emote_usage_history w')
                     <-> In ev (EmoteCollector.emote_usage_history w)
                         /\ fst ev <> EmoteCollector.id emote))
  /\ (forall cfg c w,
        EmoteCollector.usage_history_cascades cfg = true ->
        EmoteCollector.delete_custom_emoji cfg (EmoteCollector.guild c) (EmoteCollector.id c)
        = None
        \/ EmoteCollector.delete_custom_emoji cfg (EmoteCollector.guild c) (EmoteCollector.id c)
           = Some EmoteCollector.NotFound ->
        fst (EmoteCollector.decay_one cfg c w) = Ok tt
        /\ (forall e, In e (EmoteCollector.emotes (snd (EmoteCollector.decay_one cfg c w)))
                      <-> In e (EmoteCollector.emotes w)
                          /\ EmoteCollector.id e <> EmoteCollector.id c)
        /\ (forall ev,
              In ev (EmoteCollector.emote_usage_history (snd (EmoteCollector.decay_one cfg c w)))
              <-> In ev (EmoteCollector.emote_usage_history w)
                  /\ fst ev <> EmoteCollector.id c))
  /\ (forall cfg n user_id db_emote w w',
        List.find (fun e => Str.ieq (Cogs.name e) n) (Cogs.emojis_table w) = Some db_emote ->
        Cogs.remove_emote cfg n user_id w = (Ok tt, w') ->
        (forall e, In e (Cogs.emojis_table w')
                   <-> In e (Cogs.emojis_table w) /\ Cogs.id e <> Cogs.id db_emote)
        /\ (forall ev, In ev (Cogs.emote_usage_history w')
                       <-> In ev (Cogs.emote_usage_history w)
                           /\ fst ev <> Cogs.id db_emote)).
Proof.
  split; [|split].
  - exact EmoteCollectorFacts.remove_emote_purges.
  - exact EmoteCollectorFacts.decay_one_purges.
  - exact CogsFacts.old_remove_emote_purges.
Qed.

(** ** The properties on the sample databases *)

Lemma sample_new_unique_names :
  EmoteCollector.unique_names (EmoteCollector.emotes Sample.New.db).
Proof.
  intros e1 e2 H1 H2 Hl. cbn in H1, H2.
  repeat (destruct H1 as [<-|H1]; [| ]); try (destruct H1);
    repeat (destruct H2 as [<-|H2]; [| ]); try (destruct H2);
    first [reflexivity | vm_compute in Hl; discriminate Hl].
Qed.

Lemma sample_old_unique_names : Cogs.unique_names (Cogs.emojis_table Sample.Old.db).
Proof.
  intros e1 e2 H1 H2 Hl. cbn in H1, H2.
  repeat (destruct H1 as [<-|H1]; [| ]); try (destruct H1);
    repeat (destruct H2 as [<-|H2]; [| ]); try (destruct H2);
    first [reflexivity | vm_compute in Hl; discriminate Hl].
Qed.

Lemma sample_new_unique_ids : EmoteCollector.unique_ids (EmoteCollector.emotes Sample.New.db).
Proof.
  unfold EmoteCollector.unique_ids. cbn. repeat (constructor; [cbn; intuition discriminate|]). constructor.
Qed.

Lemma rename_emote_case_and_conflict_witness :
  (exists row,
      fst (EmoteCollector.rename_emote Sample.New.cfg "wave" "WAVE" (Some 42) Sample.New.db)
      = Ok row
      /\ EmoteCollector.name row = "WAVE")
  /\ EmoteCollector.rename_emote Sample.New.cfg "wave" "BLOB" (Some 42) Sample.New.db
     = (Raise (EmoteCollector.EmoteExistsError Sample.New.Blob), Sample.New.db)
  /\ fst (Cogs.rename_emote Sample.Old.cfg "wave" "Wave" 42 Sample.Old.db) = Ok tt
  /\ Cogs.rename_emote Sample.Old.cfg "wave" "BLOB" 42 Sample.Old.db
     = (Raise (Cogs.EmoteExistsError "BLOB"), Sample.Old.db).
Proof.
  destruct rename_emote_case_and_conflict as [Hnew Hold].
  split; [|split; [|split]].
  - destruct (Hnew Sample.New.cfg Sample.New.db Sample.New.wave "wave" "WAVE" (Some 42)
                sample_new_unique_names eq_refl eq_refl) as [Hcase _].
    destruct (Hcase eq_refl eq_refl) as (row & Hrun & Hname & _).
    exists row. rewrite Hrun. split; [reflexivity|exact Hname].
  - destruct (Hnew Sample.New.cfg Sample.New.db Sample.New.wave "wave" "BLOB" (Some 42)
                sample_new_unique_names eq_refl eq_refl) as [_ Hconflict].
    apply Hconflict; [cbn; auto|discriminate|reflexivity].
  - destruct (Hold Sample.Old.cfg Sample.Old.db Sample.Old.wave "wave" "Wave" 42
                sample_old_unique_names eq_refl eq_refl) as [Hcase _].
    rewrite (Hcase eq_refl (Cogs.mkEmoji 100 false) eq_refl eq_refl eq_refl). reflexivity.
  - destruct (Hold Sample.Old.cfg Sample.Old.db Sample.Old.wave "wave" "BLOB" 42
                sample_old_unique_names eq_refl eq_refl) as [_ Hconflict].
    apply (Hconflict Sample.Old.Blob); [cbn; auto|discriminate|reflexivity].
Defined.

Lemma decay_selection_witness :
  exists rows,
    EmoteCollector.decayable_emotes Sample.New.cfg Sample.New.db = (Ok rows, Sample.New.db)
    /\ In (EmoteCollector.with_usage Sample.New.db 72 Sample.New.stale) rows
    /\ ~ In (EmoteCollector.with_usage Sample.New.db 72 Sample.New.kept) rows.
Proof.
  destruct (proj1 decay_selection Sample.New.cfg Sample.New.db)
    as (rows & Hrun & Hsel & Hpreserved & _).
  exists rows. split; [exact Hrun|]. split.
  - apply Hsel; [cbn; auto|]. vm_compute. repeat split.
  - apply Hpreserved; [cbn; tauto|reflexivity].
Defined.

Lemma remove_emote_purges_usage_witness :
  (forall ev,
      In ev (EmoteCollector.emote_usage_history
               (snd (EmoteCollector.remove_emote Sample.New.cfg (inl "wave") (Some 42)
                       Sample.New.db))) ->
      fst ev <> 100)
  /\ (forall ev,
        In ev (Cogs.emote_usage_history
                 (snd (Cogs.remove_emote Sample.Old.cfg "wave" (Some 42) Sample.Old.db))) ->
        fst ev <> 100).
Proof.
  destruct remove_emote_purges_usage as (Hnew & _ & Hold). split.
  - intros ev Hev.
    destruct (Hnew Sample.New.cfg (inl "wave") (Some 42) Sample.New.wave Sample.New.db
                (snd (EmoteCollector.remove_emote Sample.New.cfg (inl "wave") (Some 42)
                        Sample.New.db)) eq_refl eq_refl) as [_ Hhistory].
    apply Hhistory in Hev. exact (proj2 Hev).
  - intros ev Hev.
    destruct (Hold Sample.Old.cfg "wave" (Some 42) Sample.Old.wave Sample.Old.db
                (snd (Cogs.remove_emote Sample.Old.cfg "wave" (Some 42) Sample.Old.db))
                eq_refl eq_refl) as [_ Hhistory].
    apply Hhistory in Hev. exact (proj2 Hev).
Defined.

(** ** Usage events and the author *)

(** C5, amended.  In [emote_collector/extensions/db.py], for an emote of the
    table ([id] being its key), [log_emote_use] changes nothing when the
    acting user is the author of the emote, and the usage count of the emote
    stays as it was; for any other user it appends one event for the emote
    with the current time.  In [cogs/db.py], [log_emote_use] is not told the
    acting user: every call appends one event for the emote, and the usage
    count of the emote goes up by one. *)
Theorem log_emote_use_author_rule :
  (forall cfg w emote user_id,
      EmoteCollector.unique_ids (EmoteCollector.emotes w) ->
      In emote (EmoteCollector.emotes w) ->
      exists w',
        EmoteCollector.log_emote_use cfg (EmoteCollector.id emote) user_id w = (Ok tt, w')
        /\ (user_id = EmoteCollector.author emote ->
            w' = w
            /\ fst (EmoteCollector.get_emote_usage cfg emote w')
               = fst (EmoteCollector.get_emote_usage cfg emote w))
        /\ (user_id <> EmoteCollector.author emote ->
            EmoteCollector.emote_usage_history w'
            = EmoteCollector.emote_usage_history w
              ++ [(EmoteCollector.id emote, EmoteCollector.utcnow cfg)]
            /\ EmoteCollector.emotes w' = EmoteCollector.emotes w)
        /\ (EmoteCollector.emote_usage_history w' <> EmoteCollector.emote_usage_history w ->
            user_id <> EmoteCollector.author emote))
  /\ (forall cfg w emote,
        exists w' used,
          Cogs.log_emote_use cfg (Cogs.id emote) w = (Ok tt, w')
          /\ Cogs.emote_usage_history w'
             = Cogs.emote_usage_history w ++ [(Cogs.id emote, Cogs.utcnow cfg)]
          /\ Cogs.emojis_table w' = Cogs.emojis_table w
          /\ fst (Cogs.get_emote_usage emote w) = Ok used
          /\ fst (Cogs.get_emote_usage emote w') = Ok (used + 1)).
Proof.
  split.
  - exact EmoteCollectorFacts.log_emote_use_skips_author.
  - intros cfg w emote. rewrite CogsFacts.log_emote_use_always_appends.
    eexists _, _. split; [reflexivity|]. split; [reflexivity|]. split; [reflexivity|].
    split; [reflexivity|].
    unfold Cogs.get_emote_usage. run_coro. f_equal.
    rewrite List.filter_app, List.length_app. cbn. rewrite Z.eqb_refl. cbn. lia.
Qed.

Lemma log_emote_use_author_rule_witness :
  EmoteCollector.log_emote_use Sample.New.cfg 100 42 Sample.New.db = (Ok tt, Sample.New.db)
  /\ EmoteCollector.emote_usage_history
       (snd (EmoteCollector.log_emote_use Sample.New.cfg 100 7 Sample.New.db))
     = EmoteCollector.emote_usage_history Sample.New.db ++ [(100, 100)].
Proof.
  destruct log_emote_use_author_rule as [Hnew _]. split.
  - destruct (Hnew Sample.New.cfg Sample.New.db Sample.New.wave 42 sample_new_unique_ids
                (or_introl eq_refl))
      as (w' & Hrun & Hself & _).
    destruct (Hself eq_refl) as [Hw _]. rewrite Hw in Hrun. exact Hrun.
  - destruct (Hnew Sample.New.cfg Sample.New.db Sample.New.wave 7 sample_new_unique_ids
                (or_introl eq_refl))
      as (w' & Hrun & _ & Hother & _).
    destruct Hother as [Hhistory _]; [discriminate|].
    change (EmoteCollector.id Sample.New.wave) with 100 in Hrun.
    rewrite Hrun. exact Hhistory.
Defined.

(** In [cogs/db.py] a use by the author counts like any other.  The emote
    [wave] is by user 42 and has one event; the call that records a use of it
    cannot tell who used it, and the usage count is 2 afterwards. *)
Lemma old_log_emote_use_counts_author_use :
  Cogs.author Sample.Old.wave = 42
  /\ fst (Cogs.get_emote_usage Sample.Old.wave Sample.Old.db) = Ok 1
  /\ fst (Cogs.get_emote_usage Sample.Old.wave
            (snd (Cogs.log_emote_use Sample.Old.cfg 100 Sample.Old.db)))
     = Ok 2.
Proof.
  split; [reflexivity|]. split; vm_compute; reflexivity.
Qed.

(** ** Removal of an emote the backend has lost *)

(** C7, amended.  In [emote_collector/extensions/db.py], when the user may
    remove the emote and Discord answers the delete call with [NotFound],
    [remove_emote] logs the warning, deletes the rows of the emote from
    [emotes] and returns the emote: nothing is raised.  In [cogs/db.py],
    [remove_emote] does not tolerate it: when the client cache has no emoji
    for the row it raises [DiscordError] and changes nothing, and when the
    delete call of the emoji fails, with [NotFound] or anything else, that
    exception is raised and the row and the usage events stay. *)
Theorem remove_emote_missing_backend :
  (forall cfg w target user_id emote,
      EmoteCollector.designates w target emote ->
      EmoteCollector.authorized cfg emote user_id = true ->
      EmoteCollector.delete_custom_emoji cfg (EmoteCollector.guild emote) (EmoteCollector.id emote)
      = Some EmoteCollector.NotFound ->
      exists w',
        EmoteCollector.remove_emote cfg target user_id w = (Ok emote, w')
        /\ EmoteCollector.trace w'
           = EmoteCollector.trace w
             ++ [EmoteCollector.Http_delete_custom_emoji (EmoteCollector.guild emote)
                   (EmoteCollector.id emote);
                 EmoteCollector.Log_warn_not_in_backend (EmoteCollector.name emote)]
        /\ (forall e, In e (EmoteCollector.emotes w')
                      <-> In e (EmoteCollector.emotes w)
                          /\ EmoteCollector.id e <> EmoteCollector.id emote))
  /\ (forall cfg n user_id db_emote w,
        List.find (fun e => Str.ieq (Cogs.name e) n) (Cogs.emojis_table w) = Some db_emote ->
        (match user_id with
         | Some user => Cogs.authorized cfg db_emote user
         | None => true
         end) = true ->
        (Cogs.get_emoji cfg (Cogs.id db_emote) = None ->
         Cogs.remove_emote cfg n user_id w = (Raise Cogs.DiscordError, w))
        /\ (forall emote ex,
              Cogs.get_emoji cfg (Cogs.id db_emote) = Some emote ->
              Cogs.emoji_delete cfg (Cogs.emoji_id emote) = Some ex ->
              exists w',
                Cogs.remove_emote cfg n user_id w = (Raise ex, w')
                /\ Cogs.emojis_table w' = Cogs.emojis_table w
                /\ Cogs.emote_usage_history w' = Cogs.emote_usage_history w)).
Proof.
  split.
  - exact EmoteCollectorFacts.remove_emote_tolerates_missing_backend.
  - intros cfg n user_id db_emote w Hfound Hmay. split.
    + intros Hcache. rewrite CogsFacts.old_remove_emote_run, Hfound, Hmay, Hcache.
      reflexivity.
    + intros emote ex Hcache Hdelete.
      rewrite CogsFacts.old_remove_emote_run, Hfound, Hmay, Hcache, Hdelete.
      eexists. split; [reflexivity|]. split; reflexivity.
Qed.

Lemma remove_emote_missing_backend_witness :
  (exists w',
      EmoteCollector.remove_emote Sample.New.cfg (inl "GONE") (Some 42) Sample.New.db
      = (Ok Sample.New.gone, w')
      /\ EmoteCollector.trace w'
         = [EmoteCollector.Http_delete_custom_emoji (Some 11) 103;
            EmoteCollector.Log_warn_not_in_backend "gone"]
      /\ ~ In Sample.New.gone (EmoteCollector.emotes w'))
  /\ Cogs.remove_emote Sample.Old.cfg "kept" None Sample.Old.db
     = (Raise Cogs.DiscordError, Sample.Old.db).
Proof.
  destruct remove_emote_missing_backend as [Hnew Hold]. split.
  - destruct (Hnew Sample.New.cfg Sample.New.db (inl "GONE") (Some 42) Sample.New.gone
                eq_refl eq_refl eq_refl)
      as (w' & Hrun & Htrace & Hrows).
    exists w'. split; [exact Hrun|]. split; [exact Htrace|].
    intros Hin. apply Hrows in Hin. destruct Hin as [_ Hid]. apply Hid. reflexivity.
  - apply (proj1 (Hold Sample.Old.cfg "kept" None Sample.Old.kept Sample.Old.db
                    eq_refl eq_refl)).
    reflexivity.
Defined.

(** In [cogs/db.py] the emoji of [stale] is missing from the backend (the
    client cache has no emoji 102): its author asks for the removal,
    [DiscordError] is raised and the row is still in the table. *)
Lemma old_remove_emote_missing_backend_fails :
  Cogs.get_emoji Sample.Old.cfg (Cogs.id Sample.Old.stale) = None
  /\ Cogs.remove_emote Sample.Old.cfg "stale" (Some 42) Sample.Old.db
     = (Raise Cogs.DiscordError, Sample.Old.db)
  /\ In Sample.Old.stale
        (Cogs.emojis_table (snd (Cogs.remove_emote Sample.Old.cfg "stale" (Some 42) Sample.Old.db))).
Proof.
  split; [reflexivity|]. split; [vm_compute; reflexivity|].
  right. right. left. reflexivity.
Qed.

(** ** Preference resolution *)

(** C9, amended.  In [emote_collector/extensions/db.py], [get_state] answers
    [False] for a blacklisted user whatever the states stored for the user
    and the guild; otherwise the state of the user when it is set, else the
    state of the guild when it is set, else [True].  In [cogs/db.py],
    [get_state] does not read the blacklist: it answers the state of the user
    when it is set, else the state of the guild when it is set, else [True],
    for a blacklisted user too.  Both only read the database. *)
Theorem get_state_resolution :
  (forall guild_id user_id w,
      EmoteCollector.get_state guild_id user_id w =
      (Ok match fst (EmoteCollector.get_user_blacklist user_id w) with
          | Ok (Some _) => false
          | _ =>
              match fst (EmoteCollector.get_user_state user_id w) with
              | Ok (Some user_state) => user_state
              | _ =>
                  match fst (EmoteCollector.get_guild_state guild_id w) with
                  | Ok (Some guild_state) => guild_state
                  | _ => true
                  end
              end
          end, w))
  /\ (forall guild_id user_id w,
        Cogs.get_state guild_id user_id w =
        (Ok match fst (Cogs.get_user_state user_id w) with
            | Ok (Some user_state) => user_state
            | _ =>
                match fst (Cogs.get_guild_state guild_id w) with
                | Ok (Some guild_state) => guild_state
                | _ => true
                end
            end, w)).
Proof.
  split.
  - exact EmoteCollectorFacts.get_state_precedence.
  - intros guild_id user_id w. rewrite CogsFacts.get_state_run.
    unfold Cogs.get_user_state, Cogs.get_guild_state. run_coro.
    destruct (Cogs.user_opt w !! user_id ≫= Cogs.state); [reflexivity|].
    destruct (Cogs.guild_opt w !! guild_id ≫= (fun st => st)); reflexivity.
Qed.

(** In [cogs/db.py] a blacklisted user is answered [True]: user 42 is
    blacklisted for "spam" and has no state, nor has guild 5. *)
Lemma old_get_state_serves_blacklisted_user :
  fst (Cogs.get_user_blacklist 42 Sample.Old.db) = Ok (Some "spam")
  /\ fst (Cogs.get_state 5 42 Sample.Old.db) = Ok true.
Proof.
  split; vm_compute; reflexivity.
Qed.

(** ** A delete call that fails during the decay *)

(** C8.  A pass of [decay] in which Discord refuses a delete call.  The
    candidates are [stale] and [gone], and Discord forbids the deletion of
    [stale] ([HTTPException], status 403).  The handler of the loop names the
    bot's own [errors.ConnoisseurError] and [errors.DiscordError], which the
    delete call does not raise, so the exception leaves [decay]: no failure
    is logged, the notification sent for [stale] is not deleted, [gone] is
    never taken up, and every row is still in the table.  In [cogs/db.py],
    [decay] raises [TypeError] before it looks at any row. *)
Theorem decay_aborts_on_delete_failure :
  fst (EmoteCollector.decayable_emotes Sample.New.forbidding Sample.New.db)
  = Ok [EmoteCollector.with_usage Sample.New.db 72 Sample.New.stale;
        EmoteCollector.with_usage Sample.New.db 72 Sample.New.gone]
  /\ EmoteCollector.decay_catches (EmoteCollector.HTTPException 403) = false
  /\ fst (EmoteCollector.decay Sample.New.forbidding Sample.New.db)
     = Raise (EmoteCollector.HTTPException 403)
  /\ EmoteCollector.trace (snd (EmoteCollector.decay Sample.New.forbidding Sample.New.db))
     = [EmoteCollector.Log_debug_decaying "stale";
        EmoteCollector.Logger_on_emote_decay 102;
        EmoteCollector.Http_delete_custom_emoji (Some 11) 102]
  /\ EmoteCollector.emotes (snd (EmoteCollector.decay Sample.New.forbidding Sample.New.db))
     = EmoteCollector.emotes Sample.New.db
  /\ Cogs.decay Sample.Old.db = (Raise Cogs.TypeError, Sample.Old.db).
Proof.
  split; [vm_compute; reflexivity|].
  split; [reflexivity|].
  split; [vm_compute; reflexivity|].
  split; [vm_compute; reflexivity|].
  split; [vm_compute; reflexivity|].
  apply CogsFacts.decay_raises.
Qed.

(** The handler at work on the sample database, where the removal of [stale]
    fails with the bot's own [DiscordError]. *)
Lemma decay_contains_failure_on_sample :
  exists w2,
    EmoteCollector.decay_one Sample.New.cfg
      (EmoteCollector.with_usage Sample.New.db 72 Sample.New.stale) Sample.New.db = (Ok tt, w2)
    /\ In Sample.New.stale (EmoteCollector.emotes w2)
    /\ EmoteCollector.decay Sample.New.cfg Sample.New.db
       = for_each [EmoteCollector.with_usage Sample.New.db 72 Sample.New.gone]
           (EmoteCollector.decay_one Sample.New.cfg) w2
    /\ In (EmoteCollector.Message_delete 9102) (EmoteCollector.trace w2).
Proof.
  destruct (EmoteCollectorFacts.decay_contains_failure Sample.New.cfg Sample.New.db []
              (EmoteCollector.with_usage Sample.New.db 72 Sample.New.stale)
              [EmoteCollector.with_usage Sample.New.db 72 Sample.New.gone]
              EmoteCollector.DiscordError Sample.New.db
              sample_new_unique_ids eq_refl eq_refl eq_refl eq_refl)
    as (w2 & Hrun & Htrace & _ & _ & Hkept & Hnext & _).
  exists w2. split; [exact Hrun|]. split; [|split; [exact Hnext|]].
  - apply Hkept; [cbn; auto|reflexivity].
  - rewrite Htrace. cbn. auto 10.
Defined.


End BothVersions.

(** * Runs on the sample databases *)

Section Runs.
Local Open Scope coro_scope.

(** Preference resolution: a blacklisted user, a user who opted in within a
    guild that opted out, a stranger in that guild, and strangers. *)
Example get_state_blacklisted :
  fst (EmoteCollector.get_state 5 42 Sample.New.db) = Ok false.
Proof. vm_compute. reflexivity. Qed.

Example get_state_user_over_guild :
  fst (EmoteCollector.get_state 5 7 Sample.New.db) = Ok true.
Proof. vm_compute. reflexivity. Qed.

Example get_state_guild :
  fst (EmoteCollector.get_state 5 8 Sample.New.db) = Ok false.
Proof. vm_compute. reflexivity. Qed.

Example get_state_default :
  fst (EmoteCollector.get_state 6 8 Sample.New.db) = Ok true.
Proof. vm_compute. reflexivity. Qed.

(** The predecessor answers [True] for the blacklisted user. *)
Example old_get_state_blacklisted :
  fst (Cogs.get_state 5 42 Sample.Old.db) = Ok true.
Proof. vm_compute. reflexivity. Qed.

(** With every draw equal the first guild with room is taken; another draw
    takes the second one. *)
Example free_guild_first :
  fst (EmoteCollector.free_guild Sample.New.cfg false Sample.New.db) = Ok 10.
Proof. vm_compute. reflexivity. Qed.

Example free_guild_second :
  fst (EmoteCollector.free_guild
         (EmoteCollector.set_random (fun k => if (k =? 1)%nat then 0%N else 1%N) Sample.New.cfg)
         false Sample.New.db) = Ok 11.
Proof. vm_compute. reflexivity. Qed.

(** A name is found whatever its case; it cannot be created twice; a
    stranger may not remove the emote; its author may, and then it is gone. *)
Example get_emote_any_case :
  fst (EmoteCollector.get_emote "WAVE" Sample.New.db) = Ok Sample.New.wave.
Proof. vm_compute. reflexivity. Qed.

Example create_emote_twice :
  fst (EmoteCollector.create_emote Sample.New.cfg "Wave" 43 false [] Sample.New.db)
  = Raise (EmoteCollector.EmoteExistsError Sample.New.wave).
Proof. vm_compute. reflexivity. Qed.

Example remove_emote_by_stranger :
  EmoteCollector.remove_emote Sample.New.cfg (inl "wave") (Some 99) Sample.New.db
  = (Raise (EmoteCollector.PermissionDeniedError "wave"), Sample.New.db).
Proof. vm_compute. reflexivity. Qed.

Example remove_emote_by_author :
  fst ((EmoteCollector.remove_emote Sample.New.cfg (inl "wave") (Some 42) ;;;
        EmoteCollector.get_emote "wave") Sample.New.db)
  = Raise (EmoteCollector.EmoteNotFoundError "wave").
Proof. vm_compute. reflexivity. Qed.

(** A pass of the decay: the removal of [stale] fails and is logged, its
    notice is withdrawn, and [gone], which Discord has lost, is removed with a
    warning. *)
Example decay_pass :
  fst (EmoteCollector.decay Sample.New.cfg Sample.New.db) = Ok tt
  /\ List.map EmoteCollector.name
       (EmoteCollector.emotes (snd (EmoteCollector.decay Sample.New.cfg Sample.New.db)))
     = ["wave"; "Blob"; "stale"; "kept"; "busy"]
  /\ EmoteCollector.trace (snd (EmoteCollector.decay Sample.New.cfg Sample.New.db))
     = [EmoteCollector.Log_debug_decaying "stale";
        EmoteCollector.Logger_on_emote_decay 102;
        EmoteCollector.Http_delete_custom_emoji (Some 11) 102;
        EmoteCollector.Log_error_decaying_failed "stale" EmoteCollector.DiscordError;
        EmoteCollector.Message_delete 9102;
        EmoteCollector.Log_debug_decaying "gone";
        EmoteCollector.Logger_on_emote_decay 103;
        EmoteCollector.Http_delete_custom_emoji (Some 11) 103;
        EmoteCollector.Log_warn_not_in_backend "gone"].
Proof. split; [|split]; vm_compute; reflexivity. Qed.

End Runs.

(** * More properties of [src/emote_collector/extensions/db.py] *)

Module EmoteCollectorMore.
Import EmoteCollector EmoteCollectorRest EmoteCollectorFacts.

#[local] Arguments order_by_random_limit_1 : simpl never.
#[local] Arguments guilds : simpl never.
#[local] Arguments free_guilds : simpl never.
#[local] Arguments occupancy : simpl never.
#[local] Arguments name_taken : simpl never.
#[local] Arguments usage_since : simpl never.

(** ** Creation *)

Lemma name_free rows n :
  List.find (fun e => Str.ieq (name e) n) rows = None -> name_taken rows None n = false.
Proof.
  intros Hf. unfold name_taken. apply not_true_is_false. intros Ht.
  apply existsb_exists in Ht as (e & He & Hb). apply andb_prop in Hb as [_ Hn].
  pose proof (find_none _ _ Hf e He) as Hno. cbn in Hno. congruence.
Qed.

Lemma find_ieq_lower rows n n' :
  Str.lower n' = Str.lower n ->
  List.find (fun e : DatabaseEmote => Str.ieq (name e) n') rows
  = List.find (fun e => Str.ieq (name e) n) rows.
Proof.
  intros Hl. induction rows as [|e rows IH]; cbn; [reflexivity|].
  unfold Str.ieq at 1 3. rewrite Hl, IH. reflexivity.
Qed.

Lemma find_app_None {A} (p : A -> bool) xs ys :
  List.find p xs = None -> List.find p (xs ++ ys) = List.find p ys.
Proof.
  induction xs as [|x xs IH]; cbn; [reflexivity|].
  destruct (p x); [discriminate|exact IH].
Qed.

(** The run of [create_emote], written out. *)
Lemma create_emote_run cfg n author_id is_animated image_data w :
  create_emote cfg n author_id is_animated image_data w
  = match List.find (fun e => Str.ieq (name e) n) (emotes w) with
    | Some e => (Raise (EmoteExistsError e), w)
    | None =>
        let w1 := add_event (Call_free_guild is_animated) w in
        match order_by_random_limit_1 (random cfg) (free_guilds w is_animated) with
        | None => (Raise NoMoreSlotsError, w1)
        | Some guild_id =>
            match bytes_to_base64_data cfg image_data with
            | inl ex => (Raise ex, w1)
            | inr image =>
                let w2 := add_event (Http_create_custom_emoji guild_id n) w1 in
                match create_custom_emoji cfg guild_id n image with
                | inl ex => (Raise ex, w2)
                | inr emote_id =>
                    if existsb (fun e => id e =? emote_id) (emotes w)
                    then (Raise UniqueViolationError, w2)
                    else
                      let row := mkDatabaseEmote n emote_id author_id is_animated None
                                   (utcnow cfg) None false (Some guild_id) "SFW" None in
                      (Ok row, set_emotes (fun rows => rows ++ [row]) w2)
                end
            end
        end
    end.
Proof.
  unfold create_emote, ensure_emote_does_not_exist.
  unfold bind at 1. unfold bind at 1. unfold try_except, bind at 1.
  rewrite get_emote_run.
  destruct (List.find _ (emotes w)) as [e|] eqn:Hf; [reflexivity|].
  cbn [is_EmoteNotFoundError ret]. unfold bind at 1. rewrite free_guild_run. cbv zeta.
  destruct (order_by_random_limit_1 _ _) as [guild_id|]; [|reflexivity].
  destruct (bytes_to_base64_data cfg image_data) as [ex|image]; [reflexivity|].
  unfold emit. unfold bind at 1. unfold modify at 1.
  destruct (create_custom_emoji cfg guild_id n image) as [ex|emote_id]; [reflexivity|].
  unfold insert_emote. run_coro. rewrite (name_free _ _ Hf). cbn.
  destruct (existsb _ (emotes w)); reflexivity.
Qed.

(** X1.  When the name is free, [free_guild] finds a guild, the image is
    encoded and Discord creates the emoji under an id no row has yet,
    [create_emote] returns a row with the name, id, author, kind and guild of
    the request and appends it to [emotes]; Discord was asked once, after the
    allocation.  The row is then found under any capitalization of the name,
    and the names and the ids of the table stay unique. *)
Theorem create_emote_stores_row cfg w n author_id is_animated image_data guild_id image emote_id :
  List.find (fun e => Str.ieq (name e) n) (emotes w) = None ->
  fst (free_guild cfg is_animated w) = Ok guild_id ->
  bytes_to_base64_data cfg image_data = inr image ->
  create_custom_emoji cfg guild_id n image = inr emote_id ->
  (forall e, In e (emotes w) -> id e <> emote_id) ->
  exists row w',
    create_emote cfg n author_id is_animated image_data w = (Ok row, w')
    /\ name row = n /\ id row = emote_id /\ author row = author_id
    /\ animated row = is_animated /\ guild row = Some guild_id
    /\ emotes w' = emotes w ++ [row]
    /\ trace w' = trace w ++ [Call_free_guild is_animated; Http_create_custom_emoji guild_id n]
    /\ (forall n', Str.lower n' = Str.lower n -> fst (get_emote n' w') = Ok row)
    /\ (unique_names (emotes w) -> unique_names (emotes w'))
    /\ (unique_ids (emotes w) -> unique_ids (emotes w')).
Proof.
  intros Hfree Hguild Himage Hcreate Hfresh.
  rewrite free_guild_run in Hguild. cbn [fst] in Hguild.
  destruct (order_by_random_limit_1 _ _) as [g|] eqn:Hpick; [|discriminate].
  injection Hguild as ->.
  assert (Hid : existsb (fun e => id e =? emote_id) (emotes w) = false).
  { apply not_true_is_false. intros Ht. apply existsb_exists in Ht as (e & He & Hb).
    apply (Hfresh e He). lia. }
  rewrite create_emote_run, Hfree. cbv zeta. rewrite Hpick, Himage, Hcreate, Hid.
  eexists. eexists. split; [reflexivity|].
  repeat (split; [reflexivity|]). split; [|split; [|split]].
  - cbn. rewrite <- app_assoc. reflexivity.
  - intros n' Hl. rewrite get_emote_run. cbn.
    rewrite find_app_None by (rewrite (find_ieq_lower _ _ _ Hl); exact Hfree).
    cbn. unfold Str.ieq. rewrite <- Hl, String.eqb_refl. reflexivity.
  - intros Hu e1 e2 H1 H2 Hl.
    apply in_app_or in H1, H2. cbn in H1, H2.
    destruct H1 as [H1|[<-|[]]], H2 as [H2|[<-|[]]]; auto.
    + exfalso. pose proof (find_none _ _ Hfree e1 H1) as Hno. cbn in Hno, Hl.
      apply not_true_iff_false in Hno. apply Hno. apply ieq_lower. exact Hl.
    + exfalso. pose proof (find_none _ _ Hfree e2 H2) as Hno. cbn in Hno, Hl.
      apply not_true_iff_false in Hno. apply Hno. apply ieq_lower. symmetry. exact Hl.
  - unfold unique_ids. cbn [emotes set_emotes add_event]. intros Hnd.
    rewrite List.map_app. cbn [List.map id].
    apply List.NoDup_app; [exact Hnd|repeat constructor; intros []|].
    intros x Hx [<-|[]]. apply in_map_iff in Hx as (e & He & Hin).
    exact (Hfresh e Hin He).
Qed.

(** X2.  When a row already bears the name, up to case, [create_emote] raises
    [EmoteExistsError] with that row and does nothing else: no guild is
    looked for and Discord is not called. *)
Theorem create_emote_name_in_use cfg w n author_id is_animated image_data e :
  fst (get_emote n w) = Ok e ->
  create_emote cfg n author_id is_animated image_data w = (Raise (EmoteExistsError e), w).
Proof.
  rewrite get_emote_run. cbn [fst]. intros Hget. rewrite create_emote_run.
  destruct (List.find _ (emotes w)) as [e'|]; [|discriminate].
  injection Hget as ->. reflexivity.
Qed.

(** X3.  Whatever [create_emote] raises, no table has changed; and Discord is
    only ever asked to create the emoji under the requested name, in a
    backend guild whose occupancy for the kind is below 50, the name being
    free. *)
Theorem create_emote_failure_is_clean cfg w n author_id is_animated image_data :
  (forall ex,
      fst (create_emote cfg n author_id is_animated image_data w) = Raise ex ->
      same_tables w (snd (create_emote cfg n author_id is_animated image_data w)))
  /\ exists evs,
       trace (snd (create_emote cfg n author_id is_animated image_data w)) = trace w ++ evs
       /\ forall guild_id n',
            In (Http_create_custom_emoji guild_id n') evs ->
            n' = n
            /\ In guild_id (backend_guilds w)
            /\ occupancy (emotes w) guild_id is_animated < 50
            /\ List.find (fun e => Str.ieq (name e) n) (emotes w) = None.
Proof.
  rewrite create_emote_run.
  destruct (List.find _ (emotes w)) as [e|] eqn:Hf.
  { split; [intros; repeat split|]. exists []. rewrite app_nil_r. split; [reflexivity|].
    intros ? ? []. }
  cbv zeta.
  destruct (order_by_random_limit_1 _ _) as [g|] eqn:Hpick.
  2:{ split; [intros; repeat split|]. eexists. split; [reflexivity|].
      intros ? ? [Hev|[]]. discriminate Hev. }
  apply order_by_random_limit_1_In, In_free_guilds in Hpick as [Hin Hroom].
  assert (Hevs : forall evs, (forall ev, In ev evs ->
                   ev = Call_free_guild is_animated \/ ev = Http_create_custom_emoji g n) ->
            forall guild_id n', In (Http_create_custom_emoji guild_id n') evs ->
              n' = n /\ In guild_id (backend_guilds w)
              /\ occupancy (emotes w) guild_id is_animated < 50
              /\ @None DatabaseEmote = None).
  { intros evs Hall guild_id n' Hev. destruct (Hall _ Hev) as [Heq|Heq]; [discriminate|].
    injection Heq as -> ->. auto. }
  destruct (bytes_to_base64_data cfg image_data) as [ex|image].
  { split; [intros; repeat split|]. eexists. split; [reflexivity|].
    apply Hevs. intros ev [<-|[]]. auto. }
  destruct (create_custom_emoji cfg g n image) as [ex|emote_id].
  { split; [intros; repeat split|]. eexists. split; [cbn; rewrite <- app_assoc; reflexivity|].
    apply Hevs. cbn. intuition. }
  destruct (existsb _ (emotes w)).
  - split; [intros; repeat split|]. eexists. split; [cbn; rewrite <- app_assoc; reflexivity|].
    apply Hevs. cbn. intuition.
  - split; [intros ex Hex; discriminate Hex|].
    eexists. split; [cbn; rewrite <- app_assoc; reflexivity|].
    apply Hevs. cbn. intuition.
Qed.

(** ** Removal *)

Lemma same_tables_refl w : same_tables w w.
Proof. repeat split. Qed.

Lemma same_tables_add_event ev w w' : same_tables w w' -> same_tables w (add_event ev w').
Proof. intros H. exact H. Qed.

(** X4.  [remove_emote] turns away a name no row bears with
    [EmoteNotFoundError], and a user who is neither the owner of the bot nor
    the author of the emote with [PermissionDeniedError] carrying the stored
    name; in both cases nothing changes and Discord is not called. *)
Theorem remove_emote_refusals cfg w user_id :
  (forall n,
      List.find (fun e => Str.ieq (name e) n) (emotes w) = None ->
      remove_emote cfg (inl n) user_id w = (Raise (EmoteNotFoundError n), w))
  /\ (forall target emote,
        designates w target emote ->
        authorized cfg emote user_id = false ->
        remove_emote cfg target user_id w = (Raise (PermissionDeniedError (name emote)), w)).
Proof.
  split.
  - intros n Hf. exact (remove_emote_missing cfg n user_id w Hf).
  - intros target emote Hd Ha. rewrite (remove_emote_run cfg target user_id emote w Hd), Ha.
    reflexivity.
Qed.

(** X5.  Whatever [remove_emote] raises, no table has changed: a row is only
    deleted once Discord has deleted the emoji or answered that it is gone.
    Discord is only asked to delete the emote the request designates, for a
    user who may remove it. *)
Theorem remove_emote_failure_is_clean cfg w target user_id :
  (forall ex,
      fst (remove_emote cfg target user_id w) = Raise ex ->
      same_tables w (snd (remove_emote cfg target user_id w)))
  /\ exists evs,
       trace (snd (remove_emote cfg target user_id w)) = trace w ++ evs
       /\ forall guild_id emote_id,
            In (Http_delete_custom_emoji guild_id emote_id) evs ->
            exists emote,
              designates w target emote
              /\ authorized cfg emote user_id = true
              /\ guild_id = guild emote /\ emote_id = id emote.
Proof.
  assert (Hnone : forall w0 : world, exists evs : list event,
            trace w0 = trace w0 ++ evs
            /\ forall guild_id emote_id,
                 In (Http_delete_custom_emoji guild_id emote_id) evs ->
                 exists emote,
                   designates w target emote
                   /\ authorized cfg emote user_id = true
                   /\ guild_id = guild emote /\ emote_id = id emote).
  { intros w0. exists []. rewrite app_nil_r. split; [reflexivity|]. intros ? ? []. }
  assert (Hd : (exists emote, designates w target emote)
               \/ exists n, target = inl n
                    /\ List.find (fun e => Str.ieq (name e) n) (emotes w) = None).
  { destruct target as [n|e]; cbn; [|eauto].
    destruct (List.find _ (emotes w)) eqn:Hf; eauto. }
  destruct Hd as [[emote Hd]|(n & -> & Hf)].
  2:{ rewrite (remove_emote_missing cfg n user_id w Hf). cbn [fst snd].
      split; [intros; apply same_tables_refl|apply Hnone]. }
  rewrite (remove_emote_run cfg target user_id emote w Hd).
  destruct (authorized cfg emote user_id) eqn:Ha.
  2:{ cbn [fst snd]. split; [intros; apply same_tables_refl|apply Hnone]. }
  assert (Hev : forall evs,
            (forall ev, In ev evs ->
               ev = Http_delete_custom_emoji (guild emote) (id emote)
               \/ ev = Log_warn_not_in_backend (name emote)) ->
            forall guild_id emote_id,
              In (Http_delete_custom_emoji guild_id emote_id) evs ->
              exists emote0,
                designates w target emote0
                /\ authorized cfg emote0 user_id = true
                /\ guild_id = guild emote0 /\ emote_id = id emote0).
  { intros evs Hall guild_id emote_id Hin. destruct (Hall _ Hin) as [Heq|Heq]; [|discriminate].
    injection Heq as -> ->. eauto. }
  unfold removal.
  destruct (delete_custom_emoji cfg (guild emote) (id emote)) as [ex|];
    [destruct (is_NotFound ex)|]; cbn [fst snd].
  - split; [intros ex' Hex; discriminate Hex|].
    rewrite delete_emote_rows_trace. cbn. rewrite <- app_assoc.
    eexists. split; [reflexivity|]. apply Hev. cbn. intuition.
  - split; [intros; repeat split|].
    eexists. split; [reflexivity|]. apply Hev. cbn. intuition.
  - split; [intros ex' Hex; discriminate Hex|].
    rewrite delete_emote_rows_trace. cbn.
    eexists. split; [reflexivity|]. apply Hev. cbn. intuition.
Qed.

(** X6.  After [remove_emote] has removed an emote given by name, the names
    and ids of the table being unique, the name is no longer found, under any
    capitalization, while every other name is found as before. *)
Theorem remove_emote_then_lookup cfg w n user_id emote w' :
  unique_names (emotes w) ->
  unique_ids (emotes w) ->
  remove_emote cfg (inl n) user_id w = (Ok emote, w') ->
  (forall n', Str.lower n' = Str.lower n ->
              fst (get_emote n' w') = Raise (EmoteNotFoundError n'))
  /\ (forall n', Str.lower n' <> Str.lower n -> fst (get_emote n' w') = fst (get_emote n' w)).
Proof.
  intros Hnames Hids Hrun.
  pose proof (remove_emote_Ok_inv _ _ _ _ _ _ Hrun) as (Hd & _ & Hremoval).
  cbn in Hd. pose proof (find_some _ _ Hd) as [Hin Hname]. apply ieq_lower in Hname.
  assert (Hrows : emotes w' = List.filter (fun e => negb (id e =? id emote)) (emotes w)).
  { unfold removal in Hremoval.
    destruct (delete_custom_emoji cfg (guild emote) (id emote)) as [ex|];
      [destruct (is_NotFound ex); [|discriminate]|];
      apply (f_equal snd) in Hremoval; cbn [snd] in Hremoval; subst w';
      unfold delete_emote_rows; destruct (usage_history_cascades cfg); reflexivity. }
  assert (Hkeep : forall e, In e (emotes w) -> (id e =? id emote) = true -> e = emote).
  { intros e He Hid. apply (unique_ids_eq (emotes w)); auto. lia. }
  split; intros n' Hl; rewrite !get_emote_run, Hrows; cbn [fst].
  - destruct (List.find _ (List.filter _ _)) as [e|] eqn:Hf; [|reflexivity].
    exfalso. apply find_some in Hf as [He Hn]. apply filter_In in He as [He Hid].
    apply ieq_lower in Hn.
    assert (e = emote) by (apply Hnames; auto; congruence). subst e.
    rewrite Z.eqb_refl in Hid. discriminate.
  - f_equal. clear Hrows Hin Hd Hrun Hremoval.
    assert (Hgen : forall rows,
              (forall e, In e rows -> (id e =? id emote) = true -> e = emote) ->
              List.find (fun e => Str.ieq (name e) n')
                (List.filter (fun e => negb (id e =? id emote)) rows)
              = List.find (fun e => Str.ieq (name e) n') rows).
    { induction rows as [|e rows IH]; intros Hk; cbn; [reflexivity|].
      destruct (id e =? id emote) eqn:Hid; cbn.
      - assert (e = emote) by (apply Hk; [left; reflexivity|exact Hid]). subst e.
        destruct (Str.ieq (name emote) n') eqn:Hn.
        + apply ieq_lower in Hn. congruence.
        + apply IH. intros; apply Hk; auto. right; auto.
      - rewrite IH by (intros; apply Hk; auto; right; auto). reflexivity. }
    rewrite (Hgen _ Hkeep).
    destruct (List.find _ (emotes w)); reflexivity.
Qed.

(** ** Renaming *)

(** The run of [rename_emote], written out. *)
Lemma rename_emote_run cfg old_name new_name user_id w :
  rename_emote cfg old_name new_name user_id w
  = let body :=
      match List.find (fun e => Str.ieq (name e) old_name) (emotes w) with
      | None => (Raise (EmoteNotFoundError old_name), w)
      | Some emote =>
          if authorized cfg emote user_id
          then
            let w1 := add_event (Http_edit_custom_emoji (guild emote) (id emote) new_name) w in
            match edit_custom_emoji cfg (guild emote) (id emote) new_name with
            | Some ex => (Raise ex, w1)
            | None => update_name (id emote) new_name w1
            end
          else (Raise (PermissionDeniedError (name emote)), w)
      end in
    if String.eqb (Str.lower old_name) (Str.lower new_name)
    then body
    else
      match List.find (fun e => Str.ieq (name e) new_name) (emotes w) with
      | Some e => (Raise (EmoteExistsError e), w)
      | None => body
      end.
Proof.
  assert (Hbody : forall w0 : world,
    (emote <- get_emote old_name ;;
     owner_check cfg emote user_id ;;;
     emit (Http_edit_custom_emoji (guild emote) (id emote) new_name) ;;;
     match edit_custom_emoji cfg (guild emote) (id emote) new_name with
     | Some ex => raise ex
     | None => update_name (id emote) new_name
     end)%coro w0
    = match List.find (fun e => Str.ieq (name e) old_name) (emotes w0) with
      | None => (Raise (EmoteNotFoundError old_name), w0)
      | Some emote =>
          if authorized cfg emote user_id
          then
            let w1 := add_event (Http_edit_custom_emoji (guild emote) (id emote) new_name) w0 in
            match edit_custom_emoji cfg (guild emote) (id emote) new_name with
            | Some ex => (Raise ex, w1)
            | None => update_name (id emote) new_name w1
            end
          else (Raise (PermissionDeniedError (name emote)), w0)
      end).
  { intros w0. unfold bind at 1. rewrite get_emote_run.
    destruct (List.find _ (emotes w0)) as [emote|]; [|reflexivity].
    unfold bind at 1. rewrite owner_check_run.
    destruct (authorized cfg emote user_id); [|reflexivity].
    unfold emit. unfold bind at 1. unfold modify at 1. cbv zeta.
    destruct (edit_custom_emoji cfg (guild emote) (id emote) new_name); reflexivity. }
  unfold rename_emote. cbv zeta.
  destruct (String.eqb (Str.lower old_name) (Str.lower new_name)); cbn [negb].
  - unfold bind at 1. cbn [ret]. apply Hbody.
  - unfold bind at 1. unfold ensure_emote_does_not_exist.
    unfold bind at 1. unfold try_except, bind at 1. rewrite get_emote_run.
    destruct (List.find (fun e => Str.ieq (name e) new_name) (emotes w)) as [e|];
      [reflexivity|].
    cbn [is_EmoteNotFoundError ret]. apply Hbody.
Qed.

Lemma rename_row_other emote_id n e : id e <> emote_id -> rename_row emote_id n e = e.
Proof. intros Hne. unfold rename_row. destruct (Z.eqb_spec (id e) emote_id); congruence. Qed.

Lemma rename_row_self emote_id n e : id e = emote_id -> name (rename_row emote_id n e) = n.
Proof. intros <-. unfold rename_row. rewrite Z.eqb_refl. reflexivity. Qed.

Lemma update_name_run emote_id n w :
  update_name emote_id n w
  = if existsb (fun e => id e =? emote_id) (emotes w) && name_taken (emotes w) (Some emote_id) n
    then (Raise UniqueViolationError, w)
    else (match List.find (fun e => id e =? emote_id)
                  (List.map (rename_row emote_id n) (emotes w)) with
          | Some row => Ok row
          | None => Raise TypeError
          end, set_emotes (List.map (rename_row emote_id n)) w).
Proof.
  unfold update_name. run_coro.
  destruct (existsb _ (emotes w) && name_taken _ _ _); [reflexivity|]. cbn.
  destruct (List.find _ (List.map _ _)); reflexivity.
Qed.

Lemma rename_row_absent emote_id n rows :
  List.find (fun e => id e =? emote_id) (List.map (rename_row emote_id n) rows) = None ->
  List.map (rename_row emote_id n) rows = rows.
Proof.
  induction rows as [|e rows IH]; cbn; [reflexivity|].
  rewrite id_rename_row. destruct (id e =? emote_id) eqn:He; [discriminate|].
  intros Hf. rewrite (IH Hf). f_equal. unfold rename_row. rewrite He. reflexivity.
Qed.

(** What a renaming that returned has done. *)
Lemma rename_emote_Ok_inv cfg old_name new_name user_id w row w' :
  rename_emote cfg old_name new_name user_id w = (Ok row, w') ->
  exists emote,
    List.find (fun e => Str.ieq (name e) old_name) (emotes w) = Some emote
    /\ authorized cfg emote user_id = true
    /\ name_taken (emotes w) (Some (id emote)) new_name = false
    /\ emotes w' = List.map (rename_row (id emote) new_name) (emotes w)
    /\ In row (emotes w') /\ id row = id emote /\ name row = new_name.
Proof.
  rewrite rename_emote_run. cbv zeta. intros Hrun.
  assert (Hbody :
    match List.find (fun e => Str.ieq (name e) old_name) (emotes w) with
    | None => (Raise (EmoteNotFoundError old_name), w)
    | Some emote =>
        if authorized cfg emote user_id
        then
          match edit_custom_emoji cfg (guild emote) (id emote) new_name with
          | Some ex =>
              (Raise ex, add_event (Http_edit_custom_emoji (guild emote) (id emote) new_name) w)
          | None =>
              update_name (id emote) new_name
                (add_event (Http_edit_custom_emoji (guild emote) (id emote) new_name) w)
          end
        else (Raise (PermissionDeniedError (name emote)), w)
    end = (Ok row, w')).
  { destruct (String.eqb _ _); [exact Hrun|].
    destruct (List.find (fun e => Str.ieq (name e) new_name) (emotes w)); [discriminate|].
    exact Hrun. }
  clear Hrun.
  destruct (List.find _ (emotes w)) as [emote|] eqn:Hf; [|discriminate].
  destruct (authorized cfg emote user_id) eqn:Ha; [|discriminate].
  destruct (edit_custom_emoji cfg _ _ _); [discriminate|].
  rewrite update_name_run in Hbody. cbn [emotes add_event] in Hbody.
  pose proof (find_some _ _ Hf) as [Hin _].
  rewrite (existsb_id_In _ _ Hin) in Hbody. cbn [andb] in Hbody.
  destruct (name_taken (emotes w) (Some (id emote)) new_name) eqn:Ht; [discriminate|].
  destruct (find_rename_row (emotes w) (id emote) new_name (existsb_id_In _ _ Hin))
    as (row0 & Hrow & Hname & Hid).
  rewrite Hrow in Hbody. injection Hbody as <- <-. exists emote. cbn.
  repeat split; auto. apply find_some in Hrow. tauto.
Qed.

(** X7.  After [rename_emote] has returned, the names and ids of the table
    being unique before: they still are; the row it returns bears the new
    name and is found under it; the old name is no longer found unless the new
    one differs from it by case only; and the rows of the other emotes are
    untouched. *)
Theorem rename_emote_then_lookup cfg w old_name new_name user_id row w' :
  unique_names (emotes w) ->
  unique_ids (emotes w) ->
  rename_emote cfg old_name new_name user_id w = (Ok row, w') ->
  name row = new_name
  /\ unique_names (emotes w')
  /\ unique_ids (emotes w')
  /\ fst (get_emote new_name w') = Ok row
  /\ (Str.lower old_name <> Str.lower new_name ->
      fst (get_emote old_name w') = Raise (EmoteNotFoundError old_name))
  /\ (forall e, In e (emotes w) -> id e <> id row -> In e (emotes w')).
Proof.
  intros Hnames Hids Hrun.
  destruct (rename_emote_Ok_inv _ _ _ _ _ _ _ Hrun)
    as (emote & Hf & _ & Hfree & Hrows & Hrow & Hid & Hname).
  pose proof (find_some _ _ Hf) as [Hin Hold]. apply ieq_lower in Hold.
  assert (Hself : forall e, In e (emotes w) -> id e = id emote -> e = emote).
  { intros e He Hi. apply (unique_ids_eq (emotes w)); auto. }
  assert (Hother : forall e, In e (emotes w) -> e <> emote ->
                     Str.lower (name e) <> Str.lower new_name).
  { intros e He Hne Hl. unfold name_taken in Hfree.
    apply not_true_iff_false in Hfree. apply Hfree. apply existsb_exists.
    exists e. split; [exact He|]. apply andb_true_intro. split.
    - apply negb_true_iff, bool_decide_eq_false. intros [= Hi]. apply Hne, Hself; auto.
    - apply ieq_lower. exact Hl. }
  assert (Hcases : forall e, In e (emotes w) ->
                     (e = emote /\ name (rename_row (id emote) new_name e) = new_name)
                     \/ (e <> emote /\ rename_row (id emote) new_name e = e)).
  { intros e He. destruct (Z.eq_dec (id e) (id emote)) as [Hi|Hi].
    - left. split; [apply Hself; auto|apply rename_row_self; exact Hi].
    - right. split; [congruence|apply rename_row_other; exact Hi]. }
  assert (Hnames' : unique_names (emotes w')).
  { rewrite Hrows. intros e1' e2' H1 H2 Hl.
    apply in_map_iff in H1 as (e1 & <- & H1), H2 as (e2 & <- & H2).
    destruct (Hcases e1 H1) as [[-> Hn1]|[Hne1 Hr1]],
             (Hcases e2 H2) as [[-> Hn2]|[Hne2 Hr2]].
    - reflexivity.
    - exfalso. apply (Hother e2 H2 Hne2). rewrite Hr2, Hn1 in Hl. auto.
    - exfalso. apply (Hother e1 H1 Hne1). rewrite Hr1, Hn2 in Hl. auto.
    - rewrite Hr1, Hr2 in *. apply Hnames; auto. }
  split; [exact Hname|]. split; [exact Hnames'|]. split; [|split; [|split]].
  - unfold unique_ids in *. rewrite Hrows, List.map_map.
    erewrite List.map_ext; [exact Hids|]. intros e. apply id_rename_row.
  - rewrite get_emote_run. cbn [fst].
    destruct (List.find _ (emotes w')) as [e|] eqn:Hfind.
    + apply find_some in Hfind as [He Hn]. apply ieq_lower in Hn.
      f_equal. apply Hnames'; auto. congruence.
    + pose proof (find_none _ _ Hfind row Hrow) as Hno. cbn in Hno.
      rewrite Hname in Hno. unfold Str.ieq in Hno. rewrite String.eqb_refl in Hno.
      discriminate.
  - intros Hcase. rewrite get_emote_run. cbn [fst].
    destruct (List.find _ (emotes w')) as [e'|] eqn:Hfind; [|reflexivity].
    exfalso. apply find_some in Hfind as [He Hn]. apply ieq_lower in Hn.
    rewrite Hrows in He. apply in_map_iff in He as (e & <- & He).
    destruct (Hcases e He) as [[-> Hn1]|[Hne1 Hr1]].
    + rewrite Hn1 in Hn. congruence.
    + rewrite Hr1 in Hn. apply Hne1. apply Hnames; auto. congruence.
  - intros e He Hne. rewrite Hrows. apply in_map_iff. exists e. split; [|exact He].
    apply rename_row_other. congruence.
Qed.

(** X8.  Whatever [rename_emote] raises, no table has changed.  A user who
    may not modify the emote is told [EmoteExistsError] when another name is
    asked for and a row bears it, and [PermissionDeniedError] otherwise; in
    both cases Discord is not called. *)
Theorem rename_emote_failure_is_clean cfg w old_name new_name user_id :
  (forall ex,
      fst (rename_emote cfg old_name new_name user_id w) = Raise ex ->
      same_tables w (snd (rename_emote cfg old_name new_name user_id w)))
  /\ (forall emote,
        List.find (fun e => Str.ieq (name e) old_name) (emotes w) = Some emote ->
        authorized cfg emote user_id = false ->
        rename_emote cfg old_name new_name user_id w
        = (Raise
             (if String.eqb (Str.lower old_name) (Str.lower new_name)
              then PermissionDeniedError (name emote)
              else
                match List.find (fun e => Str.ieq (name e) new_name) (emotes w) with
                | Some e => EmoteExistsError e
                | None => PermissionDeniedError (name emote)
                end), w)).
Proof.
  split.
  - intros ex. rewrite rename_emote_run. cbv zeta.
    assert (Hbody : forall r : @result exn DatabaseEmote * world,
      r = match List.find (fun e => Str.ieq (name e) old_name) (emotes w) with
          | None => (Raise (EmoteNotFoundError old_name), w)
          | Some emote =>
              if authorized cfg emote user_id
              then
                match edit_custom_emoji cfg (guild emote) (id emote) new_name with
                | Some ex =>
                    (Raise ex,
                     add_event (Http_edit_custom_emoji (guild emote) (id emote) new_name) w)
                | None =>
                    update_name (id emote) new_name
                      (add_event (Http_edit_custom_emoji (guild emote) (id emote) new_name) w)
                end
              else (Raise (PermissionDeniedError (name emote)), w)
          end ->
      fst r = Raise ex -> same_tables w (snd r)).
    { intros r ->. destruct (List.find _ (emotes w)) as [emote|];
        [|intros; apply same_tables_refl].
      destruct (authorized cfg emote user_id); [|intros; apply same_tables_refl].
      destruct (edit_custom_emoji cfg _ _ _); [intros; repeat split|].
      rewrite update_name_run. cbn [emotes add_event].
      destruct (existsb _ (emotes w) && name_taken _ _ _); [intros; repeat split|].
      destruct (List.find _ (List.map _ _)) eqn:Hfind; [discriminate|].
      intros _. cbn [snd]. repeat split. cbn.
      apply rename_row_absent. exact Hfind. }
    destruct (String.eqb _ _); [apply Hbody; reflexivity|].
    destruct (List.find (fun e => Str.ieq (name e) new_name) (emotes w));
      [intros; apply same_tables_refl|apply Hbody; reflexivity].
  - intros emote Hf Ha. rewrite rename_emote_run. cbv zeta. rewrite Hf, Ha.
    destruct (String.eqb _ _); [reflexivity|].
    destruct (List.find (fun e => Str.ieq (name e) new_name) (emotes w)); reflexivity.
Qed.

(** ** Decay *)

(** X9.  A pass of [decay] never removes a row that is not a candidate: a
    preserved emote, an emote created at or after the cutoff, and an emote
    with at least the threshold of uses since the cutoff are all still in the
    table afterwards, whatever happens during the pass. *)
Theorem decay_spares_non_candidates cfg w e :
  unique_ids (emotes w) ->
  In e (emotes w) ->
  preserve e = true
  \/ utcnow cfg - decay_cutoff_time cfg <= created e
  \/ decay_cutoff_usage cfg
     <= usage_since (emote_usage_history w) (id e) (utcnow cfg - decay_cutoff_time cfg) ->
  In e (emotes (snd (decay cfg w))).
Proof.
  intros Hids Hin Hwhy.
  assert (Hnot : decayable w (utcnow cfg - decay_cutoff_time cfg) (decay_cutoff_usage cfg) e
                 = false).
  { unfold decayable. destruct Hwhy as [Hp|[Hc|Hu]].
    - rewrite Hp. cbn. rewrite andb_false_r. reflexivity.
    - replace (created e <? _) with false by lia. reflexivity.
    - replace (usage_since _ _ _ <? _) with false by lia. apply andb_false_r. }
  unfold decay. unfold bind at 1. rewrite decayable_emotes_run.
  apply for_each_decay_keeps_others; [exact Hin|].
  intros c Hc Hid. apply in_map_iff in Hc as (e' & <- & He').
  apply filter_In in He' as [He' Hd]. cbn in Hid.
  assert (e = e') by (apply (unique_ids_eq (emotes w)); auto). subst e'. congruence.
Qed.

(** What a turn of the loop leaves in [emotes], when a failure of the delete
    call is of a class the loop catches. *)
Lemma decay_one_outcome cfg c w :
  (forall ex, delete_custom_emoji cfg (guild c) (id c) = Some ex ->
              is_NotFound ex = false -> decay_catches ex = true) ->
  fst (decay_one cfg c w) = Ok tt
  /\ forall e,
       In e (emotes (snd (decay_one cfg c w)))
       <-> In e (emotes w)
           /\ (id e = id c ->
               exists ex, delete_custom_emoji cfg (guild c) (id c) = Some ex
                          /\ is_NotFound ex = false).
Proof.
  intros Hcaught. rewrite decay_one_run. cbv zeta. unfold removal.
  destruct (delete_custom_emoji cfg (guild c) (id c)) as [ex|] eqn:Hdel.
  - destruct (is_NotFound ex) eqn:Hnf; cbn [fst snd].
    + split; [reflexivity|]. intros e. rewrite delete_emote_rows_emotes. cbn. split.
      * intros [Hin Hne]. split; [exact Hin|]. intros Hid. contradiction.
      * intros [Hin Hfail]. split; [exact Hin|]. intros Hid.
        destruct (Hfail Hid) as (ex' & [= <-] & Hno). congruence.
    + rewrite (Hcaught ex eq_refl Hnf). cbn [fst snd]. split; [reflexivity|].
      intros e.
      replace (emotes _) with (emotes w) by (destruct (on_emote_decay cfg c); reflexivity).
      split; [intros Hin; split; eauto|tauto].
  - cbn [fst snd]. split; [reflexivity|]. intros e. rewrite delete_emote_rows_emotes. cbn.
    split.
    + intros [Hin Hne]. split; [exact Hin|]. intros Hid. contradiction.
    + intros [Hin Hfail]. split; [exact Hin|]. intros Hid.
      destruct (Hfail Hid) as (ex' & [=] & _).
Qed.

Lemma for_each_decay_outcome cfg cs : forall w,
  (forall c ex, In c cs -> delete_custom_emoji cfg (guild c) (id c) = Some ex ->
                is_NotFound ex = false -> decay_catches ex = true) ->
  fst (for_each cs (decay_one cfg) w) = Ok tt
  /\ forall e,
       In e (emotes (snd (for_each cs (decay_one cfg) w)))
       <-> In e (emotes w)
           /\ forall c, In c cs -> id e = id c ->
                exists ex, delete_custom_emoji cfg (guild c) (id c) = Some ex
                           /\ is_NotFound ex = false.
Proof.
  induction cs as [|c cs IH]; intros w Hcaught; cbn [for_each].
  - cbn. split; [reflexivity|]. intros e. split; [intros Hin; split; [exact Hin|]|tauto].
    intros c [].
  - unfold bind.
    destruct (decay_one_outcome cfg c w (fun ex => Hcaught c ex (or_introl eq_refl)))
      as [Hok Hrows].
    destruct (decay_one cfg c w) as [[[]|ex] w1]; cbn [fst snd] in *; [|discriminate].
    destruct (IH w1 (fun c' ex' Hc' => Hcaught c' ex' (or_intror Hc'))) as [Hok' Hrows'].
    split; [exact Hok'|]. intros e. rewrite Hrows', Hrows. split.
    + intros [[Hin Hc] Hcs]. split; [exact Hin|]. intros c' [<-|Hc']; auto.
    + intros [Hin Hall]. split; [split; [exact Hin|]|]; intros; apply Hall; cbn; auto.
Qed.

(** X10.  When every failure of the delete call on a candidate is of a class
    the loop catches, the pass of [decay] returns, and it leaves in [emotes]
    exactly the rows that were no candidates and the candidates whose delete
    call failed (otherwise than with [NotFound]); the ids being unique. *)
Theorem decay_outcome cfg w :
  unique_ids (emotes w) ->
  (forall e ex,
      In e (emotes w) ->
      decayable w (utcnow cfg - decay_cutoff_time cfg) (decay_cutoff_usage cfg) e = true ->
      delete_custom_emoji cfg (guild e) (id e) = Some ex ->
      is_NotFound ex = false ->
      decay_catches ex = true) ->
  fst (decay cfg w) = Ok tt
  /\ forall e,
       In e (emotes (snd (decay cfg w)))
       <-> In e (emotes w)
           /\ (decayable w (utcnow cfg - decay_cutoff_time cfg) (decay_cutoff_usage cfg) e
               = false
               \/ exists ex, delete_custom_emoji cfg (guild e) (id e) = Some ex
                             /\ is_NotFound ex = false).
Proof.
  intros Hids Hcaught.
  unfold decay. unfold bind at 1 2. rewrite decayable_emotes_run.
  set (cutoff := utcnow cfg - decay_cutoff_time cfg) in *.
  set (cs := List.map (with_usage w cutoff)
               (List.filter (decayable w cutoff (decay_cutoff_usage cfg)) (emotes w))).
  assert (Hcs : forall c, In c cs ->
            exists e, In e (emotes w)
                      /\ decayable w cutoff (decay_cutoff_usage cfg) e = true
                      /\ id c = id e /\ guild c = guild e).
  { intros c Hc. apply in_map_iff in Hc as (e & <- & He).
    apply filter_In in He as [He Hd]. exists e. auto. }
  destruct (for_each_decay_outcome cfg cs w) as [Hok Hrows].
  { intros c ex Hc. destruct (Hcs c Hc) as (e & He & Hd & -> & ->). eauto. }
  split; [exact Hok|]. intros e. rewrite Hrows. split; intros [Hin Hrest]; (split; [exact Hin|]).
  - destruct (decayable w cutoff (decay_cutoff_usage cfg) e) eqn:Hd; [right|left; reflexivity].
    apply (Hrest (with_usage w cutoff e)); [|reflexivity].
    apply in_map, filter_In. auto.
  - intros c Hc Hid. destruct (Hcs c Hc) as (e' & He' & Hd & Hid' & Hg).
    assert (e = e') by (apply (unique_ids_eq (emotes w)); auto; congruence). subst e'.
    rewrite Hid', Hg. destruct Hrest as [Hno|Hfail]; [congruence|exact Hfail].
Qed.

(** ** NSFW status *)

Lemma set_nsfw_row_other emote_id status e : id e <> emote_id -> set_nsfw_row emote_id status e = e.
Proof. intros Hne. unfold set_nsfw_row. destruct (Z.eqb_spec (id e) emote_id); congruence. Qed.

(** X11.  For an emote of the table whose status is one of ['SFW'],
    ['SELF_NSFW'] and ['MOD_NSFW'], [toggle_emote_nsfw] raises exactly when
    the status is ['MOD_NSFW'] and the toggle is not by a moderator.
    Otherwise it returns a row of the same id whose status is again one of
    the three and is NSFW exactly when the emote was not; it is ['MOD_NSFW']
    only for a moderator; and the rows of the other emotes are untouched. *)
Theorem toggle_emote_nsfw_flips w emote by_mod :
  In emote (emotes w) ->
  In (nsfw emote) ["SFW"; "SELF_NSFW"; "MOD_NSFW"] ->
  if String.eqb (nsfw emote) "MOD_NSFW" && negb by_mod
  then exists message, toggle_emote_nsfw emote by_mod w = (Raise (BadArgument message), w)
  else exists row w',
      toggle_emote_nsfw emote by_mod w = (Ok row, w')
      /\ id row = id emote
      /\ In (nsfw row) ["SFW"; "SELF_NSFW"; "MOD_NSFW"]
      /\ is_nsfw row = negb (is_nsfw emote)
      /\ (nsfw row = "MOD_NSFW" -> by_mod = true)
      /\ (forall e, In e (emotes w) -> id e <> id emote -> In e (emotes w')).
Proof.
  intros Hin Hstatus.
  assert (Hrun : forall status,
            new_nsfw_status emote by_mod = Ok (Some status) ->
            exists row w',
              toggle_emote_nsfw emote by_mod w = (Ok row, w')
              /\ id row = id emote /\ nsfw row = status
              /\ (forall e, In e (emotes w) -> id e <> id emote -> In e (emotes w'))).
  { intros status Hnew. unfold toggle_emote_nsfw. rewrite Hnew.
    destruct (find_set_nsfw_row (emotes w) (id emote) status (existsb_id_In _ _ Hin))
      as (row & Hfind & Hnsfw & Hid).
    run_coro. rewrite Hfind. exists row. eexists. split; [reflexivity|].
    split; [exact Hid|]. split; [exact Hnsfw|].
    intros e He Hne. cbn. apply in_map_iff. exists e. split; [|exact He].
    apply set_nsfw_row_other. exact Hne. }
  cbn in Hstatus.
  destruct Hstatus as [Hs|[Hs|[Hs|[]]]]; symmetry in Hs; destruct by_mod;
    rewrite Hs; cbn [String.eqb Ascii.eqb Bool.eqb andb negb];
    try (destruct (Hrun _ ltac:(unfold new_nsfw_status, is_nsfw; rewrite Hs; reflexivity))
           as (row & w' & Hr & Hid & Hnsfw & Hothers);
         exists row, w'; split; [exact Hr|]; split; [exact Hid|];
         unfold is_nsfw; rewrite Hnsfw, Hs; cbn;
         repeat split; auto; try discriminate).
  eexists. unfold toggle_emote_nsfw, new_nsfw_status, is_nsfw. rewrite Hs. reflexivity.
Qed.

(** ** Usage ledger *)

(** X12.  A use logged for an emote of the table by a user other than its
    author counts at once: with a decay window that is positive, the usage
    of the emote goes up by one, and the usage of every other emote stays as
    it was. *)
Theorem log_emote_use_counts cfg w emote user_id :
  unique_ids (emotes w) ->
  In emote (emotes w) ->
  user_id <> author emote ->
  0 < decay_cutoff_time cfg ->
  let w' := snd (log_emote_use cfg (id emote) user_id w) in
  (exists used,
      fst (get_emote_usage cfg emote w) = Ok used
      /\ fst (get_emote_usage cfg emote w') = Ok (used + 1))
  /\ (forall other, id other <> id emote ->
        fst (get_emote_usage cfg other w') = fst (get_emote_usage cfg other w)).
Proof.
  intros Hids Hin Hne Hwindow.
  unfold log_emote_use. run_coro.
  rewrite (existsb_author _ _ user_id Hids Hin).
  destruct (Z.eqb_spec (author emote) user_id) as [Heq|_]; [congruence|]. cbn.
  unfold usage_since. split.
  - eexists. split; [reflexivity|]. f_equal.
    rewrite List.filter_app, List.length_app. cbn.
    rewrite Z.eqb_refl. replace (_ <? utcnow cfg) with true by lia. cbn. lia.
  - intros other Hother. f_equal.
    rewrite List.filter_app, List.length_app. cbn.
    destruct (Z.eqb_spec (id emote) (id other)); [congruence|]. cbn. lia.
Qed.

(** ** Blacklist *)

(** X13.  After [set_user_blacklist], [get_user_blacklist] returns the reason
    that was given; the state of the user, the rows of the other users and
    the guilds are as before; and [get_state] answers [False] for the user
    when a reason was given, and what the states of the user and of the guild
    resolve to when the reason was [None]. *)
Theorem set_user_blacklist_then_read user_id reason w :
  let w' := snd (set_user_blacklist user_id reason w) in
  fst (get_user_blacklist user_id w') = Ok reason
  /\ fst (get_user_state user_id w') = fst (get_user_state user_id w)
  /\ (forall other, other <> user_id -> user_opt w' !! other = user_opt w !! other)
  /\ guild_opt w' = guild_opt w
  /\ forall guild_id,
       fst (get_state guild_id user_id w')
       = Ok match reason with
            | Some _ => false
            | None =>
                match fst (get_user_state user_id w) with
                | Ok (Some user_state) => user_state
                | _ =>
                    match fst (get_guild_state guild_id w) with
                    | Ok (Some guild_state) => guild_state
                    | _ => true
                    end
                end
            end.
Proof.
  unfold set_user_blacklist, get_user_blacklist, get_user_state, get_guild_state, get_state.
  run_coro.
  assert (Hrow : (match user_opt w !! user_id with
                  | Some row => <[user_id:=mkUserOpt (state row) reason]> (user_opt w)
                  | None => <[user_id:=mkUserOpt None reason]> (user_opt w)
                  end) !! user_id
                 = Some (mkUserOpt (user_opt w !! user_id ≫= state) reason)).
  { destruct (user_opt w !! user_id) as [row|]; rewrite lookup_insert_eq; reflexivity. }
  rewrite Hrow. cbn. repeat split.
  - intros other Hne.
    destruct (user_opt w !! user_id) as [row|]; rewrite lookup_insert_ne by congruence;
      reflexivity.
  - intros guild_id. destruct reason; cbn; [reflexivity|].
    destruct (user_opt w !! user_id ≫= state); cbn; [reflexivity|].
    destruct (guild_opt w !! guild_id) as [[gst|]|]; reflexivity.
Qed.

(** ** Preferences *)

(** X14.  [toggle_guild_state] opts a guild out on its first toggle
    ([False]) and flips a state that is set; [get_guild_state] then reads the
    state it returned; toggling twice a state that is set restores it; the
    other guilds and the users are untouched. *)
Theorem toggle_guild_state_flips guild_id w :
  let r := fst (toggle_guild_state guild_id w) in
  let w' := snd (toggle_guild_state guild_id w) in
  r = Ok match guild_opt w !! guild_id with
         | None => Some false
         | Some st => negb <$> st
         end
  /\ (forall st, r = Ok st -> fst (get_guild_state guild_id w') = Ok st)
  /\ (forall b, guild_opt w !! guild_id = Some (Some b) ->
                guild_opt (snd (toggle_guild_state guild_id w')) !! guild_id = Some (Some b))
  /\ (forall other, other <> guild_id -> guild_opt w' !! other = guild_opt w !! other)
  /\ user_opt w' = user_opt w
  /\ emotes w' = emotes w.
Proof.
  unfold toggle_guild_state, _toggle_state, get_guild_state. run_coro.
  destruct (guild_opt w !! guild_id) as [st|] eqn:Hg; cbn.
  - split; [reflexivity|]. split; [|split; [|split; [|split]]]; try reflexivity.
    + intros st' [= <-]. rewrite lookup_insert_eq. reflexivity.
    + intros b [= ->]. cbn. rewrite lookup_insert_eq. cbn. rewrite lookup_insert_eq.
      rewrite negb_involutive. reflexivity.
    + intros other Hne. rewrite lookup_insert_ne by congruence. reflexivity.
  - split; [reflexivity|]. split; [|split; [|split; [|split]]]; try reflexivity.
    + intros st' [= <-]. rewrite lookup_insert_eq. reflexivity.
    + intros b [=].
    + intros other Hne. rewrite lookup_insert_ne by congruence. reflexivity.
Qed.

(** The run of [toggle_user_state], written out. *)
Lemma toggle_user_state_run user_id guild_id w :
  toggle_user_state user_id guild_id w
  = let guild_state := guild_id ≫= (fun g => guild_opt w !! g ≫= (fun st => st)) in
    let default := match guild_state with Some st => negb st | None => false end in
    match user_opt w !! user_id with
    | None => (Ok (Some default),
               set_user_opt (insert user_id (mkUserOpt (Some default) None)) w)
    | Some row =>
        (Ok (negb <$> state row),
         set_user_opt (insert user_id (mkUserOpt (negb <$> state row) (blacklist_reason row))) w)
    end.
Proof.
  unfold toggle_user_state, _toggle_state, get_guild_state. cbv zeta.
  destruct guild_id as [g|]; run_coro; destruct (user_opt w !! user_id); reflexivity.
Qed.

(** X15.  For a user who is not blacklisted, and whose row, if there is one,
    has a state, [toggle_user_state] flips what [get_state] answers for the
    user in the guild of the toggle: it returns the opposite of the former
    answer, and [get_state] gives that from then on, in every guild. *)
Theorem toggle_user_state_flips_resolution user_id guild_id w former :
  fst (get_user_blacklist user_id w) = Ok None ->
  (forall row, user_opt w !! user_id = Some row -> is_Some (state row)) ->
  fst (get_state guild_id user_id w) = Ok former ->
  fst (toggle_user_state user_id (Some guild_id) w) = Ok (Some (negb former))
  /\ forall g,
       fst (get_state g user_id (snd (toggle_user_state user_id (Some guild_id) w)))
       = Ok (negb former).
Proof.
  rewrite toggle_user_state_run. cbv zeta.
  unfold get_user_blacklist, get_state. run_coro.
  intros Hbl Hstate.
  destruct (user_opt w !! user_id) as [[st reason]|] eqn:Hu; cbn in *.
  - injection Hbl as ->. destruct (Hstate _ eq_refl) as [b Hb]. cbn in Hb. subst st. cbn.
    intros [= <-]. split; [reflexivity|]. intros g. rewrite lookup_insert_eq. reflexivity.
  - destruct (guild_opt w !! guild_id) as [[gst|]|]; cbn; intros [= <-];
      (split; [reflexivity|]); intros g; rewrite lookup_insert_eq; reflexivity.
Qed.

(** X16.  A toggle keeps the blacklist: after [toggle_user_state] the reason
    [get_user_blacklist] returns is the one it returned before, so for a
    blacklisted user [get_state] still answers [False]; the other users and
    the guilds are untouched. *)
Theorem toggle_user_state_keeps_blacklist user_id guild_id w :
  let w' := snd (toggle_user_state user_id guild_id w) in
  fst (get_user_blacklist user_id w') = fst (get_user_blacklist user_id w)
  /\ (forall reason g,
        fst (get_user_blacklist user_id w) = Ok (Some reason) ->
        fst (get_state g user_id w') = Ok false)
  /\ (forall other, other <> user_id -> user_opt w' !! other = user_opt w !! other)
  /\ guild_opt w' = guild_opt w.
Proof.
  rewrite toggle_user_state_run. cbv zeta.
  unfold get_user_blacklist, get_state. run_coro.
  destruct (user_opt w !! user_id) as [[st reason]|] eqn:Hu; cbn.
  - rewrite lookup_insert_eq. cbn. split; [reflexivity|]. split; [|split; [|reflexivity]].
    + intros reason' g [= ->]. reflexivity.
    + intros other Hne. rewrite lookup_insert_ne by congruence. reflexivity.
  - rewrite lookup_insert_eq. cbn. split; [reflexivity|]. split; [|split; [|reflexivity]].
    + intros reason' g [=].
    + intros other Hne. rewrite lookup_insert_ne by congruence. reflexivity.
Qed.

(** X17.  A user whose row has no state (the row [set_user_blacklist] makes
    for a user who never toggled) cannot toggle: [toggle_user_state] returns
    [None] and the database is as it was. *)
Theorem toggle_user_state_without_state user_id guild_id w reason :
  user_opt w !! user_id = Some (mkUserOpt None reason) ->
  toggle_user_state user_id guild_id w = (Ok None, w).
Proof.
  intros Hrow. rewrite toggle_user_state_run. cbv zeta. rewrite Hrow. cbn.
  f_equal. destruct w as [em hist uo go bg tr]. cbn in *. unfold set_user_opt. cbn.
  f_equal. apply insert_id. exact Hrow.
Qed.

(** X18.  [delete_all_user_state] forgets the user altogether, blacklist
    included: afterwards [get_user_state] and [get_user_blacklist] return
    [None] and [get_state] answers as for a user never seen; the other users
    are untouched. *)
Theorem delete_all_user_state_forgets user_id w :
  let w' := snd (delete_all_user_state user_id w) in
  fst (get_user_state user_id w') = Ok None
  /\ fst (get_user_blacklist user_id w') = Ok None
  /\ (forall g,
        fst (get_state g user_id w')
        = Ok match fst (get_guild_state g w) with
             | Ok (Some guild_state) => guild_state
             | _ => true
             end)
  /\ (forall other, other <> user_id -> user_opt w' !! other = user_opt w !! other)
  /\ guild_opt w' = guild_opt w.
Proof.
  unfold delete_all_user_state, get_user_state, get_user_blacklist, get_state, get_guild_state.
  run_coro. rewrite lookup_delete_eq. cbn.
  split; [reflexivity|]. split; [reflexivity|]. split; [|split; [|reflexivity]].
  - intros g. destruct (guild_opt w !! g) as [[gst|]|]; reflexivity.
  - intros other Hne. rewrite lookup_delete_ne by congruence. reflexivity.
Qed.

(** ** Preservation and creation time *)

Lemma map_if_absent {A} (p : A -> bool) (f : A -> A) rows :
  List.find p rows = None -> List.map (fun e => if p e then f e else e) rows = rows.
Proof.
  induction rows as [|e rows IH]; cbn; [reflexivity|].
  destruct (p e); [discriminate|]. intros Hf. rewrite (IH Hf). reflexivity.
Qed.

Lemma find_map_if {A} (p : A -> bool) (f : A -> A) rows :
  (forall e, p (f e) = p e) ->
  List.find p (List.map (fun e => if p e then f e else e) rows) = f <$> List.find p rows.
Proof.
  intros Hp. induction rows as [|e rows IH]; cbn; [reflexivity|].
  destruct (p e) eqn:He.
  - rewrite Hp, He. reflexivity.
  - rewrite He. exact IH.
Qed.

(** X19.  [set_emote_preservation] raises [EmoteNotFoundError] and changes
    nothing when no row bears the name; otherwise it returns the row found
    under the name with the flag set, sets the flag on the rows of that name
    and leaves the other rows alone.  Once an emote is preserved this way, the
    cursor of [decayable_emotes] yields no row of that name. *)
Theorem set_emote_preservation_sets_flag cfg n should_preserve w :
  let r := fst (set_emote_preservation n should_preserve w) in
  let w' := snd (set_emote_preservation n should_preserve w) in
  match List.find (fun e => Str.ieq (name e) n) (emotes w) with
  | None => r = Raise (EmoteNotFoundError n) /\ emotes w' = emotes w
  | Some emote =>
      r = Ok (set_preserve should_preserve emote)
      /\ emotes w'
         = List.map (fun e => if Str.ieq (name e) n then set_preserve should_preserve e else e)
                    (emotes w)
      /\ (should_preserve = true ->
          forall rows row,
            fst (decayable_emotes cfg w') = Ok rows -> In row rows ->
            Str.ieq (name row) n = false)
  end
  /\ emote_usage_history w' = emote_usage_history w
  /\ trace w' = trace w.
Proof.
  unfold set_emote_preservation. run_coro.
  rewrite (find_map_if (fun e => Str.ieq (name e) n) (set_preserve should_preserve))
    by reflexivity.
  destruct (List.find _ (emotes w)) as [emote|] eqn:Hf; cbn;
    (split; [|split; reflexivity]).
  - split; [reflexivity|]. split; [reflexivity|].
    intros -> rows row. intros [= <-] Hrow.
    apply in_map_iff in Hrow as (e' & <- & He'). apply filter_In in He' as [He' Hd].
    cbn in He'. apply in_map_iff in He' as (e & <- & He).
    cbn. destruct (Str.ieq (name e) n) eqn:Hn; [|exact Hn].
    unfold decayable in Hd. cbn in Hd. rewrite andb_false_r in Hd. discriminate.
  - split; [reflexivity|]. apply map_if_absent. exact Hf.
Qed.

(** X20.  [set_emote_creation] never raises: it sets the creation time of
    the rows that bear the name, up to case, changes nothing else, and does
    nothing at all when no row bears the name.  When the new time is at or
    after the cutoff, the cursor of [decayable_emotes] yields no row of that
    name. *)
Theorem set_emote_creation_sets_time cfg n time w :
  let w' := snd (set_emote_creation n time w) in
  fst (set_emote_creation n time w) = Ok tt
  /\ emotes w'
     = List.map (fun e => if Str.ieq (name e) n then set_created time e else e) (emotes w)
  /\ (List.find (fun e => Str.ieq (name e) n) (emotes w) = None -> w' = w)
  /\ (utcnow cfg - decay_cutoff_time cfg <= time ->
      forall rows row,
        fst (decayable_emotes cfg w') = Ok rows -> In row rows ->
        Str.ieq (name row) n = false).
Proof.
  unfold set_emote_creation. run_coro.
  split; [reflexivity|]. split; [reflexivity|]. split.
  - intros Hf. destruct w as [em hist uo go bg tr]. cbn in *. unfold set_emotes. cbn.
    f_equal. apply map_if_absent. exact Hf.
  - intros Htime rows row. intros [= <-] Hrow.
    apply in_map_iff in Hrow as (e' & <- & He'). apply filter_In in He' as [He' Hd].
    cbn in He'. apply in_map_iff in He' as (e & <- & He).
    cbn. destruct (Str.ieq (name e) n) eqn:Hn; [|exact Hn].
    unfold decayable in Hd. cbn in Hd.
    replace (time <? utcnow cfg - decay_cutoff_time cfg) with false in Hd by lia.
    discriminate.
Qed.

(** ** Counts and capacity *)

Lemma occupancy_cons e rows g is_animated :
  occupancy (e :: rows) g is_animated
  = (if bool_decide (guild e = Some g) && Bool.eqb (animated e) is_animated then 1 else 0)
    + occupancy rows g is_animated.
Proof.
  unfold occupancy. cbn [List.filter].
  destruct (bool_decide (guild e = Some g) && Bool.eqb (animated e) is_animated);
    cbn [length]; lia.
Qed.

Lemma hits_at_most_one (e : DatabaseEmote) is_animated gs :
  List.NoDup gs ->
  fold_right Z.add 0
    (List.map (fun g => if bool_decide (guild e = Some g) && Bool.eqb (animated e) is_animated
                        then 1 else 0) gs)
  <= if Bool.eqb (animated e) is_animated then 1 else 0.
Proof.
  induction gs as [|g gs IH]; intros Hnd; cbn.
  - destruct (Bool.eqb _ _); lia.
  - apply List.NoDup_cons_iff in Hnd as [Hfresh Hnd]. specialize (IH Hnd).
    case_bool_decide as Hg; cbn [andb]; [|lia].
    destruct (Bool.eqb (animated e) is_animated); [|lia].
    assert (Hzero : fold_right Z.add 0
              (List.map (fun g0 => if bool_decide (guild e = Some g0) && true then 1 else 0) gs)
              = 0).
    { clear IH Hnd. induction gs as [|g' gs IH']; cbn; [reflexivity|].
      case_bool_decide as Hg'.
      - exfalso. apply Hfresh. left. congruence.
      - cbn. apply IH'. intros Hin. apply Hfresh. right. exact Hin. }
    rewrite Hzero. lia.
Qed.

(** Every row is counted in at most one guild. *)
Lemma occupancy_sum rows is_animated gs :
  List.NoDup gs ->
  fold_right Z.add 0 (List.map (fun g => occupancy rows g is_animated) gs)
  <= Z.of_nat (length (List.filter (fun e => Bool.eqb (animated e) is_animated) rows)).
Proof.
  intros Hnd. induction rows as [|e rows IH].
  - cbn. induction gs; cbn; [lia|]. unfold occupancy at 1. cbn.
    apply List.NoDup_cons_iff in Hnd as [_ Hnd]. specialize (IHgs Hnd). cbn in IHgs. lia.
  - assert (Hsplit : fold_right Z.add 0
              (List.map (fun g => occupancy (e :: rows) g is_animated) gs)
              = fold_right Z.add 0
                  (List.map (fun g => if bool_decide (guild e = Some g)
                                           && Bool.eqb (animated e) is_animated
                                      then 1 else 0) gs)
                + fold_right Z.add 0 (List.map (fun g => occupancy rows g is_animated) gs)).
    { clear. induction gs as [|g gs IHg]; cbn [List.map fold_right]; [reflexivity|].
      rewrite occupancy_cons, IHg. lia. }
    rewrite Hsplit. pose proof (hits_at_most_one e is_animated gs Hnd) as Hhit.
    cbn [List.filter]. destruct (Bool.eqb (animated e) is_animated); cbn [length]; lia.
Qed.

Lemma full_guilds_sum rows is_animated gs :
  (forall g, In g gs -> 50 <= occupancy rows g is_animated) ->
  50 * Z.of_nat (length gs)
  <= fold_right Z.add 0 (List.map (fun g => occupancy rows g is_animated) gs).
Proof.
  induction gs as [|g gs IH]; intros Hfull; cbn [List.map fold_right length]; [lia|].
  pose proof (Hfull g (or_introl eq_refl)).
  specialize (IH (fun g' Hg' => Hfull g' (or_intror Hg'))). lia.
Qed.

(** X21.  The total of [count] is the sum of its two kinds, and likewise for
    [capacity].  When the table [_guilds] lists each backend guild once and
    holds as many guilds as the cog knows, [free_guild] finds a guild for a
    kind whenever the count of that kind is below the capacity of that kind:
    [NoMoreSlotsError] is only raised at capacity. *)
Theorem free_guild_succeeds_below_capacity cfg w self_guilds static animated_count total :
  List.NoDup (backend_guilds w) ->
  size self_guilds = length (backend_guilds w) ->
  fst (count w) = Ok (static, animated_count, total) ->
  total = static + animated_count
  /\ snd (capacity self_guilds) = fst (fst (capacity self_guilds)) + snd (fst (capacity self_guilds))
  /\ (static < fst (fst (capacity self_guilds)) ->
      exists g, fst (free_guild cfg false w) = Ok g)
  /\ (animated_count < snd (fst (capacity self_guilds)) ->
      exists g, fst (free_guild cfg true w) = Ok g).
Proof.
  intros Hnd Hsize. unfold count. run_coro. intros [= <- <- <-].
  assert (Hroom : forall is_animated,
            Z.of_nat (length (List.filter (fun e => Bool.eqb (animated e) is_animated) (emotes w)))
            < 50 * Z.of_nat (length (backend_guilds w)) ->
            exists g, fst (free_guild cfg is_animated w) = Ok g).
  { intros is_animated Hlt. rewrite free_guild_run. cbn [fst].
    destruct (order_by_random_limit_1 _ _) as [g|] eqn:Hpick; [eauto|]. exfalso.
    apply order_by_random_limit_1_nil in Hpick.
    assert (Hfull : forall g, In g (backend_guilds w) ->
                      50 <= occupancy (emotes w) g is_animated).
    { intros g Hg. destruct (Z_lt_le_dec (occupancy (emotes w) g is_animated) 50) as [Hlow|]; [|lia].
      assert (Hin : In g (free_guilds w is_animated)) by (apply In_free_guilds; auto).
      rewrite Hpick in Hin. destruct Hin. }
    pose proof (full_guilds_sum _ _ _ Hfull).
    pose proof (occupancy_sum (emotes w) is_animated _ Hnd). lia. }
  assert (Hpart : forall rows : list DatabaseEmote,
            Z.of_nat (length rows)
            = Z.of_nat (length (List.filter (fun e => negb (animated e)) rows))
              + Z.of_nat (length (List.filter (fun e => animated e) rows))).
  { induction rows as [|e rows IH]; cbn; [reflexivity|].
    destruct (animated e); cbn; lia. }
  unfold capacity. cbn [fst snd]. rewrite Hsize.
  split; [apply Hpart|]. split; [lia|]. split; intros Hlt.
  - apply Hroom.
    rewrite (List.filter_ext (fun e => Bool.eqb (animated e) false)
               (fun e => negb (animated e))), Z.mul_comm; [exact Hlt|].
    intros e. destruct (animated e); reflexivity.
  - apply Hroom.
    rewrite (List.filter_ext (fun e => Bool.eqb (animated e) true)
               (fun e => animated e)), Z.mul_comm; [exact Hlt|].
    intros e. destruct (animated e); reflexivity.
Qed.

(** ** Finding the backend guilds *)

Lemma In_insert_guild g g' rows :
  In g (insert_guild g' rows) <-> In g rows \/ g = g'.
Proof.
  unfold insert_guild. destruct (existsb (Z.eqb g') rows) eqn:Hex.
  - split; [auto|]. intros [Hin | ->]; [exact Hin|].
    apply existsb_exists in Hex as (x & Hx & Heq). apply Z.eqb_eq in Heq. congruence.
  - rewrite in_app_iff. cbn. intuition congruence.
Qed.

Lemma NoDup_insert_guild g' rows :
  List.NoDup rows -> List.NoDup (insert_guild g' rows).
Proof.
  intros Hnd. unfold insert_guild. destruct (existsb (Z.eqb g') rows) eqn:Hex; [exact Hnd|].
  apply List.NoDup_app; repeat split.
  - exact Hnd.
  - constructor; [intros []|constructor].
  - intros x Hx [Heq | []].
    assert (Hyes : existsb (Z.eqb g') rows = true).
    { apply existsb_exists. exists x. split; [exact Hx|apply Z.eqb_eq; exact Heq]. }
    congruence.
Qed.

Lemma In_insert_guilds l : forall g rows,
  In g (fold_left (fun t g' => insert_guild g' t) l rows) <-> In g rows \/ In g l.
Proof.
  induction l as [|g' l IH]; intros g rows; cbn [fold_left].
  - cbn. tauto.
  - rewrite IH, In_insert_guild. cbn. intuition congruence.
Qed.

Lemma NoDup_insert_guilds l : forall rows,
  List.NoDup rows -> List.NoDup (fold_left (fun t g' => insert_guild g' t) l rows).
Proof.
  induction l as [|g' l IH]; intros rows Hnd; cbn [fold_left]; [exact Hnd|].
  apply IH, NoDup_insert_guild, Hnd.
Qed.

(** X22.  [find_backend_guilds] does nothing when the cog already knows a
    non-empty set of guilds.  Otherwise the set it records and dispatches holds
    exactly the ids of the bot's guilds whose name starts with [EmojiBackend]
    or [EmoteBackend] and whose owner is an owner of the bot; the table
    [_guilds] then holds its old rows and these ids, stays free of duplicates,
    and no other table changes. *)
Theorem find_backend_guilds_registers cfg self_guilds bot_guilds w :
  (forall known, self_guilds = Some known -> known <> ∅ ->
     find_backend_guilds cfg self_guilds bot_guilds w = (Ok (self_guilds, None), w))
  /\ ((forall known, self_guilds = Some known -> known = ∅) ->
      exists found w',
        find_backend_guilds cfg self_guilds bot_guilds w = (Ok (Some found, Some found), w')
        /\ (forall g, g ∈ found <->
              exists bg, In bg bot_guilds /\ bot_guild_id bg = g
                /\ (String.prefix "EmojiBackend" (bot_guild_name bg) = true
                    \/ String.prefix "EmoteBackend" (bot_guild_name bg) = true)
                /\ bot_is_owner cfg (bot_guild_owner bg) = true)
        /\ (forall g, In g (backend_guilds w') <-> In g (backend_guilds w) \/ g ∈ found)
        /\ (List.NoDup (backend_guilds w) -> List.NoDup (backend_guilds w'))
        /\ emotes w' = emotes w
        /\ emote_usage_history w' = emote_usage_history w
        /\ user_opt w' = user_opt w
        /\ guild_opt w' = guild_opt w
        /\ trace w' = trace w).
Proof.
  split.
  - intros known -> Hne. unfold find_backend_guilds.
    rewrite bool_decide_eq_false_2 by exact Hne. reflexivity.
  - intros Hnone. unfold find_backend_guilds.
    assert (Htest : match self_guilds with
                    | Some gs => negb (bool_decide (gs = ∅))
                    | None => false
                    end = false).
    { destruct self_guilds as [gs|]; [|reflexivity].
      rewrite bool_decide_eq_true_2 by (apply Hnone; reflexivity). reflexivity. }
    rewrite Htest. run_coro. eexists _, _. split; [reflexivity|].
    cbn [backend_guilds emotes emote_usage_history user_opt guild_opt trace set_backend_guilds].
    split; [|split; [|split; [|repeat split]]].
    + intros g. rewrite elem_of_list_to_set, list_elem_of_In, in_map_iff. split.
      * intros (bg & Hid & Hin). apply filter_In in Hin as [Hin Hok].
        unfold is_backend_guild in Hok. apply andb_true_iff in Hok as [Hname Howner].
        apply orb_true_iff in Hname. eauto 8.
      * intros (bg & Hin & Hid & Hname & Howner). exists bg. split; [exact Hid|].
        apply filter_In. split; [exact Hin|]. unfold is_backend_guild.
        apply andb_true_iff. split; [apply orb_true_iff; exact Hname|exact Howner].
    + intros g. rewrite In_insert_guilds.
      rewrite <- (list_elem_of_In (elements _) g), elem_of_elements. reflexivity.
    + apply NoDup_insert_guilds.
Qed.

(** ** The decay configuration *)

(** X23.  [_process_decay_config] leaves a dict with every key set: a value
    that was given is kept, a missing one gets its default (disabled, four
    weeks, 2 uses), and the old schema, a bare bool, becomes the [enabled]
    key.  Processing a processed entry changes nothing. *)
Theorem process_decay_config_fills_defaults entry :
  let settings := _process_decay_config entry in
  let given :=
    match entry with
    | DecayAbsent => mkDecay (Some false) None
    | DecayBool enabled => mkDecay (Some enabled) None
    | DecayDict settings => settings
    end in
  (exists enabled time usage,
     settings = mkDecay (Some enabled) (Some (mkCutoff (Some time) (Some usage)))
     /\ enabled = default false (decay_enabled given)
     /\ time = default four_weeks (decay_cutoff given ≫= cutoff_time)
     /\ usage = default 2 (decay_cutoff given ≫= cutoff_usage))
  /\ _process_decay_config (DecayDict settings) = settings.
Proof.
  destruct entry as [|enabled|[[enabled|] [[[time|] [usage|]]|]]]; cbn;
    (split; [eexists _, _, _; repeat split|reflexivity]).
Qed.

(** ** Iterators *)

Section IteratorFacts.
Context {E : Type}.
Variable cursor : string -> list value -> E + list DatabaseEmote.

(** What [_database_emote_cursor] yields when its last argument is a
    channel. *)
Lemma database_emote_cursor_channel query args channel :
  _database_emote_cursor cursor query (args ++ [PyMessageable channel])
  = match cursor query args with
    | inl e => inl (CursorError e)
    | inr rows =>
        inr (List.filter (fun emote => negb (is_nsfw emote) || getattr_nsfw channel) rows)
    end.
Proof.
  unfold _database_emote_cursor.
  rewrite List.map_app. cbn [List.map]. rewrite List.last_last, List.removelast_last.
  reflexivity.
Qed.

(** What it yields when its last argument is [None]. *)
Lemma database_emote_cursor_none query args :
  _database_emote_cursor cursor query (args ++ [PyNone])
  = match cursor query (args ++ [PyNone]) with
    | inl e => inl (CursorError e)
    | inr rows => inr rows
    end.
Proof.
  unfold _database_emote_cursor.
  rewrite List.map_app. cbn [List.map]. rewrite List.last_last.
  destruct (cursor query (args ++ [PyNone])) as [e|rows]; [reflexivity|].
  f_equal. induction rows as [|r rows IH]; cbn; [reflexivity|]. f_equal. exact IH.
Qed.

Lemma filter_all {A} (f : A -> bool) (l : list A) :
  (forall x, f x = true) -> List.filter f l = l.
Proof.
  intros Hall. induction l as [|x l IH]; cbn; [reflexivity|]. rewrite Hall, IH. reflexivity.
Qed.

(** X24.  With a channel to filter for, [_database_emote_cursor] passes the
    cursor every argument but the channel.  When the cursor answers with rows,
    a channel whose [nsfw] attribute is false gets the rows that are not NSFW,
    in the cursor's order, and a channel that is NSFW or has no such attribute
    gets every row; an exception of the cursor is passed on. *)
Theorem database_emote_cursor_filters query args channel :
  (forall e, cursor query args = inl e ->
     _database_emote_cursor cursor query (args ++ [PyMessageable channel]) = inl (CursorError e))
  /\ (forall rows, cursor query args = inr rows ->
        (channel_nsfw channel = Some false ->
           _database_emote_cursor cursor query (args ++ [PyMessageable channel])
           = inr (List.filter (fun emote => negb (is_nsfw emote)) rows))
        /\ (channel_nsfw channel <> Some false ->
              _database_emote_cursor cursor query (args ++ [PyMessageable channel]) = inr rows)).
Proof.
  rewrite database_emote_cursor_channel. split.
  - intros e ->. reflexivity.
  - intros rows ->. unfold getattr_nsfw. split.
    + intros ->. f_equal. apply List.filter_ext. intros emote. apply orb_false_r.
    + intros Hnsfw. f_equal. apply filter_all. intros emote.
      destruct (channel_nsfw channel) as [[|]|]; try congruence; apply orb_true_r.
Qed.

(** The keyword argument always travels last, so [args[-1]] exists. *)
Lemma database_emote_cursor_no_index_error query args filter_nsfw_for :
  _database_emote_cursor cursor query (args ++ [filter_arg filter_nsfw_for]) <> inl IndexError.
Proof.
  destruct filter_nsfw_for as [channel|]; cbn [filter_arg].
  - rewrite database_emote_cursor_channel. destruct (cursor query args); discriminate.
  - rewrite database_emote_cursor_none. destruct (cursor query _); discriminate.
Qed.

(** X25.  [all_emotes], [popular_emotes] and [search] never raise
    [IndexError].  With a channel they ask the cursor with the parameters of
    their query only; without one, [None] travels to the cursor as one more
    argument after the parameters, and nothing is filtered. *)
Theorem iterators_forward_filter cfg author_id popular_query limit search_query query :
  (forall channel,
     all_emotes cursor (Some author_id) (Some channel)
     = _database_emote_cursor cursor "SELECT * FROM emotes WHERE author = $1 ORDER BY LOWER(name)"
         [PyInt author_id; PyMessageable channel]
     /\ all_emotes cursor None (Some channel)
        = _database_emote_cursor cursor "SELECT * FROM emotes ORDER BY LOWER(name)"
            [PyMessageable channel])
  /\ (forall lift : E + list DatabaseEmote -> iter_error E + list DatabaseEmote,
        lift = (fun r => match r with inl e => inl (CursorError e) | inr rows => inr rows end) ->
        all_emotes cursor (Some author_id) None
        = lift (cursor "SELECT * FROM emotes WHERE author = $1 ORDER BY LOWER(name)"
                  [PyInt author_id; PyNone])
        /\ all_emotes cursor None None
           = lift (cursor "SELECT * FROM emotes ORDER BY LOWER(name)" [PyNone])
        /\ popular_emotes cursor cfg popular_query limit None
           = lift (cursor popular_query
                     [PyDatetime (utcnow cfg - decay_cutoff_time cfg); PyInt limit; PyNone])
        /\ search cursor search_query query None
           = lift (cursor search_query [PyStr query; PyNone]))
  /\ (forall filter_nsfw_for,
        all_emotes cursor (Some author_id) filter_nsfw_for <> inl IndexError
        /\ all_emotes cursor None filter_nsfw_for <> inl IndexError
        /\ popular_emotes cursor cfg popular_query limit filter_nsfw_for <> inl IndexError
        /\ search cursor search_query query filter_nsfw_for <> inl IndexError).
Proof.
  split; [|split].
  - intros channel. split; reflexivity.
  - intros lift ->. repeat split.
    + apply (database_emote_cursor_none _ [PyInt author_id]).
    + apply (database_emote_cursor_none _ []).
    + apply (database_emote_cursor_none _ [PyDatetime _; PyInt limit]).
    + apply (database_emote_cursor_none _ [PyStr query]).
  - intros filter_nsfw_for. repeat split.
    + apply (database_emote_cursor_no_index_error _ [PyInt author_id]).
    + apply (database_emote_cursor_no_index_error _ []).
    + apply (database_emote_cursor_no_index_error _ [PyDatetime _; PyInt limit]).
    + apply (database_emote_cursor_no_index_error _ [PyStr query]).
Qed.
End IteratorFacts.

(** ** Runs on the sample database *)

Lemma create_emote_stores_row_witness :
  exists row w',
    create_emote Sample.New.cfg "fresh" 44 false [] Sample.New.db = (Ok row, w')
    /\ id row = 777 /\ guild row = Some 10
    /\ emotes w' = emotes Sample.New.db ++ [row]
    /\ fst (get_emote "FRESH" w') = Ok row.
Proof.
  destruct (create_emote_stores_row Sample.New.cfg Sample.New.db "fresh" 44 false [] 10
              "iVBORw0KGgo=" 777)
    as (row & w' & Hrun & _ & Hid & _ & _ & Hguild & Hrows & _ & Hfind & _).
  - reflexivity.
  - vm_compute. reflexivity.
  - reflexivity.
  - reflexivity.
  - intros e He. cbn in He.
    repeat (destruct He as [<-|He]; [discriminate|]). destruct He.
  - exists row, w'. repeat split; try assumption. apply Hfind. reflexivity.
Defined.

Lemma create_emote_name_in_use_witness :
  create_emote Sample.New.cfg "WAVE" 44 false [] Sample.New.db
  = (Raise (EmoteExistsError Sample.New.wave), Sample.New.db).
Proof.
  apply create_emote_name_in_use. reflexivity.
Defined.

Lemma create_emote_failure_is_clean_witness :
  same_tables Sample.New.full
    (snd (create_emote Sample.New.cfg "more" 44 false [] Sample.New.full)).
Proof.
  apply (proj1 (create_emote_failure_is_clean Sample.New.cfg Sample.New.full "more" 44 false [])
           NoMoreSlotsError).
  vm_compute. reflexivity.
Defined.

Lemma remove_emote_refusals_witness :
  remove_emote Sample.New.cfg (inl "nothing") (Some 43) Sample.New.db
  = (Raise (EmoteNotFoundError "nothing"), Sample.New.db)
  /\ remove_emote Sample.New.cfg (inl "WAVE") (Some 43) Sample.New.db
     = (Raise (PermissionDeniedError "wave"), Sample.New.db).
Proof.
  destruct (remove_emote_refusals Sample.New.cfg Sample.New.db (Some 43)) as [Hmissing Hdenied].
  split.
  - apply Hmissing. reflexivity.
  - apply (Hdenied (inl "WAVE") Sample.New.wave); reflexivity.
Defined.

Lemma remove_emote_failure_is_clean_witness :
  same_tables Sample.New.db
    (snd (remove_emote Sample.New.cfg (inl "stale") (Some 42) Sample.New.db)).
Proof.
  apply (proj1 (remove_emote_failure_is_clean Sample.New.cfg Sample.New.db (inl "stale") (Some 42))
           DiscordError).
  vm_compute. reflexivity.
Defined.

Lemma remove_emote_then_lookup_witness :
  fst (get_emote "WAVE" (snd (remove_emote Sample.New.cfg (inl "wave") (Some 42) Sample.New.db)))
  = Raise (EmoteNotFoundError "WAVE")
  /\ fst (get_emote "blob" (snd (remove_emote Sample.New.cfg (inl "wave") (Some 42) Sample.New.db)))
     = fst (get_emote "blob" Sample.New.db).
Proof.
  destruct (remove_emote_then_lookup Sample.New.cfg Sample.New.db "wave" (Some 42)
              Sample.New.wave
              (snd (remove_emote Sample.New.cfg (inl "wave") (Some 42) Sample.New.db))
              sample_new_unique_names sample_new_unique_ids eq_refl) as [Hgone Hothers].
  split.
  - apply Hgone. reflexivity.
  - apply Hothers. discriminate.
Defined.

Lemma rename_emote_then_lookup_witness :
  exists row w',
    rename_emote Sample.New.cfg "wave" "hello" (Some 42) Sample.New.db = (Ok row, w')
    /\ name row = "hello"
    /\ fst (get_emote "hello" w') = Ok row
    /\ fst (get_emote "wave" w') = Raise (EmoteNotFoundError "wave")
    /\ In Sample.New.Blob (emotes w').
Proof.
  destruct (rename_emote Sample.New.cfg "wave" "hello" (Some 42) Sample.New.db)
    as [[row|ex] w'] eqn:Hrun; [|vm_compute in Hrun; discriminate Hrun].
  destruct (rename_emote_then_lookup Sample.New.cfg Sample.New.db "wave" "hello" (Some 42)
              row w' sample_new_unique_names sample_new_unique_ids Hrun)
    as (Hname & _ & _ & Hnew & Hold & Hothers).
  exists row, w'. repeat split; try assumption.
  - apply Hold. discriminate.
  - apply Hothers; [cbn; auto|].
    apply (f_equal fst) in Hrun. vm_compute in Hrun. injection Hrun as <-. discriminate.
Defined.

Lemma rename_emote_failure_is_clean_witness :
  rename_emote Sample.New.cfg "wave" "BLOB" (Some 43) Sample.New.db
  = (Raise (EmoteExistsError Sample.New.Blob), Sample.New.db)
  /\ rename_emote Sample.New.cfg "wave" "Wave" (Some 43) Sample.New.db
     = (Raise (PermissionDeniedError "wave"), Sample.New.db).
Proof.
  split.
  - apply (proj2 (rename_emote_failure_is_clean Sample.New.cfg Sample.New.db "wave" "BLOB"
                    (Some 43)) Sample.New.wave); reflexivity.
  - apply (proj2 (rename_emote_failure_is_clean Sample.New.cfg Sample.New.db "wave" "Wave"
                    (Some 43)) Sample.New.wave); reflexivity.
Defined.

Lemma decay_spares_non_candidates_witness :
  In Sample.New.kept (emotes (snd (decay Sample.New.cfg Sample.New.db))).
Proof.
  apply decay_spares_non_candidates.
  - exact sample_new_unique_ids.
  - cbn. tauto.
  - left. reflexivity.
Defined.

Lemma decay_outcome_witness :
  fst (decay Sample.New.cfg Sample.New.db) = Ok tt
  /\ In Sample.New.stale (emotes (snd (decay Sample.New.cfg Sample.New.db)))
  /\ In Sample.New.busy (emotes (snd (decay Sample.New.cfg Sample.New.db))).
Proof.
  destruct (decay_outcome Sample.New.cfg Sample.New.db sample_new_unique_ids) as [Hrun Hrows].
  - intros e ex He Hdecayable Hdelete Hfound. cbn in He.
    repeat (destruct He as [<-|He];
            [vm_compute in Hdelete; try discriminate Hdelete;
             injection Hdelete as <-; first [reflexivity | discriminate Hfound]|]).
    destruct He.
  - split; [exact Hrun|]. split; apply Hrows.
    + split; [cbn; tauto|]. right. exists DiscordError. split; reflexivity.
    + split; [cbn; tauto|]. left. vm_compute. reflexivity.
Defined.

Lemma toggle_emote_nsfw_flips_witness :
  (exists row w',
      toggle_emote_nsfw Sample.New.wave false Sample.New.db = (Ok row, w')
      /\ is_nsfw row = true)
  /\ exists message,
       toggle_emote_nsfw Sample.New.Blob false Sample.New.db
       = (Raise (BadArgument message), Sample.New.db).
Proof.
  split.
  - destruct (toggle_emote_nsfw_flips Sample.New.db Sample.New.wave false)
      as (row & w' & Hrun & _ & _ & Hflip & _).
    + cbn. tauto.
    + cbn. tauto.
    + exists row, w'. split; [exact Hrun|exact Hflip].
  - apply (toggle_emote_nsfw_flips Sample.New.db Sample.New.Blob false); cbn; tauto.
Defined.

Lemma log_emote_use_counts_witness :
  exists used,
    fst (get_emote_usage Sample.New.cfg Sample.New.wave Sample.New.db) = Ok used
    /\ fst (get_emote_usage Sample.New.cfg Sample.New.wave
              (snd (log_emote_use Sample.New.cfg 100 7 Sample.New.db)))
       = Ok (used + 1).
Proof.
  apply (log_emote_use_counts Sample.New.cfg Sample.New.db Sample.New.wave 7).
  - exact sample_new_unique_ids.
  - cbn. tauto.
  - discriminate.
  - reflexivity.
Defined.

Lemma set_user_blacklist_then_read_witness :
  fst (get_user_blacklist 7 (snd (set_user_blacklist 7 (Some "rude") Sample.New.db)))
  = Ok (Some "rude")
  /\ user_opt (snd (set_user_blacklist 7 (Some "rude") Sample.New.db)) !! 42
     = user_opt Sample.New.db !! 42.
Proof.
  destruct (set_user_blacklist_then_read 7 (Some "rude") Sample.New.db)
    as (Hread & _ & Hothers & _).
  split; [exact Hread|]. apply Hothers. discriminate.
Defined.

Lemma toggle_guild_state_flips_witness :
  guild_opt (snd (toggle_guild_state 5 (snd (toggle_guild_state 5 Sample.New.db)))) !! 5
  = Some (Some false)
  /\ guild_opt (snd (toggle_guild_state 5 Sample.New.db)) !! 6 = guild_opt Sample.New.db !! 6.
Proof.
  destruct (toggle_guild_state_flips 5 Sample.New.db) as (_ & _ & Htwice & Hothers & _).
  split.
  - apply Htwice. reflexivity.
  - apply Hothers. discriminate.
Defined.

Lemma toggle_user_state_flips_resolution_witness :
  fst (toggle_user_state 7 (Some 5) Sample.New.db) = Ok (Some false)
  /\ forall g, fst (get_state g 7 (snd (toggle_user_state 7 (Some 5) Sample.New.db))) = Ok false.
Proof.
  apply (toggle_user_state_flips_resolution 7 5 Sample.New.db true).
  - reflexivity.
  - intros row Hrow. vm_compute in Hrow. injection Hrow as <-. eexists. reflexivity.
  - reflexivity.
Defined.

Lemma toggle_user_state_keeps_blacklist_witness :
  fst (get_state 5 42 (snd (toggle_user_state 42 (Some 5) Sample.New.db))) = Ok false
  /\ user_opt (snd (toggle_user_state 42 (Some 5) Sample.New.db)) !! 7
     = user_opt Sample.New.db !! 7.
Proof.
  destruct (toggle_user_state_keeps_blacklist 42 (Some 5) Sample.New.db)
    as (_ & Hblack & Hothers & _).
  split.
  - apply (Hblack "spam"). reflexivity.
  - apply Hothers. discriminate.
Defined.

Lemma toggle_user_state_without_state_witness :
  toggle_user_state 42 (Some 5) Sample.New.db = (Ok None, Sample.New.db).
Proof.
  apply (toggle_user_state_without_state 42 (Some 5) Sample.New.db (Some "spam")).
  reflexivity.
Defined.

Lemma delete_all_user_state_forgets_witness :
  fst (get_user_blacklist 42 (snd (delete_all_user_state 42 Sample.New.db))) = Ok None
  /\ user_opt (snd (delete_all_user_state 42 Sample.New.db)) !! 7 = user_opt Sample.New.db !! 7.
Proof.
  destruct (delete_all_user_state_forgets 42 Sample.New.db) as (_ & Hblack & _ & Hothers & _).
  split; [exact Hblack|]. apply Hothers. discriminate.
Defined.

Lemma set_emote_preservation_sets_flag_witness :
  fst (set_emote_preservation "STALE" true Sample.New.db)
  = Ok (set_preserve true Sample.New.stale)
  /\ forall rows row,
       fst (decayable_emotes Sample.New.cfg
              (snd (set_emote_preservation "STALE" true Sample.New.db))) = Ok rows ->
       In row rows ->
       Str.ieq (name row) "STALE" = false.
Proof.
  destruct (proj1 (set_emote_preservation_sets_flag Sample.New.cfg "STALE" true Sample.New.db))
    as (Hrun & _ & Hspared).
  split; [exact Hrun|]. apply Hspared. reflexivity.
Defined.

Lemma set_emote_creation_sets_time_witness :
  fst (set_emote_creation "Stale" 80 Sample.New.db) = Ok tt
  /\ forall rows row,
       fst (decayable_emotes Sample.New.cfg (snd (set_emote_creation "Stale" 80 Sample.New.db)))
       = Ok rows ->
       In row rows ->
       Str.ieq (name row) "Stale" = false.
Proof.
  destruct (set_emote_creation_sets_time Sample.New.cfg "Stale" 80 Sample.New.db)
    as (Hrun & _ & _ & Hspared).
  split; [exact Hrun|]. apply Hspared. discriminate.
Defined.

Lemma free_guild_succeeds_below_capacity_witness :
  exists g, fst (free_guild Sample.New.cfg true Sample.New.db) = Ok g.
Proof.
  destruct (free_guild_succeeds_below_capacity Sample.New.cfg Sample.New.db {[10; 11]} 5 1 6)
    as (_ & _ & _ & Hanimated).
  - repeat (constructor; [cbn; intuition discriminate|]). constructor.
  - reflexivity.
  - reflexivity.
  - apply Hanimated. reflexivity.
Defined.

Lemma find_backend_guilds_registers_witness :
  find_backend_guilds Sample.New.cfg (Some {[10]})
    [mkBotGuild 10 "EmojiBackend 1" 1; mkBotGuild 12 "EmoteBackend 2" 1] Sample.New.db
  = (Ok (Some {[10]}, None), Sample.New.db)
  /\ exists found w',
       find_backend_guilds Sample.New.cfg None
         [mkBotGuild 10 "EmojiBackend 1" 1; mkBotGuild 12 "EmoteBackend 2" 1;
          mkBotGuild 13 "EmoteBackend 3" 9; mkBotGuild 14 "Friends" 1] Sample.New.db
       = (Ok (Some found, Some found), w')
       /\ 12 ∈ found
       /\ In 12 (backend_guilds w')
       /\ List.NoDup (backend_guilds w').
Proof.
  split.
  - apply (proj1 (find_backend_guilds_registers Sample.New.cfg (Some {[10]})
                    [mkBotGuild 10 "EmojiBackend 1" 1; mkBotGuild 12 "EmoteBackend 2" 1]
                    Sample.New.db) {[10]}); [reflexivity|].
    intros Hempty. apply (f_equal (fun s : gset Z => bool_decide (10 ∈ s))) in Hempty.
    vm_compute in Hempty. discriminate Hempty.
  - destruct (proj2 (find_backend_guilds_registers Sample.New.cfg None
                       [mkBotGuild 10 "EmojiBackend 1" 1; mkBotGuild 12 "EmoteBackend 2" 1;
                        mkBotGuild 13 "EmoteBackend 3" 9; mkBotGuild 14 "Friends" 1]
                       Sample.New.db))
      as (found & w' & Hrun & Hfound & Hrows & Hnodup & _).
    + intros known Hknown. discriminate Hknown.
    + assert (Hin : 12 ∈ found).
      { apply Hfound. exists (mkBotGuild 12 "EmoteBackend 2" 1).
        split; [cbn; tauto|]. split; [reflexivity|]. split; [right|]; reflexivity. }
      exists found, w'. split; [exact Hrun|]. split; [exact Hin|].
      split; [apply Hrows; right; exact Hin|].
      apply Hnodup. repeat (constructor; [cbn; intuition discriminate|]). constructor.
Defined.

Lemma database_emote_cursor_filters_witness :
  _database_emote_cursor (E := exn) (fun _ _ => inr [Sample.New.wave; Sample.New.Blob])
    "SELECT * FROM emotes WHERE author = $1" [PyInt 42; PyMessageable (mkMessageable 1 (Some false))]
  = inr [Sample.New.wave]
  /\ _database_emote_cursor (E := exn) (fun _ _ => inr [Sample.New.wave; Sample.New.Blob])
       "SELECT * FROM emotes WHERE author = $1" [PyInt 42; PyMessageable (mkMessageable 1 None)]
     = inr [Sample.New.wave; Sample.New.Blob].
Proof.
  split.
  - apply (proj1 (proj2 (database_emote_cursor_filters (E := exn)
                           (fun _ _ => inr [Sample.New.wave; Sample.New.Blob])
                           "SELECT * FROM emotes WHERE author = $1" [PyInt 42]
                           (mkMessageable 1 (Some false)))
                    [Sample.New.wave; Sample.New.Blob] eq_refl)).
    reflexivity.
  - apply (proj2 (proj2 (database_emote_cursor_filters (E := exn)
                           (fun _ _ => inr [Sample.New.wave; Sample.New.Blob])
                           "SELECT * FROM emotes WHERE author = $1" [PyInt 42]
                           (mkMessageable 1 None))
                    [Sample.New.wave; Sample.New.Blob] eq_refl)).
    discriminate.
Defined.

Lemma iterators_forward_filter_witness :
  all_emotes (E := exn)
    (fun _ args => match args with [PyNone] => inr [Sample.New.wave] | _ => inr [] end)
    None None
  = inr [Sample.New.wave].
Proof.
  destruct (iterators_forward_filter (E := exn)
              (fun _ args => match args with [PyNone] => inr [Sample.New.wave] | _ => inr [] end)
              Sample.New.cfg 42 "popular" 200 "search" "wav")
    as (_ & Hnone & _).
  destruct (Hnone _ eq_refl) as (_ & Hall & _). exact Hall.
Defined.

(** ** Creating, then removing *)

Lemma filter_keeps_all {A} (f : A -> bool) (l : list A) :
  (forall x, In x l -> f x = true) -> List.filter f l = l.
Proof.
  induction l as [|x l IH]; intros Hall; cbn; [reflexivity|].
  rewrite (Hall x (or_introl eq_refl)), IH; [reflexivity|].
  intros y Hy. apply Hall. right. exact Hy.
Qed.

(** X26.  An emote that [create_emote] has just stored can be removed by its
    author under the name it was created with: when Discord deletes the emoji
    or answers that it is gone, [remove_emote] returns the row that
    [create_emote] returned, and every table is as it was before the emote
    was created; the usage history referring to emotes of the table only. *)
Theorem create_then_remove_restores cfg w n author_id is_animated image_data row w1 :
  create_emote cfg n author_id is_animated image_data w = (Ok row, w1) ->
  (forall ex, delete_custom_emoji cfg (guild row) (id row) = Some ex -> is_NotFound ex = true) ->
  (forall ev, In ev (emote_usage_history w) -> exists e, In e (emotes w) /\ id e = fst ev) ->
  exists w2,
    remove_emote cfg (inl n) (Some author_id) w1 = (Ok row, w2)
    /\ same_tables w w2.
Proof.
  intros Hcreate Hdelete Hrefs. rewrite create_emote_run in Hcreate.
  destruct (List.find _ (emotes w)) as [e|] eqn:Hfree; [discriminate|].
  cbv zeta in Hcreate.
  destruct (order_by_random_limit_1 _ _) as [guild_id|]; [|discriminate].
  destruct (bytes_to_base64_data cfg image_data) as [ex|image]; [discriminate|].
  destruct (create_custom_emoji cfg guild_id n image) as [ex|emote_id]; [discriminate|].
  destruct (existsb _ (emotes w)) eqn:Hfresh; [discriminate|].
  injection Hcreate as <- <-.
  set (row := mkDatabaseEmote n emote_id author_id is_animated None (utcnow cfg) None false
                (Some guild_id) "SFW" None) in *.
  assert (Hother : forall e, In e (emotes w) -> negb (id e =? emote_id) = true).
  { intros e He. apply negb_true_iff, not_true_is_false. intros Heq.
    assert (Hyes : existsb (fun e0 => id e0 =? emote_id) (emotes w) = true).
    { apply existsb_exists. eauto. }
    congruence. }
  assert (Hrows : List.filter (fun e => negb (id e =? emote_id)) (emotes w ++ [row]) = emotes w).
  { rewrite List.filter_app, (filter_keeps_all _ _ Hother). cbn.
    rewrite Z.eqb_refl. cbn. apply app_nil_r. }
  assert (Hhistory : List.filter (fun ev => negb (fst ev =? emote_id)) (emote_usage_history w)
                     = emote_usage_history w).
  { apply filter_keeps_all. intros ev Hev. destruct (Hrefs ev Hev) as (e & He & <-).
    apply Hother, He. }
  rewrite (remove_emote_run cfg (inl n) (Some author_id) row).
  2:{ cbn [designates emotes set_emotes add_event]. rewrite (find_app_None _ _ _ Hfree). cbn.
      unfold Str.ieq. rewrite String.eqb_refl. reflexivity. }
  assert (Hauth : authorized cfg row (Some author_id) = true).
  { unfold authorized. cbn. rewrite Z.eqb_refl. apply orb_true_r. }
  rewrite Hauth. unfold removal. cbv zeta.
  assert (Hsame : forall w', emotes w' = emotes w ++ [row] ->
            emote_usage_history w' = emote_usage_history w ->
            user_opt w' = user_opt w -> guild_opt w' = guild_opt w ->
            backend_guilds w' = backend_guilds w ->
            same_tables w (delete_emote_rows (usage_history_cascades cfg) emote_id w')).
  { intros w' He Hh Hu Hg Hb. unfold same_tables, delete_emote_rows.
    destruct (usage_history_cascades cfg); cbn; rewrite He, Hrows, ?Hh, ?Hhistory; auto. }
  destruct (delete_custom_emoji cfg (guild row) (id row)) as [ex|] eqn:Hcall.
  - rewrite (Hdelete ex eq_refl). eexists. split; [reflexivity|]. apply Hsame; reflexivity.
  - eexists. split; [reflexivity|]. apply Hsame; reflexivity.
Qed.

Lemma create_then_remove_restores_witness :
  exists row w1 w2,
    create_emote Sample.New.cfg "fresh" 44 false [] Sample.New.db = (Ok row, w1)
    /\ remove_emote Sample.New.cfg (inl "fresh") (Some 44) w1 = (Ok row, w2)
    /\ same_tables Sample.New.db w2.
Proof.
  destruct (create_emote Sample.New.cfg "fresh" 44 false [] Sample.New.db)
    as [[row|ex] w1] eqn:Hcreate; [|vm_compute in Hcreate; discriminate Hcreate].
  destruct (create_then_remove_restores Sample.New.cfg Sample.New.db "fresh" 44 false [] row w1
              Hcreate) as (w2 & Hremove & Hsame).
  - intros ex Hcall. apply (f_equal fst) in Hcreate. vm_compute in Hcreate.
    injection Hcreate as <-. vm_compute in Hcall. discriminate Hcall.
  - intros ev Hev. cbn in Hev.
    repeat (destruct Hev as [<-|Hev];
            [first [exists Sample.New.wave; split; [cbn; tauto|reflexivity]
                   |exists Sample.New.stale; split; [cbn; tauto|reflexivity]
                   |exists Sample.New.busy; split; [cbn; tauto|reflexivity]]|]).
    destruct Hev.
  - exists row, w1, w2. auto.
Defined.

End EmoteCollectorMore.
